(** * Floor-plan browsing, filtering and comparison

    A shallow embedding of the floor-plan feature of the hub front-end:
    the [FloorPlans] list component, the [FloorPlanComparisonModal] and the
    filter drawer of [FilterandNav], together with the [FloorPlanFilters]
    state declared in [App].

    The three components are React function components.  A component is
    embedded as
    - a record for its props and for each value a hook hands it,
    - a record for its [useState] cells,
    - pure functions for the values it derives ([useMemo] bodies and local
      helpers), and
    - a [render] function to a tree of elements, where event handlers appear
      as values of an event type and a [handle] function gives the state
      after an event.

    ECMAScript numbers are embedded as exact rationals extended with [NaN]
    and the two infinities; rounding to binary64 is outside the model. *)

From Stdlib Require Import Ascii String QArith Qround Sorted.
From stdpp Require Import base strings list gmap pretty.

Local Open Scope string_scope.
Local Open Scope Z_scope.

#[local] Set Warnings "-register-all".

(** ** ECMAScript values used by the components *)

Module JS.

(** A [number]: [NaN], [+Infinity]/[-Infinity], or a finite value. *)
Inductive number : Type :=
| NaN
| Infinity (negative : bool)
| Fin (q : Q).

Definition of_Z (z : Z) : number := Fin (inject_Z z).

(** *** Truthiness of [string | null | undefined] *)

(** [!!s]: a missing value and the empty string are falsy. *)
Definition truthy (s : option string) : bool :=
  match s with
  | Some s => negb (String.eqb s "")
  | None => false
  end.

(** [a || b] on optional strings. *)
Definition or_else (a b : option string) : option string :=
  if truthy a then a else b.

(** [a || "lit"], whose value is always a string. *)
Definition or_default (a : option string) (d : string) : string :=
  match a with
  | Some s => if String.eqb s "" then d else s
  | None => d
  end.

(** *** Scanning *)

(** [StrWhiteSpaceChar], restricted to the 8-bit characters of [string]. *)
Definition is_white_space (c : ascii) : bool :=
  let n := N_of_ascii c in
  ((9 <=? n) && (n <=? 13))%N || (n =? 32)%N.

Fixpoint trim_start (s : string) : string :=
  match s with
  | String c r => if is_white_space c then trim_start r else s
  | EmptyString => s
  end.

(** [s.trim()] removes white space at both ends. *)
Fixpoint trim_end (s : string) : string :=
  match s with
  | String c r =>
      match trim_end r with
      | EmptyString => if is_white_space c then EmptyString else String c EmptyString
      | kept => String c kept
      end
  | EmptyString => s
  end.

Definition trim (s : string) : string := trim_end (trim_start s).

Definition digit_of (c : ascii) : option Z :=
  let n := Z.of_N (N_of_ascii c) in
  if (48 <=? n) && (n <=? 57) then Some (n - 48) else None.

(** The longest prefix of decimal digits, and what follows it. *)
Fixpoint take_digits (s : string) : list Z * string :=
  match s with
  | String c r =>
      match digit_of c with
      | Some d => let '(ds, rest) := take_digits r in (d :: ds, rest)
      | None => ([], s)
      end
  | EmptyString => ([], s)
  end.

Definition digits_value (ds : list Z) : Z :=
  fold_left (fun acc d => 10 * acc + d) ds 0.

(** An optional leading [+] or [-]: is it negative, and the remainder. *)
Definition strip_sign (s : string) : bool * string :=
  match s with
  | String "-" r => (true, r)
  | String "+" r => (false, r)
  | _ => (false, s)
  end.

Definition signed (negative : bool) (z : Z) : Z :=
  if negative then - z else z.

(** *** [parseInt(s, 10)] *)

Definition parseInt (s : string) : number :=
  let '(negative, body) := strip_sign (trim_start s) in
  let '(ds, _) := take_digits body in
  match ds with
  | [] => NaN
  | _ => of_Z (signed negative (digits_value ds))
  end.

(** *** [parseFloat(s)] *)

Definition starts_with (p s : string) : bool :=
  String.eqb (String.substring 0 (String.length p) s) p.

(** [ExponentPart], when one follows; otherwise the exponent is 0. *)
Definition exponent_part (s : string) : Z :=
  match s with
  | String c r =>
      if Ascii.eqb c "e" || Ascii.eqb c "E" then
        let '(negative, body) := strip_sign r in
        let '(ds, _) := take_digits body in
        match ds with
        | [] => 0
        | _ => signed negative (digits_value ds)
        end
      else 0
  | EmptyString => 0
  end.

(** [mantissa * 10 ^ scale] as a rational. *)
Definition decimal (mantissa scale : Z) : Q :=
  if 0 <=? scale then inject_Z (mantissa * 10 ^ scale)
  else Qmake mantissa (Z.to_pos (10 ^ (- scale))).

Definition parseFloat (s : string) : number :=
  let '(negative, body) := strip_sign (trim_start s) in
  if starts_with "Infinity" body then Infinity negative
  else
    let '(ip, r1) := take_digits body in
    let '(fp, r2) :=
      match r1 with
      | String "." r => take_digits r
      | _ => ([], r1)
      end in
    match ip, fp with
    | [], [] => NaN
    | _, _ =>
        let e := exponent_part r2 in
        Fin (decimal (signed negative (digits_value (ip ++ fp)))
                     (e - Z.of_nat (length fp)))
    end.

(** *** Operators *)

Definition isNaN (n : number) : bool :=
  match n with NaN => true | _ => false end.

Definition Math_floor (n : number) : number :=
  match n with
  | Fin q => of_Z (Qfloor q)
  | _ => n
  end.

(** Rounding towards zero, used by [%]. *)
Definition truncate (q : Q) : Z := Z.quot (Qnum q) (Zpos (Qden q)).

(** [n % d] *)
Definition rem (n d : number) : number :=
  match n, d with
  | Fin a, Fin b =>
      if Qeq_bool b 0 then NaN
      else Fin (a - b * inject_Z (truncate (a / b)))%Q
  | Fin a, Infinity _ => Fin a
  | _, _ => NaN
  end.

(** [a !== b] on numbers. *)
Definition strict_neq (a b : number) : bool :=
  match a, b with
  | Fin x, Fin y => negb (Qeq_bool x y)
  | Infinity s, Infinity t => negb (Bool.eqb s t)
  | _, _ => true
  end.

(** [a < b] on numbers; every comparison with [NaN] is false. *)
Definition lt (a b : number) : bool :=
  match a, b with
  | Fin x, Fin y => negb (Qle_bool y x)
  | Fin _, Infinity negative => negb negative
  | Infinity negative, Fin _ => negative
  | Infinity s, Infinity t => s && negb t
  | _, _ => false
  end.

(** [a > b] *)
Definition gt (a b : number) : bool := lt b a.

(** Digits of the fractional part [num / den] (with [num < den]), by long
    division, at most [fuel] of them. *)
Fixpoint fraction_digits (fuel : nat) (num den : Z) : string :=
  match fuel with
  | O => ""
  | S fuel' =>
      if num =? 0 then ""
      else pretty (10 * num / den) +:+ fraction_digits fuel' (10 * num mod den) den
  end.

(** [String(n)], as a template literal prints a number.  An integral
    value prints as its decimal digits; the components print nothing but
    [Math.floor] results.  Another finite value prints here as its integer
    part and up to twenty digits of its fraction. *)
Definition toString (n : number) : string :=
  match n with
  | NaN => "NaN"
  | Infinity negative => if negative then "-Infinity" else "Infinity"
  | Fin q =>
      let t := truncate q in
      let r := Z.abs (Qnum q) mod Zpos (Qden q) in
      if r =? 0 then pretty t
      else (if Qnum q <? 0 then "-" else "") +:+ pretty (Z.abs t) +:+ "."
           +:+ fraction_digits 20 r (Zpos (Qden q))
  end.

(** *** [parseInt(s)] without a radix *)

Definition hex_digit_of (c : ascii) : option Z :=
  let n := Z.of_N (N_of_ascii c) in
  if (48 <=? n) && (n <=? 57) then Some (n - 48)
  else if (97 <=? n) && (n <=? 102) then Some (n - 87)
  else if (65 <=? n) && (n <=? 70) then Some (n - 55)
  else None.

Fixpoint take_hex_digits (s : string) : list Z :=
  match s with
  | String c r =>
      match hex_digit_of c with
      | Some d => d :: take_hex_digits r
      | None => []
      end
  | EmptyString => []
  end.

Definition hex_value (ds : list Z) : Z :=
  fold_left (fun acc d => 16 * acc + d) ds 0.

(** After the sign a prefix [0x] or [0X] selects radix 16; otherwise the
    radix is 10. *)
Definition parseInt_auto (s : string) : number :=
  let '(negative, body) := strip_sign (trim_start s) in
  let decimal_digits :=
    let '(ds, _) := take_digits body in
    match ds with
    | [] => NaN
    | _ => of_Z (signed negative (digits_value ds))
    end in
  match body with
  | String "0" (String x r) =>
      if Ascii.eqb x "x" || Ascii.eqb x "X" then
        match take_hex_digits r with
        | [] => NaN
        | ds => of_Z (signed negative (hex_value ds))
        end
      else decimal_digits
  | _ => decimal_digits
  end.

(** *** More operators *)

(** [a - b] *)
Definition sub (a b : number) : number :=
  match a, b with
  | Fin x, Fin y => Fin (x - y)%Q
  | Fin _, Infinity negative => Infinity (negb negative)
  | Infinity negative, Fin _ => Infinity negative
  | Infinity s, Infinity t => if Bool.eqb s t then NaN else Infinity s
  | _, _ => NaN
  end.

(** [Math.min(a, b)] and [Math.max(a, b)] *)
Definition Math_min (a b : number) : number :=
  match a, b with
  | NaN, _ | _, NaN => NaN
  | _, _ => if lt b a then b else a
  end.

Definition Math_max (a b : number) : number :=
  match a, b with
  | NaN, _ | _, NaN => NaN
  | _, _ => if lt a b then b else a
  end.

(** [a === b] on numbers. *)
Definition strict_eq (a b : number) : bool := negb (strict_neq a b).

(** [!!n]: zero and [NaN] are falsy. *)
Definition truthy_number (n : number) : bool :=
  match n with
  | NaN => false
  | Infinity _ => true
  | Fin q => negb (Qeq_bool q 0)
  end.

(** *** [Array.prototype.sort] *)

(** Where [y] is an element already placed and [x] the next one, [x] goes
    before the first [y] that the comparator puts after it. *)
Fixpoint sort_insert {A} (cmp : A -> A -> number) (x : A) (l : list A)
  : list A :=
  match l with
  | [] => [x]
  | y :: l' =>
      if gt (cmp y x) (of_Z 0) then x :: l else y :: sort_insert cmp x l'
  end.

(** [l.sort(cmp)]: the stable sort, which is what the method returns for a
    consistent comparator.  A comparator result of [NaN] counts as 0; for
    an inconsistent comparator the language leaves the order open, and
    this is one of the orders. *)
Definition sort_by {A} (cmp : A -> A -> number) (l : list A) : list A :=
  fold_left (fun sorted x => sort_insert cmp x sorted) l [].

(** The comparison of [l.sort()] on strings: by code units. *)
Definition default_compare (a b : string) : number :=
  match String.compare a b with
  | Lt => of_Z (-1)
  | Eq => of_Z 0
  | Gt => of_Z 1
  end.

(** *** [Number(s)] and [s.split(c)] *)

(** The value of [s] in a radix up to 16 when [s] is one or more digits
    of that radix and nothing else. *)
Fixpoint radix_digits (radix : Z) (s : string) : option (list Z) :=
  match s with
  | String c r =>
      match hex_digit_of c with
      | Some d =>
          if d <? radix then
            match r with
            | EmptyString => Some [d]
            | _ => option_map (cons d) (radix_digits radix r)
            end
          else None
      | None => None
      end
  | EmptyString => None
  end.

Definition radix_value (radix : Z) (s : string) : option Z :=
  match radix_digits radix s with
  | Some ds => Some (fold_left (fun acc d => radix * acc + d) ds 0)
  | None => None
  end.

(** [0x], [0o] and [0b] literals. *)
Definition non_decimal_literal (s : string) : option Z :=
  match s with
  | String "0" (String x r) =>
      if Ascii.eqb x "x" || Ascii.eqb x "X" then radix_value 16 r
      else if Ascii.eqb x "o" || Ascii.eqb x "O" then radix_value 8 r
      else if Ascii.eqb x "b" || Ascii.eqb x "B" then radix_value 2 r
      else None
  | _ => None
  end.

(** An exponent part at the head of [s], and what follows it. *)
Definition scan_exponent (s : string) : Z * string :=
  match s with
  | String c r =>
      if Ascii.eqb c "e" || Ascii.eqb c "E" then
        let '(negative, body) := strip_sign r in
        let '(ds, rest) := take_digits body in
        match ds with
        | [] => (0, s)
        | _ => (signed negative (digits_value ds), rest)
        end
      else (0, s)
  | EmptyString => (0, s)
  end.

(** The longest decimal literal at the head of [s], and what follows it. *)
Definition scan_decimal (s : string) : option (number * string) :=
  let '(negative, body) := strip_sign s in
  if starts_with "Infinity" body
  then Some (Infinity negative, String.substring 8 (String.length body) body)
  else
    let '(ip, r1) := take_digits body in
    let '(fp, r2) :=
      match r1 with
      | String "." r => take_digits r
      | _ => ([], r1)
      end in
    match ip, fp with
    | [], [] => None
    | _, _ =>
        let '(e, r3) := scan_exponent r2 in
        Some (Fin (decimal (signed negative (digits_value (ip ++ fp)))
                           (e - Z.of_nat (length fp))),
              r3)
    end.

(** [Number(s)]: the whole text, blanks at both ends apart, must be a
    numeric literal; the empty text is 0. *)
Definition Number (s : string) : number :=
  let t := trim s in
  if String.eqb t "" then of_Z 0
  else
    match non_decimal_literal t with
    | Some z => of_Z z
    | None =>
        match scan_decimal t with
        | Some (n, EmptyString) => n
        | _ => NaN
        end
    end.

(** [s.split(c)] for a separator of one character. *)
Fixpoint split (sep : ascii) (s : string) : list string :=
  match s with
  | EmptyString => [EmptyString]
  | String c r =>
      if Ascii.eqb c sep then EmptyString :: split sep r
      else
        match split sep r with
        | piece :: pieces => String c piece :: pieces
        | [] => [String c EmptyString]
        end
  end.

End JS.

(** ** Data supplied by the API and the project configuration *)

Module FloorPlanResponse.
(** The fields of a floor plan that the components read.  Image
    collections ([floorPlanPhoto], [keyPlan], [renderings]) only feed
    [<img>] elements and are left out, with those elements. *)
Record t : Type := {
  id : string;
  projectId : option string;
  name : option string;
  bedRooms : option string;
  bathRooms : option string;
  totalSize : option string;
  interiorSize : option string;
  exteriorSize : option string;
}.
End FloorPlanResponse.

Module Project.
Record t : Type := {
  projectId : option string;
  name : string;
}.
End Project.

Module ProjectConfig.
Record t : Type := {
  slug : string;
  projects : list Project.t;
}.
End ProjectConfig.

(** [FloorPlanFilters], declared in [App]. *)
Module FloorPlanFilters.
Record range : Type := {
  min : JS.number;
  max : JS.number;
}.

Record t : Type := {
  projectName : string;
  bedrooms : string;
  bathrooms : string;
  sizeRange : option range;
}.

(** The initial filter state of [App], also what [clearFilters] sets. *)
Definition initial : t :=
  {| projectName := ""; bedrooms := ""; bathrooms := ""; sizeRange := None |}.

(** [{ ...prev, [key]: value }] for each of the four keys. *)
Definition set_projectName (v : string) (f : t) : t :=
  {| projectName := v; bedrooms := bedrooms f;
     bathrooms := bathrooms f; sizeRange := sizeRange f |}.
Definition set_bedrooms (v : string) (f : t) : t :=
  {| projectName := projectName f; bedrooms := v;
     bathrooms := bathrooms f; sizeRange := sizeRange f |}.
Definition set_bathrooms (v : string) (f : t) : t :=
  {| projectName := projectName f; bedrooms := bedrooms f;
     bathrooms := v; sizeRange := sizeRange f |}.
Definition set_sizeRange (v : option range) (f : t) : t :=
  {| projectName := projectName f; bedrooms := bedrooms f;
     bathrooms := bathrooms f; sizeRange := v |}.
End FloorPlanFilters.

(** ** The hooks, as the components see them *)

(** The arguments of a [useFloorPlans(slugs, options)] call. *)
Module UseFloorPlansCall.
Record t : Type := {
  slugs : list string;
  enabled : bool;
  refetchOnWindowFocus : bool;
  staleTime : Z;
}.
End UseFloorPlansCall.

(** What [useFloorPlans] returns.  [data] stands for [data?.data]: the
    fetched list, or nothing while there is none. *)
Module UseFloorPlans.
Record error_t : Type := { message : option string }.

Record t : Type := {
  data : option (list FloorPlanResponse.t);
  isLoading : bool;
  error : option error_t;
  isError : bool;
}.
End UseFloorPlans.

(** What [useFavorites] returns; [toggleFavorite] acts on the store that
    lives outside the component. *)
Module UseFavorites.
Record t : Type := {
  favorites : list string;
  isFavorite : string -> bool;
}.
End UseFavorites.

(** ** Element trees *)

Module View.

(** A rendered element: text, a host element with its class, click
    handler and children, or one of the child components with the props
    it is given.  Icons and images are not represented. *)
Inductive vnode (E : Type) : Type :=
| VText (s : string)
| VElem (tag className : string) (onClick : option E)
        (children : list (vnode E))
| VFloorPlanCard (floorPlan : FloorPlanResponse.t)
                 (projectName : option string) (isFavorite : bool)
                 (onToggleFavorite onClick : E)
| VFloorPlanDetailModal (floorPlan : option FloorPlanResponse.t)
                        (isOpen : bool) (onClose : E)
| VFloorPlanComparisonModal
    (isOpen : bool) (onClose : E)
    (favoritedFloorPlans : list FloorPlanResponse.t)
    (config : ProjectConfig.t)
    (getProjectName : option string -> option string)
| VFloorPlanDetails (floorPlan : FloorPlanResponse.t) (index : nat)
                    (isExpanded : bool).

Arguments VText {E} s.
Arguments VElem {E} tag className onClick children.
Arguments VFloorPlanCard {E} floorPlan projectName isFavorite
  onToggleFavorite onClick.
Arguments VFloorPlanDetailModal {E} floorPlan isOpen onClose.
Arguments VFloorPlanComparisonModal {E} isOpen onClose favoritedFloorPlans
  config getProjectName.
Arguments VFloorPlanDetails {E} floorPlan index isExpanded.

(** The number of nodes of a tree, the root included, that satisfy [p]. *)
Fixpoint count {E} (p : vnode E -> bool) (v : vnode E) : nat :=
  ((if p v then 1 else 0) +
   match v with
   | VElem _ _ _ children =>
       (fix go (vs : list (vnode E)) : nat :=
          match vs with
          | [] => 0
          | c :: vs' => count p c + go vs'
          end) children
   | _ => 0
   end)%nat.

(** The same over a fragment. *)
Definition count_all {E} (p : vnode E -> bool) (vs : list (vnode E)) : nat :=
  foldr (fun v n => (count p v + n)%nat) 0%nat vs.

(** The text a tree shows, children left to right. *)
Fixpoint textContent {E} (v : vnode E) : string :=
  match v with
  | VText s => s
  | VElem _ _ _ children =>
      (fix go (vs : list (vnode E)) : string :=
         match vs with
         | [] => ""
         | c :: vs' => textContent c +:+ go vs'
         end) children
  | _ => ""
  end.

Definition has_class {E} (c : string) (v : vnode E) : bool :=
  match v with
  | VElem _ c' _ _ => String.eqb c c'
  | _ => false
  end.

Definition is_detail_modal {E} (v : vnode E) : bool :=
  match v with VFloorPlanDetailModal _ _ _ => true | _ => false end.

Definition is_comparison_modal {E} (v : vnode E) : bool :=
  match v with VFloorPlanComparisonModal _ _ _ _ _ => true | _ => false end.

Definition is_details {E} (v : vnode E) : bool :=
  match v with VFloorPlanDetails _ _ _ => true | _ => false end.

(** The [favoritedFloorPlans] prop of every comparison modal in a tree. *)
Fixpoint comparison_inputs {E} (v : vnode E)
  : list (list FloorPlanResponse.t) :=
  match v with
  | VFloorPlanComparisonModal _ _ favs _ _ => [favs]
  | VElem _ _ _ children =>
      (fix go (vs : list (vnode E)) :=
         match vs with
         | [] => []
         | c :: vs' => (comparison_inputs c ++ go vs')%list
         end) children
  | _ => []
  end.

End View.

(** ** [FloorPlans]: the filtered grid and the entry to the comparison *)

Module FloorPlans.

Record props : Type := {
  projectSlugs : option (list string);
  config : ProjectConfig.t;
  filters : FloorPlanFilters.t;
}.

(** The three [useState] cells. *)
Record state : Type := {
  selectedFloorPlan : option FloorPlanResponse.t;
  isModalOpen : bool;
  isCompareModalOpen : bool;
}.

Definition initial_state : state :=
  {| selectedFloorPlan := None; isModalOpen := false;
     isCompareModalOpen := false |}.

Inductive event : Type :=
| CardClick (floorPlan : FloorPlanResponse.t)
| CloseModal
| ToggleFavorite (floorPlanId : string)
| OpenCompare
| CloseCompare.

(** [projectSlugs || ["ansoku", "solin", "willa"]]; an array, even an
    empty one, is truthy. *)
Definition slugs (p : props) : list string :=
  match projectSlugs p with
  | Some given => given
  | None => ["ansoku"; "solin"; "willa"]
  end.

Definition useFloorPlans_call (p : props) : UseFloorPlansCall.t :=
  {| UseFloorPlansCall.slugs := slugs p;
     UseFloorPlansCall.enabled := true;
     UseFloorPlansCall.refetchOnWindowFocus := false;
     UseFloorPlansCall.staleTime := 5 * 60 * 1000 |}.

(** [config.projects.forEach(...)] into a fresh [Map]: a later project
    with the same id overwrites an earlier one. *)
Definition projectNameMap (c : ProjectConfig.t) : gmap string string :=
  fold_left
    (fun (m : gmap string string) (project : Project.t) =>
       match Project.projectId project with
       | Some pid =>
           if String.eqb pid "" then m else <[pid := Project.name project]> m
       | None => m
       end)
    (ProjectConfig.projects c) ∅.

Definition getProjectName (c : ProjectConfig.t) (projectId : option string)
  : option string :=
  match projectId with
  | Some pid =>
      if String.eqb pid "" then None
      else
        match projectNameMap c !! pid with
        | Some n => if String.eqb n "" then None else Some n
        | None => None
        end
  | None => None
  end.

(** [a !== b] between an optional string and a string. *)
Definition differs (a : option string) (b : string) : bool :=
  match a with
  | Some s => negb (String.eqb s b)
  | None => true
  end.

(** The callback given to [data.data.filter]. *)
Definition keeps (c : ProjectConfig.t) (f : FloorPlanFilters.t)
    (fp : FloorPlanResponse.t) : bool :=
  if negb (String.eqb (FloorPlanFilters.projectName f) "")
     && differs (getProjectName c (FloorPlanResponse.projectId fp))
                (FloorPlanFilters.projectName f)
  then false
  else if negb (String.eqb (FloorPlanFilters.bedrooms f) "")
          && differs (FloorPlanResponse.bedRooms fp)
                     (FloorPlanFilters.bedrooms f)
  then false
  else if negb (String.eqb (FloorPlanFilters.bathrooms f) "")
          && differs (FloorPlanResponse.bathRooms fp)
                     (FloorPlanFilters.bathrooms f)
  then false
  else
    match FloorPlanFilters.sizeRange f with
    | Some r =>
        let size :=
          JS.parseInt
            (JS.or_default
               (JS.or_else (FloorPlanResponse.totalSize fp)
                           (FloorPlanResponse.interiorSize fp))
               "0") in
        if JS.lt size (FloorPlanFilters.min r)
           || JS.gt size (FloorPlanFilters.max r)
        then false
        else true
    | None => true
    end.

Definition filteredFloorPlans (c : ProjectConfig.t) (f : FloorPlanFilters.t)
    (data : option (list FloorPlanResponse.t)) : list FloorPlanResponse.t :=
  match data with
  | None => []
  | Some fetched => List.filter (keeps c f) fetched
  end.

(** [favorites.includes(id)] *)
Definition includes (favorites : list string) (x : string) : bool :=
  existsb (String.eqb x) favorites.

Definition favoritedFloorPlans (favorites : list string)
    (data : option (list FloorPlanResponse.t)) : list FloorPlanResponse.t :=
  match data with
  | None => []
  | Some fetched =>
      List.filter (fun fp => includes favorites (FloorPlanResponse.id fp))
                  fetched
  end.

Definition canCompare (favorites : list string)
    (data : option (list FloorPlanResponse.t)) : bool :=
  (2 <=? length (favoritedFloorPlans favorites data))%nat.

(** The state after an event; [ToggleFavorite] is forwarded to the
    favorites store and leaves the component's own cells alone. *)
Definition handle (ev : event) (st : state) : state :=
  match ev with
  | CardClick fp =>
      {| selectedFloorPlan := Some fp; isModalOpen := true;
         isCompareModalOpen := isCompareModalOpen st |}
  | CloseModal =>
      {| selectedFloorPlan := None; isModalOpen := false;
         isCompareModalOpen := isCompareModalOpen st |}
  | ToggleFavorite _ => st
  | OpenCompare =>
      {| selectedFloorPlan := selectedFloorPlan st;
         isModalOpen := isModalOpen st; isCompareModalOpen := true |}
  | CloseCompare =>
      {| selectedFloorPlan := selectedFloorPlan st;
         isModalOpen := isModalOpen st; isCompareModalOpen := false |}
  end.

Definition card (c : ProjectConfig.t) (fav : UseFavorites.t)
    (floorPlan : FloorPlanResponse.t) : View.vnode event :=
  View.VFloorPlanCard floorPlan
    (getProjectName c (FloorPlanResponse.projectId floorPlan))
    (UseFavorites.isFavorite fav (FloorPlanResponse.id floorPlan))
    (ToggleFavorite (FloorPlanResponse.id floorPlan))
    (CardClick floorPlan).

(** [error?.message || "Unknown error"] *)
Definition error_text (q : UseFloorPlans.t) : string :=
  JS.or_default
    (match UseFloorPlans.error q with
     | Some e => UseFloorPlans.message e
     | None => None
     end)
    "Unknown error".

(** The returned fragment, branch by branch as the component tests them:
    loading, then error, then no data, then the grid. *)
Definition render (p : props) (q : UseFloorPlans.t) (fav : UseFavorites.t)
    (st : state) : list (View.vnode event) :=
  let data := UseFloorPlans.data q in
  let filtered := filteredFloorPlans (config p) (filters p) data in
  let favorited := favoritedFloorPlans (UseFavorites.favorites fav) data in
  if UseFloorPlans.isLoading q then
    [View.VElem "div" "proxima-hub-floor-plans-container" None
       [View.VElem "div" "proxima-hub-floor-plans-loading" None
          [View.VText "Loading floor plans..."]]]
  else if UseFloorPlans.isError q then
    [View.VElem "div" "proxima-hub-floor-plans-container" None
       [View.VElem "div" "proxima-hub-floor-plans-error" None
          [View.VText "Error loading floor plans: ";
           View.VText (error_text q)]]]
  else if match data with
          | None => true
          | Some fetched => (length fetched =? 0)%nat
          end then
    [View.VElem "div" "proxima-hub-floor-plans-container" None
       [View.VElem "div" "proxima-hub-floor-plans-empty" None
          [View.VText "No floor plans available"]]]
  else
    ([View.VElem "div" "proxima-hub-floor-plans-container" None
        [View.VElem "div" "proxima-hub-floor-plans-grid" None
           (if (length filtered =? 0)%nat then
              [View.VElem "div" "proxima-hub-floor-plans-no-results" None
                 [View.VText "No floor plans match your filters"]]
            else List.map (card (config p) fav) filtered)]]
     ++ (if canCompare (UseFavorites.favorites fav) data then
           [View.VElem "div" "proxima-hub-floor-plans-compare-container" None
              [View.VElem "button" "proxima-hub-floor-plans-compare-btn"
                 (Some OpenCompare) [View.VText "Compare"]]]
         else [])
     ++ [View.VFloorPlanDetailModal (selectedFloorPlan st) (isModalOpen st)
           CloseModal;
         View.VFloorPlanComparisonModal (isCompareModalOpen st) CloseCompare
           favorited (config p) (getProjectName (config p))])%list.

End FloorPlans.

(** ** [FilterandNav]: the filter drawer and its result count *)

Module FilterandNav.

Record props : Type := {
  config : ProjectConfig.t;
  activeTab : string;
  filters : FloorPlanFilters.t;
}.

Definition slugs : list string := ["ansoku"; "solin"; "willa"].

Definition useFloorPlans_call (p : props) : UseFloorPlansCall.t :=
  {| UseFloorPlansCall.slugs := slugs;
     UseFloorPlansCall.enabled := String.eqb (activeTab p) "floor-plans";
     UseFloorPlansCall.refetchOnWindowFocus := false;
     UseFloorPlansCall.staleTime := 5 * 60 * 1000 |}.

Definition projectNameMap (c : ProjectConfig.t) : gmap string string :=
  fold_left
    (fun (m : gmap string string) (project : Project.t) =>
       match Project.projectId project with
       | Some pid =>
           if String.eqb pid "" then m else <[pid := Project.name project]> m
       | None => m
       end)
    (ProjectConfig.projects c) ∅.

Definition getProjectName (c : ProjectConfig.t) (projectId : option string)
  : option string :=
  match projectId with
  | Some pid =>
      if String.eqb pid "" then None
      else
        match projectNameMap c !! pid with
        | Some n => if String.eqb n "" then None else Some n
        | None => None
        end
  | None => None
  end.

(** [a !== b] between an optional string and a string. *)
Definition differs (a : option string) (b : string) : bool :=
  match a with
  | Some s => negb (String.eqb s b)
  | None => true
  end.

(** The drawer's own filter callback. *)
Definition counts (c : ProjectConfig.t) (f : FloorPlanFilters.t)
    (fp : FloorPlanResponse.t) : bool :=
  if negb (String.eqb (FloorPlanFilters.projectName f) "")
     && differs (getProjectName c (FloorPlanResponse.projectId fp))
                (FloorPlanFilters.projectName f)
  then false
  else if negb (String.eqb (FloorPlanFilters.bedrooms f) "")
          && differs (FloorPlanResponse.bedRooms fp)
                     (FloorPlanFilters.bedrooms f)
  then false
  else if negb (String.eqb (FloorPlanFilters.bathrooms f) "")
          && differs (FloorPlanResponse.bathRooms fp)
                     (FloorPlanFilters.bathrooms f)
  then false
  else
    match FloorPlanFilters.sizeRange f with
    | Some r =>
        let size :=
          JS.parseInt
            (JS.or_default
               (JS.or_else (FloorPlanResponse.totalSize fp)
                           (FloorPlanResponse.interiorSize fp))
               "0") in
        if JS.lt size (FloorPlanFilters.min r)
           || JS.gt size (FloorPlanFilters.max r)
        then false
        else true
    | None => true
    end.

Definition filteredCount (c : ProjectConfig.t) (f : FloorPlanFilters.t)
    (data : option (list FloorPlanResponse.t)) : nat :=
  match data with
  | None => 0%nat
  | Some fetched => length (List.filter (counts c f) fetched)
  end.

Definition clearFilters : FloorPlanFilters.t := FloorPlanFilters.initial.

(** [[projectName, bedrooms, bathrooms, sizeRange].filter(Boolean).length] *)
Definition activeFilterCount (f : FloorPlanFilters.t) : nat :=
  length
    (List.filter (fun b : bool => b)
       [negb (String.eqb (FloorPlanFilters.projectName f) "");
        negb (String.eqb (FloorPlanFilters.bedrooms f) "");
        negb (String.eqb (FloorPlanFilters.bathrooms f) "");
        match FloorPlanFilters.sizeRange f with
        | Some _ => true
        | None => false
        end]).

(** The drawer's [formatBedrooms]: no [isNaN] test. *)
Definition formatBedrooms (beds : option string) : string :=
  match beds with
  | None => "0 Beds"
  | Some s =>
      if String.eqb s "" then "0 Beds"
      else
        let num := JS.parseFloat s in
        let whole := JS.Math_floor num in
        let hasDecimal := JS.strict_neq (JS.rem num (JS.of_Z 1)) (JS.of_Z 0) in
        let plural := if JS.strict_neq whole (JS.of_Z 1) then "s" else "" in
        if hasDecimal
        then JS.toString whole +:+ " Bed" +:+ plural +:+ " + Den"
        else JS.toString whole +:+ " Bed" +:+ plural
  end.

Definition formatBathrooms (baths : option string) : string :=
  match baths with
  | None => "0 Baths"
  | Some s =>
      if String.eqb s "" then "0 Baths"
      else
        let num := JS.parseFloat s in
        let whole := JS.Math_floor num in
        let hasDecimal := JS.strict_neq (JS.rem num (JS.of_Z 1)) (JS.of_Z 0) in
        let plural := if JS.strict_neq whole (JS.of_Z 1) then "s" else "" in
        if hasDecimal
        then JS.toString whole +:+ " Bath" +:+ plural +:+ " + Powder"
        else JS.toString whole +:+ " Bath" +:+ plural
  end.

(** *** The options of the drawer *)

Record options : Type := {
  projects : list string;
  bedrooms : list string;
  bathrooms : list string;
  sizeRange : FloorPlanFilters.range;
}.

(** [set.add(x)]: a [Set] keeps its elements in insertion order. *)
Definition add (x : string) (set : list string) : list string :=
  if existsb (String.eqb x) set then set else (set ++ [x])%list.

(** The five variables of the loop over the fetched plans. *)
Record scan : Type := {
  seen_projects : list string;
  seen_bedrooms : list string;
  seen_bathrooms : list string;
  minSize : JS.number;
  maxSize : JS.number;
}.

Definition scan_start : scan :=
  {| seen_projects := []; seen_bedrooms := []; seen_bathrooms := [];
     minSize := JS.Infinity false; maxSize := JS.of_Z 0 |}.

(** The body of [data.data.forEach]. *)
Definition scan_step (c : ProjectConfig.t) (a : scan)
    (fp : FloorPlanResponse.t) : scan :=
  let size :=
    JS.parseInt
      (JS.or_default
         (JS.or_else (FloorPlanResponse.totalSize fp)
                     (FloorPlanResponse.interiorSize fp))
         "0") in
  {| seen_projects :=
       match getProjectName c (FloorPlanResponse.projectId fp) with
       | Some projectName =>
           if String.eqb projectName "" then seen_projects a
           else add projectName (seen_projects a)
       | None => seen_projects a
       end;
     seen_bedrooms :=
       match FloorPlanResponse.bedRooms fp with
       | Some beds =>
           if String.eqb beds "" then seen_bedrooms a
           else add beds (seen_bedrooms a)
       | None => seen_bedrooms a
       end;
     seen_bathrooms :=
       match FloorPlanResponse.bathRooms fp with
       | Some baths =>
           if String.eqb baths "" then seen_bathrooms a
           else add baths (seen_bathrooms a)
       | None => seen_bathrooms a
       end;
     minSize :=
       if JS.gt size (JS.of_Z 0) then JS.Math_min (minSize a) size
       else minSize a;
     maxSize :=
       if JS.gt size (JS.of_Z 0) then JS.Math_max (maxSize a) size
       else maxSize a |}.

Definition filterOptions (c : ProjectConfig.t)
    (data : option (list FloorPlanResponse.t)) : options :=
  match data with
  | None =>
      {| projects := []; bedrooms := []; bathrooms := [];
         sizeRange := {| FloorPlanFilters.min := JS.of_Z 0;
                         FloorPlanFilters.max := JS.of_Z 5000 |} |}
  | Some fetched =>
      let a := fold_left (scan_step c) fetched scan_start in
      {| projects := JS.sort_by JS.default_compare (seen_projects a);
         bedrooms :=
           JS.sort_by
             (fun x y => JS.sub (JS.parseInt_auto x) (JS.parseInt_auto y))
             (seen_bedrooms a);
         bathrooms :=
           JS.sort_by
             (fun x y => JS.sub (JS.parseFloat x) (JS.parseFloat y))
             (seen_bathrooms a);
         sizeRange :=
           {| FloorPlanFilters.min :=
                if JS.strict_eq (minSize a) (JS.Infinity false)
                then JS.of_Z 0 else minSize a;
              FloorPlanFilters.max :=
                if JS.truthy_number (maxSize a) then maxSize a
                else JS.of_Z 5000 |} |}
  end.

(** *** The size select *)

(** The [value]s of its options, the empty one apart. *)
Definition sizeOptionValues : list string :=
  ["0-1000"; "1000-1500"; "1500-2000"; "2000-99999"].

(** Its [onChange]: [value.split("-").map(Number)], destructured into
    [min] and [max].  A missing piece is [undefined] there, which compares
    as [NaN]; the select only delivers the values of its options. *)
Definition selectSize (value : string) : option FloorPlanFilters.range :=
  if String.eqb value "" then None
  else
    let pieces := List.map JS.Number (JS.split "-" value) in
    Some {| FloorPlanFilters.min := nth 0 pieces JS.NaN;
            FloorPlanFilters.max := nth 1 pieces JS.NaN |}.

(** Its [value]: [`${min}-${max}`], or the empty text. *)
Definition sizeSelectValue (f : FloorPlanFilters.t) : string :=
  match FloorPlanFilters.sizeRange f with
  | Some r =>
      JS.toString (FloorPlanFilters.min r) +:+ "-"
      +:+ JS.toString (FloorPlanFilters.max r)
  | None => ""
  end.

(** *** What the drawer and the tab row render *)

(** The handlers: the tab buttons, the filter button and the backdrop, the
    Clear button, and the four selects, where choosing an option is the
    [onChange] of its select with the option's [value]. *)
Inductive event : Type :=
| TabClick (tab : string)
| OpenFilter
| CloseFilter
| ClearFilters
| ChangeProjectName (value : string)
| ChangeBedrooms (value : string)
| ChangeBathrooms (value : string)
| ChangeSize (value : string).

(** [getSizeRangeLabel]; [toLocaleString] is the runtime's. *)
Definition getSizeRangeLabel (toLocaleString : JS.number -> string)
    (range : option FloorPlanFilters.range) : string :=
  match range with
  | None => ""
  | Some r =>
      if JS.strict_eq (FloorPlanFilters.max r) (JS.of_Z 99999)
      then "2,000+ sqft"
      else if JS.strict_eq (FloorPlanFilters.min r) (JS.of_Z 0)
      then "Under " +:+ toLocaleString (FloorPlanFilters.max r) +:+ " sqft"
      else toLocaleString (FloorPlanFilters.min r) +:+ " - "
           +:+ toLocaleString (FloorPlanFilters.max r) +:+ " sqft"
  end.

(** The chip of an active filter, with its remove button. *)
Definition chip (label : string) (remove : event) : View.vnode event :=
  View.VElem "div" "fp-filter-chips" None
    [View.VElem "div" "fp-filter-chip" None
       [View.VElem "span" "" None [View.VText label];
        View.VElem "button" "" (Some remove) [View.VText "×"]]].

Definition option_of (change : string -> event) (value label : string)
  : View.vnode event :=
  View.VElem "option" "" (Some (change value)) [View.VText label].

(** One section of the drawer: label, chip when the filter is set, and the
    select with its empty option first. *)
Definition section (label : string) (active : bool) (chip_label : string)
    (change : string -> event) (choices : list (string * string))
  : View.vnode event :=
  View.VElem "div" "fp-filter-section" None
    ([View.VElem "label" "fp-filter-label" None [View.VText label]]
     ++ (if active then [chip chip_label (change "")] else [])
     ++ [View.VElem "div" "fp-filter-select-wrapper" None
           [View.VElem "select" "fp-filter-select" None
              (option_of change "" "Please select"
               :: List.map (fun choice => option_of change (fst choice) (snd choice))
                           choices)]])%list.

Definition drawer (toLocaleString : JS.number -> string) (p : props)
    (isFilterOpen : bool) (data : option (list FloorPlanResponse.t))
  : list (View.vnode event) :=
  let o := filterOptions (config p) data in
  let f := filters p in
  let count := filteredCount (config p) f data in
  ((if isFilterOpen
    then [View.VElem "div" "fp-filter-backdrop" (Some CloseFilter) []]
    else [])
   ++ [View.VElem "div"
         ("fp-filter-drawer " +:+ (if isFilterOpen then "open" else "")) None
         [View.VElem "div" "fp-filter-drawer-header" None
            [View.VElem "h2" "" None [View.VText "Filters"];
             View.VElem "button" "fp-filter-clear-btn" (Some ClearFilters)
               [View.VText "Clear"]];
          View.VElem "div" "fp-filter-drawer-content" None
            [section "Project"
               (negb (String.eqb (FloorPlanFilters.projectName f) ""))
               (FloorPlanFilters.projectName f) ChangeProjectName
               (List.map (fun project => (project, project)) (projects o));
             section "Bedrooms"
               (negb (String.eqb (FloorPlanFilters.bedrooms f) ""))
               (formatBedrooms (Some (FloorPlanFilters.bedrooms f)))
               ChangeBedrooms
               (List.map (fun bed => (bed, formatBedrooms (Some bed)))
                         (bedrooms o));
             section "Bathrooms"
               (negb (String.eqb (FloorPlanFilters.bathrooms f) ""))
               (formatBathrooms (Some (FloorPlanFilters.bathrooms f)))
               ChangeBathrooms
               (List.map (fun bath => (bath, formatBathrooms (Some bath)))
                         (bathrooms o));
             section "Size"
               (match FloorPlanFilters.sizeRange f with
                | Some _ => true
                | None => false
                end)
               (getSizeRangeLabel toLocaleString (FloorPlanFilters.sizeRange f))
               ChangeSize
               [("0-1000", "Under 1,000 sqft");
                ("1000-1500", "1,000 - 1,500 sqft");
                ("1500-2000", "1,500 - 2,000 sqft");
                ("2000-99999", "2,000+ sqft")];
             View.VElem "div" "fp-filter-results" None
               [View.VText (pretty (Z.of_nat count)); View.VText " ";
                View.VText (if (count =? 1)%nat then "result" else "results")]]]])%list.

Definition tab_button (p : props) (tab label : string) : View.vnode event :=
  View.VElem "button"
    ("proxima-hub-tab " +:+ (if String.eqb (activeTab p) tab then "active" else ""))
    (Some (TabClick tab)) [View.VText label].

(** The tab row, rendered for the hub whose slug is ["lightwell"]. *)
Definition nav (p : props) (showMap : bool) : list (View.vnode event) :=
  if String.eqb (ProjectConfig.slug (config p)) "lightwell" then
    [View.VElem "section"
       ("proxima-hub-projects proxima-hub-tabs-row "
        +:+ (if showMap then "proxima-hub-projects-map" else "")) None
       [View.VElem "div" "proxima-hub-project-tab" None [];
        View.VElem "div" "proxima-hub-project-tab" None
          ((if String.eqb (activeTab p) "floor-plans" then
              [View.VElem "button" "fp-filter-toggle-btn" (Some OpenFilter)
                 (View.VText "Filters"
                  :: (if (0 <? activeFilterCount (filters p))%nat then
                        [View.VElem "span" "fp-filter-badge" None
                           [View.VText
                              (pretty (Z.of_nat (activeFilterCount (filters p))))]]
                      else []))]
            else [])
           ++ [View.VElem "section" "proxima-hub-tab-container" None
                 [View.VElem "div" "proxima-hub-tabs" None
                    [tab_button p "projects" "Projects";
                     tab_button p "map" "Map";
                     tab_button p "floor-plans" "Floor Plans"]]])%list]]
  else [].

Definition render (toLocaleString : JS.number -> string) (p : props)
    (showMap isFilterOpen : bool) (data : option (list FloorPlanResponse.t))
  : list (View.vnode event) :=
  (drawer toLocaleString p isFilterOpen data ++ nav p showMap)%list.

End FilterandNav.

(** ** [FloorPlanComparisonModal]: two slots and a picker *)

Module FloorPlanComparisonModal.

Record props : Type := {
  isOpen : bool;
  favoritedFloorPlans : list FloorPlanResponse.t;
  getProjectName : option string -> option string;
}.

(** The type [0 | 1] of a slot index. *)
Inductive side : Type := side0 | side1.

Record state : Type := {
  leftFloorPlan : option FloorPlanResponse.t;
  rightFloorPlan : option FloorPlanResponse.t;
  pickerSide : option side;
  isExpanded : bool;
}.

Definition initial_state : state :=
  {| leftFloorPlan := None; rightFloorPlan := None;
     pickerSide := None; isExpanded := false |}.

Inductive event : Type :=
| Close
| StopPropagation
| SetPickerSide (s : option side)
| ToggleExpanded
| ReplaceFloorPlan (sideIndex : side) (floorPlan : FloorPlanResponse.t).

(** The effect on [[isOpen, favoritedFloorPlans]]: take the first two
    favorites. *)
Definition initialize (p : props) (st : state) : state :=
  if isOpen p && (2 <=? length (favoritedFloorPlans p))%nat then
    {| leftFloorPlan := favoritedFloorPlans p !! 0%nat;
       rightFloorPlan := favoritedFloorPlans p !! 1%nat;
       pickerSide := pickerSide st; isExpanded := isExpanded st |}
  else st.

(** The effect on [[isOpen]]: reset when the modal closes. *)
Definition reset (p : props) (st : state) : state :=
  if negb (isOpen p) then
    {| leftFloorPlan := leftFloorPlan st; rightFloorPlan := rightFloorPlan st;
       pickerSide := None; isExpanded := false |}
  else st.

(** [[leftFloorPlan?.id, rightFloorPlan?.id].filter(Boolean)], the
    members of [excludedIds]. *)
Definition excludedIds (st : state) : list string :=
  omap
    (fun slot : option FloorPlanResponse.t =>
       match slot with
       | Some fp =>
           if String.eqb (FloorPlanResponse.id fp) "" then None
           else Some (FloorPlanResponse.id fp)
       | None => None
       end)
    [leftFloorPlan st; rightFloorPlan st].

(** [excludedIds.has(x)] *)
Definition has (ids : list string) (x : string) : bool :=
  existsb (String.eqb x) ids.

Definition candidateFloorPlans (p : props) (st : state)
  : list FloorPlanResponse.t :=
  if negb (isOpen p) then []
  else
    List.filter
      (fun fp =>
         negb (String.eqb (FloorPlanResponse.id fp) "")
         && negb (has (excludedIds st) (FloorPlanResponse.id fp)))
      (favoritedFloorPlans p).

(** [[leftFloorPlan, rightFloorPlan].filter(fp => fp !== null)] *)
Definition floorPlansToCompare (st : state) : list FloorPlanResponse.t :=
  omap (fun slot : option FloorPlanResponse.t => slot)
       [leftFloorPlan st; rightFloorPlan st].

(** The modal's [formatBedrooms]: the text itself when it is no number. *)
Definition formatBedrooms (beds : option string) : string :=
  match beds with
  | None => ""
  | Some s =>
      if String.eqb s "" then ""
      else
        let num := JS.parseFloat s in
        if JS.isNaN num then s
        else
          let whole := JS.Math_floor num in
          let hasDecimal :=
            JS.strict_neq (JS.rem num (JS.of_Z 1)) (JS.of_Z 0) in
          let plural := if JS.strict_neq whole (JS.of_Z 1) then "s" else "" in
          if hasDecimal
          then JS.toString whole +:+ " Bed" +:+ plural +:+ " + Den"
          else JS.toString whole +:+ " Bed" +:+ plural
  end.

Definition formatBathrooms (baths : option string) : string :=
  match baths with
  | None => ""
  | Some s =>
      if String.eqb s "" then ""
      else
        let num := JS.parseFloat s in
        if JS.isNaN num then s
        else
          let whole := JS.Math_floor num in
          let hasDecimal :=
            JS.strict_neq (JS.rem num (JS.of_Z 1)) (JS.of_Z 0) in
          let plural := if JS.strict_neq whole (JS.of_Z 1) then "s" else "" in
          if hasDecimal
          then JS.toString whole +:+ " Bath" +:+ plural +:+ " + Powder"
          else JS.toString whole +:+ " Bath" +:+ plural
  end.

Definition handleReplaceFloorPlan (sideIndex : side)
    (floorPlan : FloorPlanResponse.t) (st : state) : state :=
  match sideIndex with
  | side0 =>
      {| leftFloorPlan := Some floorPlan; rightFloorPlan := rightFloorPlan st;
         pickerSide := None; isExpanded := isExpanded st |}
  | side1 =>
      {| leftFloorPlan := leftFloorPlan st; rightFloorPlan := Some floorPlan;
         pickerSide := None; isExpanded := isExpanded st |}
  end.

(** [projectName ? `${projectName}, ${fp.name}` : fp.name || 'Floor Plan'] *)
Definition formatFloorPlanTitle (p : props) (fp : FloorPlanResponse.t)
  : string :=
  match getProjectName p (FloorPlanResponse.projectId fp) with
  | Some projectName =>
      if String.eqb projectName ""
      then JS.or_default (FloorPlanResponse.name fp) "Floor Plan"
      else projectName +:+ ", "
           +:+ match FloorPlanResponse.name fp with
               | Some n => n
               | None => "undefined"
               end
  | None => JS.or_default (FloorPlanResponse.name fp) "Floor Plan"
  end.

(** [a ?? b] on optional strings, with a string to fall back on. *)
Definition nullish (a : option string) (b : string) : string :=
  match a with
  | Some s => s
  | None => b
  end.

(** Bedrooms, bathrooms and size, those that are there, joined by [" | "]. *)
Definition formatFloorPlanMeta (fp : FloorPlanResponse.t) : string :=
  let size :=
    JS.trim (nullish (FloorPlanResponse.totalSize fp)
                     (nullish (FloorPlanResponse.interiorSize fp) "")) in
  String.concat " | "
    ((if JS.truthy (FloorPlanResponse.bedRooms fp)
      then [formatBedrooms (FloorPlanResponse.bedRooms fp)] else [])
     ++ (if JS.truthy (FloorPlanResponse.bathRooms fp)
         then [formatBathrooms (FloorPlanResponse.bathRooms fp)] else [])
     ++ (if String.eqb size "" then [] else [size]))%list.

(** The state after an event.  [Close] calls the [onClose] prop and
    [StopPropagation] only stops the click: neither touches the cells. *)
Definition handle (ev : event) (st : state) : state :=
  match ev with
  | Close => st
  | StopPropagation => st
  | SetPickerSide s =>
      {| leftFloorPlan := leftFloorPlan st; rightFloorPlan := rightFloorPlan st;
         pickerSide := s; isExpanded := isExpanded st |}
  | ToggleExpanded =>
      {| leftFloorPlan := leftFloorPlan st; rightFloorPlan := rightFloorPlan st;
         pickerSide := pickerSide st; isExpanded := negb (isExpanded st) |}
  | ReplaceFloorPlan sideIndex fp => handleReplaceFloorPlan sideIndex fp st
  end.

(** The children of [fp-modal-body]. *)
Definition body (st : state) : list (View.vnode event) :=
  (imap (fun index floorPlan =>
           View.VFloorPlanDetails floorPlan index (isExpanded st))
        (floorPlansToCompare st)
   ++ (if (length (floorPlansToCompare st) =? 1)%nat then
         [View.VElem "div" "fp-unit-section fp-unit-placeholder" None
            [View.VElem "div" "fp-unit-placeholder-content" None
               [View.VElem "p" "" None
                  [View.VText "Select another floor plan to compare"];
                View.VElem "button" "fp-compare-others-btn"
                  (Some (SetPickerSide (Some side1)))
                  [View.VText "Compare Others"]]]]
       else []))%list.

(** One entry of the picker: title and, when there is one, the meta line
    (the thumbnail is an image). *)
Definition picker_item (p : props) (s : side) (fp : FloorPlanResponse.t)
  : View.vnode event :=
  View.VElem "button" "fp-picker-item" (Some (ReplaceFloorPlan s fp))
    [View.VElem "div" "fp-picker-item-info" None
       (View.VElem "div" "fp-picker-item-title" None
          [View.VText (formatFloorPlanTitle p fp)]
        :: (if String.eqb (formatFloorPlanMeta fp) "" then []
            else [View.VElem "div" "fp-picker-item-meta" None
                    [View.VText (formatFloorPlanMeta fp)]]))].

(** The picker, rendered while [pickerSide] names a slot. *)
Definition picker (p : props) (st : state) (s : side)
  : View.vnode event :=
  View.VElem "div" "fp-picker-backdrop" (Some (SetPickerSide None))
    [View.VElem "div" "fp-picker-container" None
       [View.VElem "div" "fp-picker-modal" (Some StopPropagation)
          [View.VElem "div" "fp-picker-header" None
             [View.VElem "div" "fp-picker-title" None
                [View.VText "Select a floor plan to replace"];
              View.VElem "button" "fp-picker-close"
                (Some (SetPickerSide None)) []];
           View.VElem "div" "fp-picker-list" None
             [if (length (candidateFloorPlans p st) =? 0)%nat then
                View.VElem "div" "fp-picker-empty" None
                  [View.VText "No other floor plans available."]
              else
                View.VElem "div" "fp-picker-items" None
                  (List.map (picker_item p s) (candidateFloorPlans p st))]]]].

(** [None] is the component's [return null]. *)
Definition render (p : props) (st : state)
  : option (list (View.vnode event)) :=
  if negb (isOpen p) || (length (favoritedFloorPlans p) <? 2)%nat then None
  else
    Some
      ([View.VElem "div" "fp-modal-backdrop" (Some Close)
          [View.VElem "div" "fp-modal-container" (Some StopPropagation)
             [View.VElem "div" "fp-modal-body" None (body st);
              View.VElem "div" "fp-modal-footer" None
                [View.VElem "button" "fp-footer-close-btn" (Some Close) [];
                 View.VElem "div" "fp-footer-center" None
                   [View.VElem "button" "fp-compare-others-btn"
                      (Some (SetPickerSide (Some side0)))
                      [View.VText "Compare Others"];
                    View.VElem "button" "fp-footer-zoom-btn"
                      (Some ToggleExpanded) [];
                    View.VElem "button" "fp-compare-others-btn"
                      (Some (SetPickerSide (Some side1)))
                      [View.VText "Compare Others"]]]]]]
       ++ match pickerSide st with
          | Some s => [picker p st s]
          | None => []
          end)%list.

(** The click handlers a rendering offers: every [onClick] in the tree. *)
Fixpoint handlers (v : View.vnode event) : list event :=
  match v with
  | View.VElem _ _ onClick children =>
      (match onClick with Some ev => [ev] | None => [] end
       ++ (fix go (vs : list (View.vnode event)) :=
             match vs with
             | [] => []
             | c :: vs' => handlers c ++ go vs'
             end) children)%list
  | _ => []
  end.

Definition offered (p : props) (st : state) : list event :=
  match render p st with
  | Some vs => concat (List.map handlers vs)
  | None => []
  end.

End FloorPlanComparisonModal.

(** ** Images of a floor plan *)

(** The image collections of a [FloorPlanResponse], which
    [FloorPlanResponse.t] leaves out, and the three helpers of the
    comparison modal that choose a link among them. *)
Module FloorPlanImages.

Record image : Type := { link : option string }.

Record rendering : Type := {
  images : option (list image);
  rendering_link : option string;
}.

Record t : Type := {
  floorPlanPhoto : option (list image);
  keyPlan : option (list image);
  renderings : option (list rendering);
}.

(** [xs?.[0]?.link] *)
Definition first_link (xs : option (list image)) : option string :=
  match xs with
  | Some (x :: _) => link x
  | _ => None
  end.

Definition getRenderingsImage (floorPlan : option t) : option string :=
  match floorPlan with
  | Some fp =>
      match renderings fp with
      | Some (firstRendering :: _) =>
          match images firstRendering with
          | Some (firstImage :: _) => JS.or_else (link firstImage) None
          | _ => JS.or_else (rendering_link firstRendering) None
          end
      | _ => None
      end
  | None => None
  end.

Definition getFloorPlanImage (floorPlan : option t) : option string :=
  match floorPlan with
  | Some fp =>
      JS.or_else
        (JS.or_else
           (JS.or_else (first_link (floorPlanPhoto fp))
                       (first_link (keyPlan fp)))
           (getRenderingsImage floorPlan))
        None
  | None => None
  end.

Definition getKeyPlanImage (floorPlan : option t) : option string :=
  match floorPlan with
  | Some fp => JS.or_else (first_link (keyPlan fp)) None
  | None => None
  end.

End FloorPlanImages.

(** ** [App]: how the two components are mounted *)

Module App.

(** [<FloorPlans config={config} filters={filters} />]: no
    [projectSlugs]. *)
Definition floorPlans_props (config : ProjectConfig.t)
    (filters : FloorPlanFilters.t) : FloorPlans.props :=
  {| FloorPlans.projectSlugs := None;
     FloorPlans.config := config;
     FloorPlans.filters := filters |}.

Definition filterandNav_props (config : ProjectConfig.t)
    (activeTab : string) (filters : FloorPlanFilters.t)
  : FilterandNav.props :=
  {| FilterandNav.config := config;
     FilterandNav.activeTab := activeTab;
     FilterandNav.filters := filters |}.

(** The cells of [App]. *)
Record state : Type := {
  showMap : bool;
  activeTab : string;
  filters : FloorPlanFilters.t;
  isFilterOpen : bool;
}.

(** [useState(config?.show_map || false)], then
    [useState(!showMap ? 'projects' : 'map')]. *)
Definition initial_state (show_map : option bool) : state :=
  let showMap := match show_map with Some b => b | None => false end in
  {| showMap := showMap;
     activeTab := if negb showMap then "projects" else "map";
     filters := FloorPlanFilters.initial;
     isFilterOpen := false |}.

(** What the handlers of [FilterandNav] do to the cells, through the
    setters [App] hands down. *)
Definition handle (ev : FilterandNav.event) (st : state) : state :=
  match ev with
  | FilterandNav.TabClick tab =>
      {| showMap := String.eqb tab "map"; activeTab := tab;
         filters := filters st; isFilterOpen := isFilterOpen st |}
  | FilterandNav.OpenFilter =>
      {| showMap := showMap st; activeTab := activeTab st;
         filters := filters st; isFilterOpen := true |}
  | FilterandNav.CloseFilter =>
      {| showMap := showMap st; activeTab := activeTab st;
         filters := filters st; isFilterOpen := false |}
  | FilterandNav.ClearFilters =>
      {| showMap := showMap st; activeTab := activeTab st;
         filters := FilterandNav.clearFilters; isFilterOpen := isFilterOpen st |}
  | FilterandNav.ChangeProjectName value =>
      {| showMap := showMap st; activeTab := activeTab st;
         filters := FloorPlanFilters.set_projectName value (filters st);
         isFilterOpen := isFilterOpen st |}
  | FilterandNav.ChangeBedrooms value =>
      {| showMap := showMap st; activeTab := activeTab st;
         filters := FloorPlanFilters.set_bedrooms value (filters st);
         isFilterOpen := isFilterOpen st |}
  | FilterandNav.ChangeBathrooms value =>
      {| showMap := showMap st; activeTab := activeTab st;
         filters := FloorPlanFilters.set_bathrooms value (filters st);
         isFilterOpen := isFilterOpen st |}
  | FilterandNav.ChangeSize value =>
      {| showMap := showMap st; activeTab := activeTab st;
         filters :=
           FloorPlanFilters.set_sizeRange (FilterandNav.selectSize value)
             (filters st);
         isFilterOpen := isFilterOpen st |}
  end.

(** The view below the title: the floor plans, the map, or the projects. *)
Inductive main : Type :=
| MainFloorPlans (p : FloorPlans.props)
| MainMap
| MainProjects.

Definition main_view (config : ProjectConfig.t) (st : state) : main :=
  if String.eqb (activeTab st) "floor-plans"
  then MainFloorPlans (floorPlans_props config (filters st))
  else if showMap st then MainMap else MainProjects.

(** The [FilterandNav] that [App] mounts, as it renders. *)
Definition filterandNav (toLocaleString : JS.number -> string)
    (config : ProjectConfig.t) (st : state)
    (data : option (list FloorPlanResponse.t))
  : list (View.vnode FilterandNav.event) :=
  FilterandNav.render toLocaleString
    (filterandNav_props config (activeTab st) (filters st))
    (showMap st) (isFilterOpen st) data.

End App.

(** ** Vocabulary of the statements *)

(** The fetched list, empty while there is none. *)
Definition fetched_list (data : option (list FloorPlanResponse.t))
  : list FloorPlanResponse.t :=
  match data with
  | Some fetched => fetched
  | None => []
  end.

(** The text whose integer value the size filter reads: [totalSize], else
    [interiorSize], else ["0"]. *)
Definition size_text (fp : FloorPlanResponse.t) : string :=
  JS.or_default
    (JS.or_else (FloorPlanResponse.totalSize fp)
                (FloorPlanResponse.interiorSize fp))
    "0".

(** The slot a side index names, and the other one. *)
Definition slot (s : FloorPlanComparisonModal.side)
    (st : FloorPlanComparisonModal.state) : option FloorPlanResponse.t :=
  match s with
  | FloorPlanComparisonModal.side0 => FloorPlanComparisonModal.leftFloorPlan st
  | FloorPlanComparisonModal.side1 => FloorPlanComparisonModal.rightFloorPlan st
  end.

Definition other (s : FloorPlanComparisonModal.side)
  : FloorPlanComparisonModal.side :=
  match s with
  | FloorPlanComparisonModal.side0 => FloorPlanComparisonModal.side1
  | FloorPlanComparisonModal.side1 => FloorPlanComparisonModal.side0
  end.

(** How many [FloorPlanDetails] a rendering of the modal holds. *)
Definition details_rendered (p : FloorPlanComparisonModal.props)
    (st : FloorPlanComparisonModal.state) : nat :=
  match FloorPlanComparisonModal.render p st with
  | Some vs => View.count_all View.is_details vs
  | None => 0%nat
  end.




(** The error element of [FloorPlans] with a given message. *)
Definition error_view (msg : string) : list (View.vnode FloorPlans.event) :=
  [View.VElem "div" "proxima-hub-floor-plans-container" None
     [View.VElem "div" "proxima-hub-floor-plans-error" None
        [View.VText "Error loading floor plans: "; View.VText msg]]].

(** The Compare button of [FloorPlans]. *)
Definition compare_button : View.vnode FloorPlans.event -> bool :=
  View.has_class "proxima-hub-floor-plans-compare-btn".

(** [error.message] when there is one, ["Unknown error"] otherwise. *)
Definition message_or_unknown (q : UseFloorPlans.t) : string :=
  match UseFloorPlans.error q with
  | Some {| UseFloorPlans.message := Some m |} =>
      if decide (m = "") then "Unknown error" else m
  | _ => "Unknown error"
  end.

(** ** Sample data *)

Definition sample_config : ProjectConfig.t :=
  {| ProjectConfig.slug := "lightwell";
     ProjectConfig.projects :=
       [ {| Project.projectId := Some "p-ansoku"; Project.name := "Ansoku" |};
         {| Project.projectId := Some "p-solin"; Project.name := "Solin" |};
         {| Project.projectId := None; Project.name := "Willa" |} ] |}.

Definition plan (id project beds baths : string) (size : option string)
  : FloorPlanResponse.t :=
  {| FloorPlanResponse.id := id;
     FloorPlanResponse.projectId := Some project;
     FloorPlanResponse.name := Some ("Plan " +:+ id);
     FloorPlanResponse.bedRooms := Some beds;
     FloorPlanResponse.bathRooms := Some baths;
     FloorPlanResponse.totalSize := size;
     FloorPlanResponse.interiorSize := None;
     FloorPlanResponse.exteriorSize := None |}.

Definition plan_a1 := plan "a1" "p-ansoku" "2" "1.5" (Some "980").
Definition plan_a2 := plan "a2" "p-ansoku" "3.5" "2" (Some "1240 sqft").
Definition plan_s1 := plan "s1" "p-solin" "1" "1" (Some "1620").
Definition plan_tbd := plan "s2" "p-solin" "2" "2" (Some "TBD").

Definition sample_data : option (list FloorPlanResponse.t) :=
  Some [plan_a1; plan_a2; plan_s1; plan_tbd].

Definition range_1000_1500 : FloorPlanFilters.range :=
  {| FloorPlanFilters.min := JS.of_Z 1000; FloorPlanFilters.max := JS.of_Z 1500 |}.

Definition size_filter : FloorPlanFilters.t :=
  FloorPlanFilters.set_sizeRange (Some range_1000_1500) FloorPlanFilters.initial.

Definition sample_favorites : UseFavorites.t :=
  {| UseFavorites.favorites := ["s1"; "a1"];
     UseFavorites.isFavorite := FloorPlans.includes ["s1"; "a1"] |}.

Definition loading_and_failed : UseFloorPlans.t :=
  {| UseFloorPlans.data := None;
     UseFloorPlans.isLoading := true;
     UseFloorPlans.error := Some {| UseFloorPlans.message := Some "Network Error" |};
     UseFloorPlans.isError := true |}.

Definition failed : UseFloorPlans.t :=
  {| UseFloorPlans.data := None;
     UseFloorPlans.isLoading := false;
     UseFloorPlans.error := Some {| UseFloorPlans.message := Some "Network Error" |};
     UseFloorPlans.isError := true |}.

Definition loaded : UseFloorPlans.t :=
  {| UseFloorPlans.data := sample_data;
     UseFloorPlans.isLoading := false;
     UseFloorPlans.error := None;
     UseFloorPlans.isError := false |}.

Definition comparing : FloorPlanComparisonModal.state :=
  {| FloorPlanComparisonModal.leftFloorPlan := Some plan_a1;
     FloorPlanComparisonModal.rightFloorPlan := Some plan_a2;
     FloorPlanComparisonModal.pickerSide := Some FloorPlanComparisonModal.side1;
     FloorPlanComparisonModal.isExpanded := false |}.

Definition open_modal : FloorPlanComparisonModal.props :=
  {| FloorPlanComparisonModal.isOpen := true;
     FloorPlanComparisonModal.favoritedFloorPlans := [plan_a1; plan_a2; plan_s1];
     FloorPlanComparisonModal.getProjectName :=
       FloorPlans.getProjectName sample_config |}.

Definition closed_modal : FloorPlanComparisonModal.props :=
  {| FloorPlanComparisonModal.isOpen := false;
     FloorPlanComparisonModal.favoritedFloorPlans := [plan_a1; plan_a2; plan_s1];
     FloorPlanComparisonModal.getProjectName :=
       FloorPlans.getProjectName sample_config |}.

(** ** The components over time *)



(** The picker overlay, the placeholder of an empty slot, a card of the
    grid and the message of an empty result. *)
Definition picker_backdrop : View.vnode FloorPlanComparisonModal.event -> bool :=
  View.has_class "fp-picker-backdrop".

Definition placeholder : View.vnode FloorPlanComparisonModal.event -> bool :=
  View.has_class "fp-unit-section fp-unit-placeholder".

Definition is_card (v : View.vnode FloorPlans.event) : bool :=
  match v with
  | View.VFloorPlanCard _ _ _ _ _ => true
  | _ => false
  end.

Definition no_results : View.vnode FloorPlans.event -> bool :=
  View.has_class "proxima-hub-floor-plans-no-results".

(** How many nodes of a rendering of the modal satisfy [pred]; none when it
    renders nothing. *)
Definition modal_count
    (pred : View.vnode FloorPlanComparisonModal.event -> bool)
    (p : FloorPlanComparisonModal.props)
    (st : FloorPlanComparisonModal.state) : nat :=
  match FloorPlanComparisonModal.render p st with
  | Some vs => View.count_all pred vs
  | None => 0%nat
  end.

(** The filter that keeps one field of [f] and clears the others. *)
Definition only_projectName (f : FloorPlanFilters.t) : FloorPlanFilters.t :=
  FloorPlanFilters.set_projectName (FloorPlanFilters.projectName f)
    FloorPlanFilters.initial.
Definition only_bedrooms (f : FloorPlanFilters.t) : FloorPlanFilters.t :=
  FloorPlanFilters.set_bedrooms (FloorPlanFilters.bedrooms f)
    FloorPlanFilters.initial.
Definition only_bathrooms (f : FloorPlanFilters.t) : FloorPlanFilters.t :=
  FloorPlanFilters.set_bathrooms (FloorPlanFilters.bathrooms f)
    FloorPlanFilters.initial.
Definition only_sizeRange (f : FloorPlanFilters.t) : FloorPlanFilters.t :=
  FloorPlanFilters.set_sizeRange (FloorPlanFilters.sizeRange f)
    FloorPlanFilters.initial.

(** The last project of a configuration that carries a given id. *)
Definition last_project (pid : string) (projects : list Project.t)
  : option Project.t :=
  List.find (fun project => bool_decide (Project.projectId project = Some pid))
            (rev projects).


(** The plans of the cards of a tree, in the order they are rendered. *)
Fixpoint card_plans (v : View.vnode FloorPlans.event)
  : list FloorPlanResponse.t :=
  match v with
  | View.VFloorPlanCard floorPlan _ _ _ _ => [floorPlan]
  | View.VElem _ _ _ children =>
      (fix go (vs : list (View.vnode FloorPlans.event)) :=
         match vs with
         | [] => []
         | c :: vs' => (card_plans c ++ go vs')%list
         end) children
  | _ => []
  end.

(** What one fetched plan adds to each of the three option sets. *)
Definition offers_project (c : ProjectConfig.t) (fp : FloorPlanResponse.t)
  : option string :=
  match FilterandNav.getProjectName c (FloorPlanResponse.projectId fp) with
  | Some projectName =>
      if String.eqb projectName "" then None else Some projectName
  | None => None
  end.

Definition offers_text (field : FloorPlanResponse.t -> option string)
    (fp : FloorPlanResponse.t) : option string :=
  match field fp with
  | Some text => if String.eqb text "" then None else Some text
  | None => None
  end.

(** Two option texts are in order when their keys are finite numbers in
    order. *)
Definition keys_in_order (key : string -> JS.number) (a b : string) : Prop :=
  exists qa qb, key a = JS.Fin qa /\ key b = JS.Fin qb /\ (qa <= qb)%Q.


(** The options of the size select that keep a plan, each taken as the
    only filter. *)
Definition size_options_keeping (c : ProjectConfig.t)
    (fp : FloorPlanResponse.t) : list string :=
  List.filter
    (fun value =>
       FloorPlans.keeps c
         (FloorPlanFilters.set_sizeRange (FilterandNav.selectSize value)
            FloorPlanFilters.initial)
         fp)
    FilterandNav.sizeOptionValues.

(** The click and change handlers of a tree, in rendering order. *)
Fixpoint handlers_of {E} (v : View.vnode E) : list E :=
  match v with
  | View.VElem _ _ onClick children =>
      (match onClick with Some ev => [ev] | None => [] end
       ++ (fix go (vs : list (View.vnode E)) :=
             match vs with
             | [] => []
             | c :: vs' => handlers_of c ++ go vs'
             end) children)%list
  | _ => []
  end.

(** The states of [App] under a configuration and a fetched list that stay
    the same: the initial cells, then any number of the handlers that the
    [FilterandNav] it mounts offers. *)
Inductive app_reachable (toLocaleString : JS.number -> string)
    (config : ProjectConfig.t) (show_map : option bool)
    (data : option (list FloorPlanResponse.t)) : App.state -> Prop :=
| app_initial : app_reachable toLocaleString config show_map data
                  (App.initial_state show_map)
| app_handle st ev :
    app_reachable toLocaleString config show_map data st ->
    In ev (concat (List.map handlers_of
                     (App.filterandNav toLocaleString config st data))) ->
    app_reachable toLocaleString config show_map data (App.handle ev st).

(** A filter value is the empty one or one of the offered ones. *)
Definition from_options (f : FloorPlanFilters.t) (o : FilterandNav.options)
  : Prop :=
  (FloorPlanFilters.projectName f = "" \/
   In (FloorPlanFilters.projectName f) (FilterandNav.projects o)) /\
  (FloorPlanFilters.bedrooms f = "" \/
   In (FloorPlanFilters.bedrooms f) (FilterandNav.bedrooms o)) /\
  (FloorPlanFilters.bathrooms f = "" \/
   In (FloorPlanFilters.bathrooms f) (FilterandNav.bathrooms o)) /\
  (FloorPlanFilters.sizeRange f = None \/
   exists value, In value FilterandNav.sizeOptionValues /\
                 FloorPlanFilters.sizeRange f = FilterandNav.selectSize value).

(** A session of [App]: the floor plans tab, then the second size option. *)
Definition browsing : App.state :=
  App.handle (FilterandNav.ChangeSize "1000-1500")
    (App.handle (FilterandNav.TabClick "floor-plans") (App.initial_state None)).

(** * Properties *)

(** ** The number model *)

Example parseInt_1234 : JS.parseInt "1234 sqft" = JS.of_Z 1234.
Proof. reflexivity. Qed.

Example parseInt_comma : JS.parseInt "1,234" = JS.of_Z 1.
Proof. reflexivity. Qed.

Example parseInt_ws : JS.parseInt "  -42px" = JS.of_Z (-42).
Proof. reflexivity. Qed.

Example parseInt_TBD : JS.parseInt "TBD" = JS.NaN.
Proof. reflexivity. Qed.

Example parseFloat_3_5 : JS.parseFloat "3.5" = JS.Fin (35 # 10).
Proof. reflexivity. Qed.

Example parseFloat_dot5 : JS.parseFloat ".5e1x" = JS.Fin (inject_Z 5).
Proof. reflexivity. Qed.

Example parseFloat_dot : JS.parseFloat "." = JS.NaN.
Proof. reflexivity. Qed.

Example parseFloat_3dot : JS.parseFloat "3." = JS.Fin (inject_Z 3).
Proof. reflexivity. Qed.

Example parseFloat_3e : JS.parseFloat "3e+" = JS.Fin (inject_Z 3).
Proof. reflexivity. Qed.

Example toString_neg : JS.toString (JS.Fin (-35 # 10)) = "-3.5".
Proof. vm_compute. reflexivity. Qed.

Example toString_7 : JS.toString (JS.of_Z 7) = "7".
Proof. vm_compute. reflexivity. Qed.

(** ** Filtering a list *)

Section Filter.
Context {A : Type}.
Implicit Types (f g : A -> bool) (l k : list A).

Lemma filter_sublist f l : List.filter f l `sublist_of` l.
Proof.
  induction l as [|x l IH]; simpl.
  - constructor.
  - destruct (f x); now constructor.
Qed.

Lemma filter_sublist_mono f g l :
  (forall x, f x = true -> g x = true) ->
  List.filter f l `sublist_of` List.filter g l.
Proof.
  intros Hfg. induction l as [|x l IH]; simpl.
  - constructor.
  - destruct (f x) eqn:Hf.
    + rewrite (Hfg x Hf). now constructor.
    + destruct (g x); [now constructor | exact IH].
Qed.

(** [List.filter f l] is the greatest sublist of [l] within [f]. *)
Lemma filter_sublist_greatest f l k :
  k `sublist_of` l -> Forall (fun x => f x = true) k ->
  k `sublist_of` List.filter f l.
Proof.
  induction 1 as [|x k l Hkl IH|x k l Hkl IH]; intros Hall; simpl.
  - constructor.
  - inversion Hall as [|? ? Hx Hk]; subst. rewrite Hx.
    constructor. now apply IH.
  - destruct (f x); [constructor|]; now apply IH.
Qed.
End Filter.

(** ** The filter predicate of [FloorPlans] *)

(** One guard [if (filter && value !== filter) return false] lets a plan
    through exactly when the filter is empty or the value equals it. *)
Lemma guard_passes (a : option string) (s : string) :
  negb (String.eqb s "") && FloorPlans.differs a s = false <->
  (s <> "" -> a = Some s).
Proof.
  unfold FloorPlans.differs. destruct (String.eqb s "") eqn:Hs; simpl.
  - apply String.eqb_eq in Hs. split; [intros _ Hne; contradiction | reflexivity].
  - apply String.eqb_neq in Hs. destruct a as [t|].
    + rewrite negb_false_iff, String.eqb_eq. split.
      * now intros -> _.
      * intros H. specialize (H Hs). congruence.
    + split; [discriminate | intros H; specialize (H Hs); discriminate].
  Qed.

(** What the callback tests, guard by guard. *)
Lemma keeps_spec (c : ProjectConfig.t) (f : FloorPlanFilters.t)
    (fp : FloorPlanResponse.t) :
  FloorPlans.keeps c f fp = true <->
  (FloorPlanFilters.projectName f <> "" ->
   FloorPlans.getProjectName c (FloorPlanResponse.projectId fp)
   = Some (FloorPlanFilters.projectName f)) /\
  (FloorPlanFilters.bedrooms f <> "" ->
   FloorPlanResponse.bedRooms fp = Some (FloorPlanFilters.bedrooms f)) /\
  (FloorPlanFilters.bathrooms f <> "" ->
   FloorPlanResponse.bathRooms fp = Some (FloorPlanFilters.bathrooms f)) /\
  (forall r, FloorPlanFilters.sizeRange f = Some r ->
     JS.lt (JS.parseInt (size_text fp)) (FloorPlanFilters.min r) = false /\
     JS.gt (JS.parseInt (size_text fp)) (FloorPlanFilters.max r) = false).
Proof.
  unfold FloorPlans.keeps. fold (size_text fp).
  rewrite <- !guard_passes.
  destruct (negb (String.eqb (FloorPlanFilters.projectName f) "")
            && FloorPlans.differs _ (FloorPlanFilters.projectName f));
    [split; [discriminate | intros (H & _); discriminate]|].
  destruct (negb (String.eqb (FloorPlanFilters.bedrooms f) "")
            && FloorPlans.differs _ (FloorPlanFilters.bedrooms f));
    [split; [discriminate | intros (_ & H & _); discriminate]|].
  destruct (negb (String.eqb (FloorPlanFilters.bathrooms f) "")
            && FloorPlans.differs _ (FloorPlanFilters.bathrooms f));
    [split; [discriminate | intros (_ & _ & H & _); discriminate]|].
  destruct (FloorPlanFilters.sizeRange f) as [r|].
  - simpl. destruct (JS.lt _ _ || JS.gt _ _) eqn:Hr.
    + split; [discriminate|]. intros (_ & _ & _ & H).
      destruct (H r eq_refl) as [H1 H2]. rewrite H1, H2 in Hr. discriminate.
    + apply orb_false_iff in Hr. split; [|reflexivity].
      intros _. do 3 (split; [reflexivity|]). intros r' [= <-]. exact Hr.
  - split; [|reflexivity]. intros _. do 3 (split; [reflexivity|]). discriminate.
Qed.

Lemma filteredFloorPlans_In c f data fp :
  In fp (FloorPlans.filteredFloorPlans c f data) <->
  In fp (fetched_list data) /\ FloorPlans.keeps c f fp = true.
Proof.
  destruct data as [fetched|]; simpl; [apply filter_In | tauto].
Qed.

Lemma filteredFloorPlans_sublist c f data :
  FloorPlans.filteredFloorPlans c f data `sublist_of` fetched_list data.
Proof.
  destruct data as [fetched|]; simpl; [apply filter_sublist | constructor].
Qed.

Lemma filteredFloorPlans_mono c f g data :
  (forall fp, FloorPlans.keeps c f fp = true -> FloorPlans.keeps c g fp = true) ->
  FloorPlans.filteredFloorPlans c f data
  `sublist_of` FloorPlans.filteredFloorPlans c g data.
Proof.
  intros H. destruct data as [fetched|]; simpl;
    [now apply filter_sublist_mono | constructor].
Qed.


(** Between integers the two comparisons of the size guard say
    [lo <= z <= hi]. *)
Lemma size_in_range (z lo hi : Z) :
  JS.lt (JS.of_Z z) (JS.of_Z lo) = false /\
  JS.gt (JS.of_Z z) (JS.of_Z hi) = false <->
  lo <= z <= hi.
Proof.
  unfold JS.gt, JS.lt, JS.of_Z. rewrite !negb_false_iff, !Qle_bool_iff.
  rewrite <- !Zle_Qle. tauto.
Qed.

(** ** Walking element trees *)

Section Trees.
Context {E : Type}.
Implicit Types (p : View.vnode E -> bool) (vs : list (View.vnode E)).

Lemma count_elem p tag className onClick vs :
  View.count p (View.VElem tag className onClick vs)
  = ((if p (View.VElem tag className onClick vs) then 1 else 0)
     + View.count_all p vs)%nat.
Proof.
  reflexivity.
Qed.

Lemma count_text p s :
  View.count p (View.VText s) = if p (View.VText s) then 1%nat else 0%nat.
Proof. simpl. lia. Qed.

Lemma count_details p fp index isExpanded :
  View.count p (View.VFloorPlanDetails fp index isExpanded)
  = if p (View.VFloorPlanDetails fp index isExpanded) then 1%nat else 0%nat.
Proof. simpl. lia. Qed.

Lemma count_card p fp projectName isFavorite onToggleFavorite onClick :
  View.count p (View.VFloorPlanCard fp projectName isFavorite
                  onToggleFavorite onClick)
  = if p (View.VFloorPlanCard fp projectName isFavorite
            onToggleFavorite onClick) then 1%nat else 0%nat.
Proof. simpl. lia. Qed.

Lemma count_detail_modal p fp isOpen onClose :
  View.count p (View.VFloorPlanDetailModal fp isOpen onClose)
  = if p (View.VFloorPlanDetailModal fp isOpen onClose)
    then 1%nat else 0%nat.
Proof. simpl. lia. Qed.

Lemma count_comparison_modal p isOpen onClose favs config getProjectName :
  View.count p (View.VFloorPlanComparisonModal isOpen onClose favs config
                  getProjectName)
  = if p (View.VFloorPlanComparisonModal isOpen onClose favs config
            getProjectName) then 1%nat else 0%nat.
Proof. simpl. lia. Qed.

Lemma count_all_app p vs ws :
  View.count_all p (vs ++ ws)
  = (View.count_all p vs + View.count_all p ws)%nat.
Proof.
  unfold View.count_all. induction vs as [|v vs IH]; simpl; [reflexivity|].
  rewrite IH. lia.
Qed.

(** Nodes that are leaves and fail [p] add nothing. *)
Lemma count_all_map_zero {A} p (mk : A -> View.vnode E) (l : list A) :
  (forall x, View.count p (mk x) = 0%nat) ->
  View.count_all p (List.map mk l) = 0%nat.
Proof.
  intros Hmk. unfold View.count_all.
  induction l as [|x l IH]; simpl; [reflexivity|]. now rewrite Hmk, IH.
Qed.

Lemma comparison_inputs_elem tag className onClick vs :
  View.comparison_inputs (View.VElem tag className onClick vs)
  = concat (List.map (@View.comparison_inputs E) vs).
Proof.
  simpl. induction vs as [|v vs IH]; simpl; [reflexivity|]. now rewrite IH.
Qed.

Lemma concat_map_nil {A B} (g : A -> list B) (l : list A) :
  (forall x, g x = []) -> concat (List.map g l) = [].
Proof.
  intros Hg. induction l as [|x l IH]; simpl; [reflexivity|].
  now rewrite Hg, IH.
Qed.
End Trees.

Lemma handlers_elem tag className onClick vs :
  FloorPlanComparisonModal.handlers (View.VElem tag className onClick vs)
  = (match onClick with Some ev => [ev] | None => [] end
     ++ concat (List.map FloorPlanComparisonModal.handlers vs))%list.
Proof.
  simpl. f_equal. induction vs as [|v vs IH]; simpl; [reflexivity|].
  now rewrite IH.
Qed.

(** Descend through the host elements of a tree, down to the lists the
    component maps over. *)
Ltac walk_tree :=
  repeat (progress
            (rewrite ?count_elem, ?count_text, ?count_details, ?count_card,
               ?count_detail_modal, ?count_comparison_modal, ?count_all_app;
             cbn [View.is_details View.is_detail_modal
                  View.is_comparison_modal View.has_class
                  View.count_all foldr String.eqb Ascii.eqb Bool.eqb])).

(** ** The comparison modal *)

Lemma floorPlansToCompare_length (st : FloorPlanComparisonModal.state) :
  (length (FloorPlanComparisonModal.floorPlansToCompare st) <= 2)%nat.
Proof.
  unfold FloorPlanComparisonModal.floorPlansToCompare.
  destruct (FloorPlanComparisonModal.leftFloorPlan st),
           (FloorPlanComparisonModal.rightFloorPlan st); simpl; lia.
Qed.

Lemma body_details (st : FloorPlanComparisonModal.state) :
  View.count_all View.is_details (FloorPlanComparisonModal.body st)
  = length (FloorPlanComparisonModal.floorPlansToCompare st).
Proof.
  unfold FloorPlanComparisonModal.body,
    FloorPlanComparisonModal.floorPlansToCompare.
  destruct (FloorPlanComparisonModal.leftFloorPlan st),
           (FloorPlanComparisonModal.rightFloorPlan st); reflexivity.
Qed.

Lemma picker_details p st s :
  View.count View.is_details (FloorPlanComparisonModal.picker p st s) = 0%nat.
Proof.
  unfold FloorPlanComparisonModal.picker.
  case_match; [reflexivity|]. walk_tree.
  rewrite count_all_map_zero; [reflexivity|].
  intros fp. unfold FloorPlanComparisonModal.picker_item.
  destruct (String.eqb _ _); reflexivity.
Qed.

(** C1. Whatever the state of the modal, [floorPlansToCompare] (the left
    and right slots without the empty ones) has at most two elements; the
    comparison body renders one [FloorPlanDetails] per element of it, and a
    whole rendering of the modal holds at most two of them. *)
Theorem comparison_shows_at_most_two :
  forall (p : FloorPlanComparisonModal.props)
         (st : FloorPlanComparisonModal.state),
    (length (FloorPlanComparisonModal.floorPlansToCompare st) <= 2)%nat /\
    View.count_all View.is_details (FloorPlanComparisonModal.body st)
    = length (FloorPlanComparisonModal.floorPlansToCompare st) /\
    (details_rendered p st <= 2)%nat.
Proof.
  intros p st. split; [apply floorPlansToCompare_length|].
  split; [apply body_details|].
  unfold details_rendered, FloorPlanComparisonModal.render.
  destruct (negb _ || _); [lia|].
  pose proof (floorPlansToCompare_length st) as Hlen.
  pose proof (body_details st) as Hbody.
  pose proof (picker_details p st) as Hpicker.
  destruct (FloorPlanComparisonModal.pickerSide st) as [s|];
    walk_tree; rewrite ?Hpicker, Hbody; lia.
Qed.

(** ** Narrowing *)

(** A plan that passes with a filter field set also passes with that field
    cleared. *)
Lemma keeps_clear_projectName c f v fp :
  FloorPlans.keeps c (FloorPlanFilters.set_projectName v f) fp = true ->
  FloorPlans.keeps c (FloorPlanFilters.set_projectName "" f) fp = true.
Proof.
  rewrite !keeps_spec. simpl. intros (_ & Hbed & Hbath & Hsize).
  split; [intros Hne; now destruct Hne | auto].
Qed.

Lemma keeps_clear_bedrooms c f v fp :
  FloorPlans.keeps c (FloorPlanFilters.set_bedrooms v f) fp = true ->
  FloorPlans.keeps c (FloorPlanFilters.set_bedrooms "" f) fp = true.
Proof.
  rewrite !keeps_spec. simpl. intros (Hname & _ & Hbath & Hsize).
  split; [exact Hname|]. split; [intros Hne; now destruct Hne | auto].
Qed.

Lemma keeps_clear_bathrooms c f v fp :
  FloorPlans.keeps c (FloorPlanFilters.set_bathrooms v f) fp = true ->
  FloorPlans.keeps c (FloorPlanFilters.set_bathrooms "" f) fp = true.
Proof.
  rewrite !keeps_spec. simpl. intros (Hname & Hbed & _ & Hsize).
  do 2 (split; [assumption|]). split; [intros Hne; now destruct Hne | auto].
Qed.

Lemma keeps_clear_sizeRange c f r fp :
  FloorPlans.keeps c (FloorPlanFilters.set_sizeRange (Some r) f) fp = true ->
  FloorPlans.keeps c (FloorPlanFilters.set_sizeRange None f) fp = true.
Proof.
  rewrite !keeps_spec. simpl. intros (Hname & Hbed & Hbath & _).
  do 3 (split; [assumption|]). discriminate.
Qed.

(** C3. The filtered list is a sublist of the fetched list, and for each of
    the four filter fields, the list filtered with the field set to a value
    is a sublist of the list filtered with the field empty (or null, for
    the size range), the other fields being the same: setting a filter
    never adds a plan. *)
Theorem filter_selection_narrows :
  forall (c : ProjectConfig.t) (f : FloorPlanFilters.t)
         (data : option (list FloorPlanResponse.t)),
    FloorPlans.filteredFloorPlans c f data `sublist_of` fetched_list data /\
    (forall v,
        FloorPlans.filteredFloorPlans c (FloorPlanFilters.set_projectName v f) data
        `sublist_of`
        FloorPlans.filteredFloorPlans c (FloorPlanFilters.set_projectName "" f) data) /\
    (forall v,
        FloorPlans.filteredFloorPlans c (FloorPlanFilters.set_bedrooms v f) data
        `sublist_of`
        FloorPlans.filteredFloorPlans c (FloorPlanFilters.set_bedrooms "" f) data) /\
    (forall v,
        FloorPlans.filteredFloorPlans c (FloorPlanFilters.set_bathrooms v f) data
        `sublist_of`
        FloorPlans.filteredFloorPlans c (FloorPlanFilters.set_bathrooms "" f) data) /\
    (forall r,
        FloorPlans.filteredFloorPlans c (FloorPlanFilters.set_sizeRange (Some r) f) data
        `sublist_of`
        FloorPlans.filteredFloorPlans c (FloorPlanFilters.set_sizeRange None f) data).
Proof.
  intros c f data. split; [apply filteredFloorPlans_sublist|].
  repeat split; intros v; apply filteredFloorPlans_mono; intros fp.
  - apply keeps_clear_projectName.
  - apply keeps_clear_bedrooms.
  - apply keeps_clear_bathrooms.
  - apply keeps_clear_sizeRange.
Qed.

(** Narrowing on the sample data: the size range 1000-1500 drops two of the
    four plans. *)
Example narrows_sample :
  List.map FloorPlanResponse.id
    (FloorPlans.filteredFloorPlans sample_config size_filter sample_data)
  = ["a2"; "s2"] /\
  List.map FloorPlanResponse.id
    (FloorPlans.filteredFloorPlans sample_config FloorPlanFilters.initial
       sample_data)
  = ["a1"; "a2"; "s1"; "s2"].
Proof. split; reflexivity. Qed.

(** ** The two copies of the filter *)

Lemma counts_keeps c f fp :
  FilterandNav.counts c f fp = FloorPlans.keeps c f fp.
Proof. reflexivity. Qed.

(** C8. For every fetched list, filter setting and project configuration,
    the [filteredCount] of [FilterandNav] is the length of the
    [filteredFloorPlans] of [FloorPlans]. *)
Theorem filteredCount_agrees :
  forall (c : ProjectConfig.t) (f : FloorPlanFilters.t)
         (data : option (list FloorPlanResponse.t)),
    FilterandNav.filteredCount c f data
    = length (FloorPlans.filteredFloorPlans c f data).
Proof.
  intros c f [fetched|]; unfold FilterandNav.filteredCount,
    FloorPlans.filteredFloorPlans; [|reflexivity].
  now rewrite (filter_ext _ _ (counts_keeps c f)).
Qed.

(** ** Project identifiers *)

(** C7. Mounted without a [projectSlugs] prop, as [App] mounts it,
    [FloorPlans] asks [useFloorPlans] for exactly ["ansoku"], ["solin"],
    ["willa"] in that order; [FilterandNav] asks for the same list whatever
    its props, so the two components query the same project identifiers. *)
Theorem same_project_identifiers :
  forall (c : ProjectConfig.t) (f : FloorPlanFilters.t) (activeTab : string),
    UseFloorPlansCall.slugs
      (FloorPlans.useFloorPlans_call (App.floorPlans_props c f))
    = ["ansoku"; "solin"; "willa"] /\
    UseFloorPlansCall.slugs
      (FilterandNav.useFloorPlans_call (App.filterandNav_props c activeTab f))
    = ["ansoku"; "solin"; "willa"] /\
    UseFloorPlansCall.slugs
      (FloorPlans.useFloorPlans_call (App.floorPlans_props c f))
    = UseFloorPlansCall.slugs
        (FilterandNav.useFloorPlans_call (App.filterandNav_props c activeTab f)).
Proof. intros c f activeTab. repeat split. Qed.

(** A [projectSlugs] prop, when given, replaces the default list. *)
Lemma slugs_given c f given :
  FloorPlans.slugs
    {| FloorPlans.projectSlugs := Some given; FloorPlans.config := c;
       FloorPlans.filters := f |}
  = given.
Proof. reflexivity. Qed.

(** ** Favorites and the comparison input *)

Lemma includes_In (favorites : list string) (x : string) :
  FloorPlans.includes favorites x = true <-> In x favorites.
Proof.
  unfold FloorPlans.includes. rewrite existsb_exists. split.
  - intros (y & Hy & Heq). apply String.eqb_eq in Heq. now subst.
  - intros Hx. exists x. split; [assumption | apply String.eqb_refl].
Qed.

(** No card of the grid is a comparison modal. *)
Lemma cards_no_comparison_inputs c fav (l : list FloorPlanResponse.t) :
  concat (List.map View.comparison_inputs (List.map (FloorPlans.card c fav) l))
  = [].
Proof. rewrite List.map_map. now apply concat_map_nil. Qed.

(** The [favoritedFloorPlans] props handed to comparison modals by a
    rendering of [FloorPlans]. *)
Lemma render_comparison_inputs p q fav st :
  concat (List.map View.comparison_inputs (FloorPlans.render p q fav st))
  = if UseFloorPlans.isLoading q || UseFloorPlans.isError q
       || match UseFloorPlans.data q with
          | Some fetched => (length fetched =? 0)%nat
          | None => true
          end
    then []
    else [FloorPlans.favoritedFloorPlans (UseFavorites.favorites fav)
            (UseFloorPlans.data q)].
Proof.
  unfold FloorPlans.render.
  destruct (UseFloorPlans.isLoading q); [reflexivity|].
  destruct (UseFloorPlans.isError q); [reflexivity|].
  cbn [orb]. case_match; [now destruct (UseFloorPlans.data q)|].
  assert (Hgrid : forall grid more,
             concat (List.map View.comparison_inputs
                       (View.VElem "div" "proxima-hub-floor-plans-container" None
                          [View.VElem (E:=FloorPlans.event) "div"
                             "proxima-hub-floor-plans-grid" None grid] :: more))
             = (concat (List.map View.comparison_inputs grid)
                ++ concat (List.map View.comparison_inputs more))%list).
  { intros grid more. cbn [List.map concat].
    rewrite comparison_inputs_elem. cbn [List.map concat].
    rewrite comparison_inputs_elem. now rewrite app_nil_r. }
  cbn [app]. rewrite Hgrid.
  assert (concat
            (List.map View.comparison_inputs
               (if (length (FloorPlans.filteredFloorPlans (FloorPlans.config p)
                              (FloorPlans.filters p) (UseFloorPlans.data q))
                    =? 0)%nat
                then
                  [View.VElem "div" "proxima-hub-floor-plans-no-results" None
                     [View.VText "No floor plans match your filters"]]
                else
                  List.map (FloorPlans.card (FloorPlans.config p) fav)
                    (FloorPlans.filteredFloorPlans (FloorPlans.config p)
                       (FloorPlans.filters p) (UseFloorPlans.data q))))
          = []) as ->.
  { destruct (Nat.eqb _ _); [reflexivity | apply cards_no_comparison_inputs]. }
  now destruct (FloorPlans.canCompare _ _).
Qed.

(** C6. [favoritedFloorPlans] holds exactly the fetched plans whose id is
    in [favorites], in the order of the fetched list: its members are those
    plans, it is a sublist of the fetched list, and every sublist of the
    fetched list made of such plans is a sublist of it.  Whenever
    [FloorPlans] renders the comparison modal (it does unless it shows the
    loading, error or empty message) the modal's input is this list,
    whatever the filters are. *)
Theorem favorites_drive_comparison :
  forall (p : FloorPlans.props) (q : UseFloorPlans.t) (fav : UseFavorites.t)
         (st : FloorPlans.state),
    let data := UseFloorPlans.data q in
    let favorites := UseFavorites.favorites fav in
    let favorited := FloorPlans.favoritedFloorPlans favorites data in
    (forall fp,
        In fp favorited <->
        In fp (fetched_list data) /\ In (FloorPlanResponse.id fp) favorites) /\
    favorited `sublist_of` fetched_list data /\
    (forall k,
        k `sublist_of` fetched_list data ->
        Forall (fun fp => In (FloorPlanResponse.id fp) favorites) k ->
        k `sublist_of` favorited) /\
    concat (List.map View.comparison_inputs (FloorPlans.render p q fav st))
    = if UseFloorPlans.isLoading q || UseFloorPlans.isError q
         || match data with
            | Some fetched => (length fetched =? 0)%nat
            | None => true
            end
      then []
      else [favorited].
Proof.
  intros p q fav st data favorites favorited.
  split; [|split; [|split]].
  - intros fp. subst favorited. destruct data as [fetched|]; simpl.
    + now rewrite filter_In, includes_In.
    + tauto.
  - subst favorited. destruct data as [fetched|]; simpl;
      [apply filter_sublist | constructor].
  - intros k Hk Hall. subst favorited. destruct data as [fetched|]; simpl in *.
    + apply filter_sublist_greatest; [assumption|].
      eapply Forall_impl; [exact Hall|]. intros fp. apply includes_In.
    + exact Hk.
  - apply render_comparison_inputs.
Qed.

(** On the sample data the size filter shows plans a2 and s2 while the
    favorites are s1 and a1: the modal receives a1 and s1, in fetched
    order. *)
Example comparison_input_sample :
  List.map (List.map FloorPlanResponse.id)
    (concat
       (List.map View.comparison_inputs
          (FloorPlans.render (App.floorPlans_props sample_config size_filter)
             loaded sample_favorites FloorPlans.initial_state)))
  = [["a1"; "s1"]] /\
  List.map FloorPlanResponse.id
    (FloorPlans.filteredFloorPlans sample_config size_filter sample_data)
  = ["a2"; "s2"].
Proof. split; reflexivity. Qed.

(** ** Reaching the comparison *)

Lemma cards_count_zero (p : View.vnode FloorPlans.event -> bool) c fav l :
  (forall fp, p (FloorPlans.card c fav fp) = false) ->
  View.count_all p (List.map (FloorPlans.card c fav) l) = 0%nat.
Proof.
  intros Hp. apply count_all_map_zero. intros fp.
  unfold FloorPlans.card in *. rewrite count_card. now rewrite Hp.
Qed.

(** How many Compare buttons a rendering of [FloorPlans] holds. *)
Lemma render_compare_button p q fav st :
  View.count_all compare_button (FloorPlans.render p q fav st)
  = if UseFloorPlans.isLoading q || UseFloorPlans.isError q
       || match UseFloorPlans.data q with
          | Some fetched => (length fetched =? 0)%nat
          | None => true
          end
    then 0%nat
    else if FloorPlans.canCompare (UseFavorites.favorites fav)
              (UseFloorPlans.data q)
         then 1%nat else 0%nat.
Proof.
  unfold FloorPlans.render, compare_button.
  destruct (UseFloorPlans.isLoading q); [reflexivity|].
  destruct (UseFloorPlans.isError q); [reflexivity|].
  cbn [orb]. destruct (match UseFloorPlans.data q with
                       | Some fetched => (length fetched =? 0)%nat
                       | None => true
                       end); [reflexivity|].
  walk_tree.
  destruct (Nat.eqb _ _); destruct (FloorPlans.canCompare _ _); walk_tree;
    rewrite ?cards_count_zero by reflexivity; reflexivity.
Qed.

(** C10. With [isOpen] false or fewer than two favorites the comparison
    modal returns null; [FloorPlans] renders the Compare button only when
    [favoritedFloorPlans] has at least two elements, and a click on it
    opens the modal. *)
Theorem comparison_needs_two_favorites :
  (forall (p : FloorPlanComparisonModal.props)
          (st : FloorPlanComparisonModal.state),
      FloorPlanComparisonModal.isOpen p = false \/
      (length (FloorPlanComparisonModal.favoritedFloorPlans p) < 2)%nat ->
      FloorPlanComparisonModal.render p st = None) /\
  (forall (p : FloorPlans.props) (q : UseFloorPlans.t) (fav : UseFavorites.t)
          (st : FloorPlans.state),
      (0 < View.count_all compare_button (FloorPlans.render p q fav st))%nat ->
      (2 <= length (FloorPlans.favoritedFloorPlans
                      (UseFavorites.favorites fav) (UseFloorPlans.data q)))%nat) /\
  (forall st : FloorPlans.state,
      FloorPlans.isCompareModalOpen (FloorPlans.handle FloorPlans.OpenCompare st)
      = true).
Proof.
  split; [|split].
  - intros p st Hguard. unfold FloorPlanComparisonModal.render.
    destruct Hguard as [-> | Hfew]; [reflexivity|].
    apply Nat.ltb_lt in Hfew. rewrite Hfew. now rewrite orb_true_r.
  - intros p q fav st. rewrite render_compare_button.
    destruct (_ || _); [lia|].
    unfold FloorPlans.canCompare.
    destruct (Nat.leb_spec 2 (length (FloorPlans.favoritedFloorPlans
                                        (UseFavorites.favorites fav)
                                        (UseFloorPlans.data q)))); lia.
  - reflexivity.
Qed.

(** The guard at work: a closed modal renders nothing although it has
    three favorites, and the sample page, with two favorites, shows the
    button. *)
Lemma comparison_needs_two_favorites_sample :
  FloorPlanComparisonModal.render closed_modal comparing = None /\
  (2 <= length (FloorPlans.favoritedFloorPlans
                  (UseFavorites.favorites sample_favorites)
                  (UseFloorPlans.data loaded)))%nat.
Proof.
  destruct comparison_needs_two_favorites as (Hmodal & Hbutton & _).
  split.
  - apply Hmodal. left. reflexivity.
  - apply (Hbutton (App.floorPlans_props sample_config FloorPlanFilters.initial)
             loaded sample_favorites FloorPlans.initial_state).
    vm_compute. lia.
Defined.

(** ** Failures *)

Lemma append_empty_r (s : string) : s +:+ "" = s.
Proof.
  induction s as [|a s IH]; [reflexivity|].
  change (String a (s +:+ "") = String a s). now rewrite IH.
Qed.

Lemma error_text_message (q : UseFloorPlans.t) :
  FloorPlans.error_text q = message_or_unknown q.
Proof.
  unfold FloorPlans.error_text, message_or_unknown, JS.or_default.
  destruct (UseFloorPlans.error q) as [[[m|]]|]; try reflexivity.
  destruct (decide (m = "")) as [->|Hne]; [reflexivity|].
  apply String.eqb_neq in Hne. simpl. now rewrite Hne.
Qed.

(** C5, as stated, fails while the hook still reports loading: with
    [isLoading] and [isError] both true the component shows the loading
    message, and no error element. *)
Lemma error_hidden_while_loading :
  let rendered :=
    FloorPlans.render (App.floorPlans_props sample_config FloorPlanFilters.initial)
      loading_and_failed sample_favorites FloorPlans.initial_state in
  UseFloorPlans.isError loading_and_failed = true /\
  rendered
  = [View.VElem "div" "proxima-hub-floor-plans-container" None
       [View.VElem "div" "proxima-hub-floor-plans-loading" None
          [View.VText "Loading floor plans..."]]] /\
  rendered <> error_view (message_or_unknown loading_and_failed) /\
  View.count_all (View.has_class "proxima-hub-floor-plans-error") rendered
  = 0%nat.
Proof. repeat split. discriminate. Qed.

(** C5, amended. For every fetch result with [isError] true and
    [isLoading] false, [FloorPlans] renders only the inline error element,
    whose text is "Error loading floor plans: " followed by [error.message]
    when there is a non-empty one and by "Unknown error" otherwise; the
    rendering holds no grid, no Compare button and neither modal. *)
Theorem failure_shows_inline_error :
  forall (p : FloorPlans.props) (q : UseFloorPlans.t) (fav : UseFavorites.t)
         (st : FloorPlans.state),
    UseFloorPlans.isError q = true ->
    UseFloorPlans.isLoading q = false ->
    let rendered := FloorPlans.render p q fav st in
    rendered = error_view (message_or_unknown q) /\
    List.map View.textContent rendered
    = ["Error loading floor plans: " +:+ message_or_unknown q] /\
    View.count_all (View.has_class "proxima-hub-floor-plans-error") rendered
    = 1%nat /\
    View.count_all (View.has_class "proxima-hub-floor-plans-grid") rendered
    = 0%nat /\
    View.count_all compare_button rendered = 0%nat /\
    View.count_all View.is_detail_modal rendered = 0%nat /\
    View.count_all View.is_comparison_modal rendered = 0%nat.
Proof.
  intros p q fav st Herr Hload rendered.
  assert (Hview : rendered = error_view (message_or_unknown q)).
  { subst rendered. unfold FloorPlans.render.
    now rewrite Hload, Herr, error_text_message. }
  rewrite Hview. split; [reflexivity|].
  split; [cbn; now rewrite !append_empty_r|].
  repeat split.
Qed.

(** A failed fetch that is no longer loading shows its message. *)
Lemma failure_shows_inline_error_sample :
  UseFloorPlans.isError failed = true /\
  UseFloorPlans.isLoading failed = false /\
  FloorPlans.render (App.floorPlans_props sample_config FloorPlanFilters.initial)
    failed sample_favorites FloorPlans.initial_state
  = error_view "Network Error".
Proof.
  split; [reflexivity|]. split; [reflexivity|].
  apply (failure_shows_inline_error
           (App.floorPlans_props sample_config FloorPlanFilters.initial)
           failed sample_favorites FloorPlans.initial_state);
    reflexivity.
Defined.

(** Without an error object, or with an empty message, the text ends in
    "Unknown error". *)
Example unknown_error_text :
  List.map View.textContent
    (FloorPlans.render (App.floorPlans_props sample_config FloorPlanFilters.initial)
       {| UseFloorPlans.data := None; UseFloorPlans.isLoading := false;
          UseFloorPlans.error := None; UseFloorPlans.isError := true |}
       sample_favorites FloorPlans.initial_state)
  = ["Error loading floor plans: Unknown error"].
Proof. reflexivity. Qed.

(** ** The picker *)

Lemma has_In (ids : list string) (x : string) :
  FloorPlanComparisonModal.has ids x = true <-> In x ids.
Proof.
  unfold FloorPlanComparisonModal.has. rewrite existsb_exists. split.
  - intros (y & Hy & Heq). apply String.eqb_eq in Heq. now subst.
  - intros Hx. exists x. split; [assumption | apply String.eqb_refl].
Qed.

(** A selected plan with a non-empty id is excluded. *)
Lemma excludedIds_slot (st : FloorPlanComparisonModal.state)
    (s : FloorPlanComparisonModal.side) (chosen : FloorPlanResponse.t) :
  slot s st = Some chosen ->
  FloorPlanResponse.id chosen <> "" ->
  In (FloorPlanResponse.id chosen) (FloorPlanComparisonModal.excludedIds st).
Proof.
  intros Hslot Hid. apply String.eqb_neq in Hid.
  unfold FloorPlanComparisonModal.excludedIds.
  destruct s; simpl in Hslot; rewrite Hslot; cbn; rewrite Hid.
  - now left.
  - destruct (FloorPlanComparisonModal.leftFloorPlan st) as [l|];
      [destruct (String.eqb (FloorPlanResponse.id l) "")|]; simpl; auto.
Qed.

Lemma candidate_spec p st fp :
  In fp (FloorPlanComparisonModal.candidateFloorPlans p st) <->
  FloorPlanComparisonModal.isOpen p = true /\
  In fp (FloorPlanComparisonModal.favoritedFloorPlans p) /\
  FloorPlanResponse.id fp <> "" /\
  ~ In (FloorPlanResponse.id fp) (FloorPlanComparisonModal.excludedIds st).
Proof.
  unfold FloorPlanComparisonModal.candidateFloorPlans.
  destruct (FloorPlanComparisonModal.isOpen p); simpl.
  - rewrite filter_In, andb_true_iff, !negb_true_iff, String.eqb_neq.
    rewrite <- not_true_iff_false, has_In. tauto.
  - split; [contradiction | intros (H & _); discriminate].
Qed.

Lemma handlers_text s :
  FloorPlanComparisonModal.handlers (View.VText s) = [].
Proof. reflexivity. Qed.

Lemma handlers_details fp index isExpanded :
  FloorPlanComparisonModal.handlers
    (View.VFloorPlanDetails fp index isExpanded) = [].
Proof. reflexivity. Qed.

Ltac walk_handlers :=
  repeat (progress
            (rewrite ?handlers_elem, ?handlers_text, ?handlers_details;
             cbn [List.map concat app])).

Lemma picker_item_handlers p s fp :
  FloorPlanComparisonModal.handlers (FloorPlanComparisonModal.picker_item p s fp)
  = [FloorPlanComparisonModal.ReplaceFloorPlan s fp].
Proof.
  unfold FloorPlanComparisonModal.picker_item.
  destruct (String.eqb _ _); walk_handlers; reflexivity.
Qed.

Lemma items_handlers p s (k : list FloorPlanResponse.t) :
  concat
    (List.map FloorPlanComparisonModal.handlers
       (List.map (FloorPlanComparisonModal.picker_item p s) k))
  = List.map (FloorPlanComparisonModal.ReplaceFloorPlan s) k.
Proof.
  induction k as [|x k IH]; cbn [List.map concat]; [reflexivity|].
  now rewrite IH, picker_item_handlers.
Qed.

Lemma picker_handlers p st s :
  FloorPlanComparisonModal.handlers (FloorPlanComparisonModal.picker p st s)
  = FloorPlanComparisonModal.SetPickerSide None
    :: FloorPlanComparisonModal.StopPropagation
    :: FloorPlanComparisonModal.SetPickerSide None
    :: List.map (FloorPlanComparisonModal.ReplaceFloorPlan s)
         (FloorPlanComparisonModal.candidateFloorPlans p st).
Proof.
  unfold FloorPlanComparisonModal.picker.
  destruct (Nat.eqb _ _) eqn:Hempty.
  - apply Nat.eqb_eq, length_zero_iff_nil in Hempty. now rewrite Hempty.
  - pose proof (items_handlers p s
                  (FloorPlanComparisonModal.candidateFloorPlans p st)) as Hitems.
    generalize dependent (FloorPlanComparisonModal.candidateFloorPlans p st).
    intros k _ Hitems.
    walk_handlers. rewrite Hitems. now rewrite !app_nil_r.
Qed.

Lemma body_handlers st ev :
  In ev (concat (List.map FloorPlanComparisonModal.handlers
                   (FloorPlanComparisonModal.body st))) ->
  ev = FloorPlanComparisonModal.SetPickerSide
         (Some FloorPlanComparisonModal.side1).
Proof.
  unfold FloorPlanComparisonModal.body,
    FloorPlanComparisonModal.floorPlansToCompare.
  destruct (FloorPlanComparisonModal.leftFloorPlan st),
           (FloorPlanComparisonModal.rightFloorPlan st);
    cbn; intuition congruence.
Qed.

(** The handlers a rendering offers: the fixed controls, and with the
    picker open one [ReplaceFloorPlan] per candidate, for the picker's
    side. *)
Lemma offered_replace p st s fp :
  In (FloorPlanComparisonModal.ReplaceFloorPlan s fp)
     (FloorPlanComparisonModal.offered p st) <->
  FloorPlanComparisonModal.render p st <> None /\
  FloorPlanComparisonModal.pickerSide st = Some s /\
  In fp (FloorPlanComparisonModal.candidateFloorPlans p st).
Proof.
  unfold FloorPlanComparisonModal.offered, FloorPlanComparisonModal.render.
  destruct (negb _ || _).
  { simpl. split; [contradiction | intros (H & _); now destruct H]. }
  rewrite List.map_app, concat_app, in_app_iff. walk_handlers.
  rewrite ?app_nil_r. split.
  - intros [Hmain | Hpicker].
    + exfalso. destruct Hmain as [Hmain | [Hmain | Hrest]]; try discriminate.
      apply in_app_iff in Hrest. destruct Hrest as [Hbody | Hfooter].
      * apply body_handlers in Hbody. discriminate.
      * cbn in Hfooter. intuition discriminate.
    + destruct (FloorPlanComparisonModal.pickerSide st) as [s'|];
        [|contradiction].
      cbn [List.map concat] in Hpicker. rewrite app_nil_r in Hpicker.
      rewrite picker_handlers in Hpicker. cbn [In] in Hpicker.
      destruct Hpicker as [H | [H | [H | H]]]; try discriminate.
      apply in_map_iff in H. destruct H as (x & [= -> ->] & Hx).
      repeat split; [discriminate | assumption].
  - intros (_ & -> & Hfp). right. cbn [List.map concat].
    rewrite app_nil_r, picker_handlers. do 3 right. now apply in_map.
Qed.

(** C9. Every candidate of the picker has a non-empty id that differs from
    the id of the left selection and from the id of the right selection.
    The picker offers a replacement only for the side [pickerSide] names
    and only for a candidate, it offers one for every candidate, and the
    replacement puts the plan in that slot, leaves the other slot and the
    zoom alone, and sets [pickerSide] to null. *)
Theorem picker_excludes_compared :
  forall (p : FloorPlanComparisonModal.props)
         (st : FloorPlanComparisonModal.state),
    (forall fp,
        In fp (FloorPlanComparisonModal.candidateFloorPlans p st) ->
        FloorPlanResponse.id fp <> "" /\
        (forall l, FloorPlanComparisonModal.leftFloorPlan st = Some l ->
                   FloorPlanResponse.id fp <> FloorPlanResponse.id l) /\
        (forall r, FloorPlanComparisonModal.rightFloorPlan st = Some r ->
                   FloorPlanResponse.id fp <> FloorPlanResponse.id r)) /\
    (forall s fp,
        In (FloorPlanComparisonModal.ReplaceFloorPlan s fp)
           (FloorPlanComparisonModal.offered p st) <->
        FloorPlanComparisonModal.render p st <> None /\
        FloorPlanComparisonModal.pickerSide st = Some s /\
        In fp (FloorPlanComparisonModal.candidateFloorPlans p st)) /\
    (forall s fp,
        let st' :=
          FloorPlanComparisonModal.handle
            (FloorPlanComparisonModal.ReplaceFloorPlan s fp) st in
        slot s st' = Some fp /\
        slot (other s) st' = slot (other s) st /\
        FloorPlanComparisonModal.pickerSide st' = None /\
        FloorPlanComparisonModal.isExpanded st'
        = FloorPlanComparisonModal.isExpanded st).
Proof.
  intros p st. split; [|split].
  - intros fp Hfp. apply candidate_spec in Hfp.
    destruct Hfp as (_ & _ & Hid & Hex).
    assert (Hslot : forall s chosen,
               slot s st = Some chosen ->
               FloorPlanResponse.id fp <> FloorPlanResponse.id chosen).
    { intros s chosen Hs Heq. apply Hex. rewrite Heq.
      apply (excludedIds_slot st s); [assumption | congruence]. }
    split; [assumption|]. split.
    + intros l Hl. now apply (Hslot FloorPlanComparisonModal.side0).
    + intros r Hr. now apply (Hslot FloorPlanComparisonModal.side1).
  - intros s fp. apply offered_replace.
  - intros [|] fp; repeat split.
Qed.

(** In the sample state plans a1 and a2 are compared and the picker is open
    for the right slot: s1 is the one candidate, and choosing it replaces
    a2. *)
Lemma picker_sample :
  List.map FloorPlanResponse.id
    (FloorPlanComparisonModal.candidateFloorPlans open_modal comparing)
  = ["s1"] /\
  In (FloorPlanComparisonModal.ReplaceFloorPlan
        FloorPlanComparisonModal.side1 plan_s1)
     (FloorPlanComparisonModal.offered open_modal comparing) /\
  FloorPlanComparisonModal.handle
    (FloorPlanComparisonModal.ReplaceFloorPlan
       FloorPlanComparisonModal.side1 plan_s1) comparing
  = {| FloorPlanComparisonModal.leftFloorPlan := Some plan_a1;
       FloorPlanComparisonModal.rightFloorPlan := Some plan_s1;
       FloorPlanComparisonModal.pickerSide := None;
       FloorPlanComparisonModal.isExpanded := false |}.
Proof.
  split; [reflexivity|]. split; [|reflexivity].
  apply (picker_excludes_compared open_modal comparing).
  split; [discriminate|]. split; [reflexivity|]. vm_compute. tauto.
Defined.

(** ** The size filter and text that is no number *)

(** When the size text parses and the bounds are integers, the callback is
    the four field comparisons, the last one [lo <= size <= hi]. *)
Lemma keeps_when_size_parses c f fp z :
  JS.parseInt (size_text fp) = JS.of_Z z ->
  (forall r, FloorPlanFilters.sizeRange f = Some r ->
     exists lo hi, r = {| FloorPlanFilters.min := JS.of_Z lo;
                          FloorPlanFilters.max := JS.of_Z hi |}) ->
  FloorPlans.keeps c f fp = true <->
  (FloorPlanFilters.projectName f <> "" ->
   FloorPlans.getProjectName c (FloorPlanResponse.projectId fp)
   = Some (FloorPlanFilters.projectName f)) /\
  (FloorPlanFilters.bedrooms f <> "" ->
   FloorPlanResponse.bedRooms fp = Some (FloorPlanFilters.bedrooms f)) /\
  (FloorPlanFilters.bathrooms f <> "" ->
   FloorPlanResponse.bathRooms fp = Some (FloorPlanFilters.bathrooms f)) /\
  (forall lo hi,
      FloorPlanFilters.sizeRange f
      = Some {| FloorPlanFilters.min := JS.of_Z lo;
                FloorPlanFilters.max := JS.of_Z hi |} ->
      lo <= z <= hi).
Proof.
  intros Hparse Hbounds. rewrite keeps_spec, Hparse.
  split; intros (Hname & Hbed & Hbath & Hsize);
    (do 3 (split; [assumption|])).
  - intros lo hi Hr. apply size_in_range. exact (Hsize _ Hr).
  - intros r Hr. destruct (Hbounds r Hr) as (lo & hi & ->).
    apply size_in_range. now apply Hsize.
Qed.

(** C2 at a plan whose size text is no number.  The size of plan s2 reads
    "TBD"; [parseInt] gives [NaN], both comparisons of the size guard are
    false, and the plan stays in the list filtered by the range 1000-1500,
    and is counted by the drawer, although no integer was parsed from it. *)
Theorem unparsed_size_passes_range :
  JS.parseInt (size_text plan_tbd) = JS.NaN /\
  FloorPlans.filteredFloorPlans sample_config size_filter (Some [plan_tbd])
  = [plan_tbd] /\
  FilterandNav.filteredCount sample_config size_filter (Some [plan_tbd])
  = 1%nat /\
  (forall lo hi : Z,
      FloorPlans.filteredFloorPlans sample_config
        (FloorPlanFilters.set_sizeRange
           (Some {| FloorPlanFilters.min := JS.of_Z lo;
                    FloorPlanFilters.max := JS.of_Z hi |})
           FloorPlanFilters.initial)
        (Some [plan_tbd])
      = [plan_tbd]).
Proof. repeat split. Qed.

(** A plan without any size reads as size 0 and is dropped by the same
    range. *)
Example missing_size_is_zero :
  FloorPlans.filteredFloorPlans sample_config size_filter
    (Some [plan "s3" "p-solin" "2" "2" None])
  = [].
Proof. reflexivity. Qed.

(** ** Display strings *)









Example formatBedrooms_one :
  FloorPlanComparisonModal.formatBedrooms (Some "1") = "1 Bed" /\
  FilterandNav.formatBedrooms (Some "1") = "1 Bed".
Proof. split; reflexivity. Qed.

Example formatBathrooms_two_and_a_half :
  FloorPlanComparisonModal.formatBathrooms (Some "2.5") = "2 Baths + Powder" /\
  FilterandNav.formatBathrooms (Some "2.5") = "2 Baths + Powder".
Proof. split; reflexivity. Qed.

(** Outside the finite numbers the two copies part ways: the modal shows
    text that is no number as it is, the drawer prints [NaN]; and an
    infinite value has no whole part to show. *)
Example format_not_a_number :
  FloorPlanComparisonModal.formatBedrooms (Some "Studio") = "Studio" /\
  FilterandNav.formatBedrooms (Some "Studio") = "NaN Beds + Den" /\
  FloorPlanComparisonModal.formatBedrooms (Some "Infinity")
  = "Infinity Beds + Den".
Proof. repeat split. Qed.

(** * Further properties *)

(** ** What a rendering of the modal holds *)

Lemma modal_guard_open p :
  FloorPlanComparisonModal.isOpen p = true ->
  (2 <= length (FloorPlanComparisonModal.favoritedFloorPlans p))%nat ->
  negb (FloorPlanComparisonModal.isOpen p)
  || (length (FloorPlanComparisonModal.favoritedFloorPlans p) <? 2)%nat = false.
Proof.
  intros -> Hlen. apply Nat.ltb_ge in Hlen. now rewrite Hlen.
Qed.

Lemma picker_item_count (pred : View.vnode FloorPlanComparisonModal.event -> bool)
    p s (k : list FloorPlanResponse.t) :
  (forall fp,
      View.count pred (FloorPlanComparisonModal.picker_item p s fp) = 0%nat) ->
  View.count_all pred (List.map (FloorPlanComparisonModal.picker_item p s) k)
  = 0%nat.
Proof. apply count_all_map_zero. Qed.

Lemma picker_placeholder p st s :
  View.count placeholder (FloorPlanComparisonModal.picker p st s) = 0%nat.
Proof.
  unfold FloorPlanComparisonModal.picker, placeholder.
  case_match; [reflexivity|]. walk_tree.
  rewrite picker_item_count; [reflexivity|].
  intros fp. unfold FloorPlanComparisonModal.picker_item.
  destruct (String.eqb _ _); reflexivity.
Qed.

Lemma picker_backdrops p st s :
  View.count picker_backdrop (FloorPlanComparisonModal.picker p st s) = 1%nat.
Proof.
  unfold FloorPlanComparisonModal.picker, picker_backdrop.
  case_match; [reflexivity|]. walk_tree.
  rewrite picker_item_count; [reflexivity|].
  intros fp. unfold FloorPlanComparisonModal.picker_item.
  destruct (String.eqb _ _); reflexivity.
Qed.

Lemma body_placeholder st :
  View.count_all placeholder (FloorPlanComparisonModal.body st)
  = if (length (FloorPlanComparisonModal.floorPlansToCompare st) =? 1)%nat
    then 1%nat else 0%nat.
Proof.
  unfold FloorPlanComparisonModal.body,
    FloorPlanComparisonModal.floorPlansToCompare.
  destruct (FloorPlanComparisonModal.leftFloorPlan st),
           (FloorPlanComparisonModal.rightFloorPlan st); reflexivity.
Qed.

Lemma body_backdrops st :
  View.count_all picker_backdrop (FloorPlanComparisonModal.body st) = 0%nat.
Proof.
  unfold FloorPlanComparisonModal.body,
    FloorPlanComparisonModal.floorPlansToCompare.
  destruct (FloorPlanComparisonModal.leftFloorPlan st),
           (FloorPlanComparisonModal.rightFloorPlan st); reflexivity.
Qed.

(** The counts of a rendering, by what the state holds. *)
Lemma modal_counts p st :
  modal_count View.is_details p st
  = (if negb (FloorPlanComparisonModal.isOpen p)
        || (length (FloorPlanComparisonModal.favoritedFloorPlans p) <? 2)%nat
     then 0%nat
     else length (FloorPlanComparisonModal.floorPlansToCompare st)) /\
  modal_count placeholder p st
  = (if negb (FloorPlanComparisonModal.isOpen p)
        || (length (FloorPlanComparisonModal.favoritedFloorPlans p) <? 2)%nat
     then 0%nat
     else if (length (FloorPlanComparisonModal.floorPlansToCompare st) =? 1)%nat
          then 1%nat else 0%nat) /\
  modal_count picker_backdrop p st
  = (if negb (FloorPlanComparisonModal.isOpen p)
        || (length (FloorPlanComparisonModal.favoritedFloorPlans p) <? 2)%nat
     then 0%nat
     else match FloorPlanComparisonModal.pickerSide st with
          | Some _ => 1%nat
          | None => 0%nat
          end).
Proof.
  unfold modal_count, FloorPlanComparisonModal.render.
  destruct (negb _ || _); [repeat split|].
  pose proof (body_details st) as Hdetails.
  pose proof (body_placeholder st) as Hplace.
  pose proof (body_backdrops st) as Hback.
  pose proof (picker_details p st) as Hpd.
  pose proof (picker_placeholder p st) as Hpp.
  pose proof (picker_backdrops p st) as Hpb.
  unfold placeholder, picker_backdrop in *.
  repeat split;
    destruct (FloorPlanComparisonModal.pickerSide st) as [s|];
    walk_tree; rewrite ?Hpd, ?Hpp, ?Hpb, ?Hdetails, ?Hplace, ?Hback;
    try destruct (Nat.eqb _ 1); lia.
Qed.

(** ** The selections and the ids the picker leaves out *)

Lemma excludedIds_In st x :
  In x (FloorPlanComparisonModal.excludedIds st) <->
  x <> "" /\
  exists s chosen, slot s st = Some chosen /\ FloorPlanResponse.id chosen = x.
Proof.
  unfold FloorPlanComparisonModal.excludedIds.
  rewrite <- list_elem_of_In, list_elem_of_omap. split.
  - intros (slot_value & Hin & Hsome).
    destruct slot_value as [fp|]; [|discriminate].
    destruct (String.eqb_spec (FloorPlanResponse.id fp) "") as [|Hne];
      [discriminate|].
    injection Hsome as <-. split; [assumption|].
    apply list_elem_of_In in Hin. cbn [In] in Hin.
    destruct Hin as [Hl | [Hr | []]].
    + exists FloorPlanComparisonModal.side0, fp. now split.
    + exists FloorPlanComparisonModal.side1, fp. now split.
  - intros (Hne & s & chosen & Hslot & <-).
    exists (Some chosen). split.
    + apply list_elem_of_In. destruct s; simpl in Hslot; rewrite <- Hslot;
        cbn [In]; auto.
    + apply String.eqb_neq in Hne. now rewrite Hne.
Qed.

(** With both slots filled by plans of different, non-empty ids out of a
    list without repeated ids, the picker lists all the others. *)
Section DistinctKeys.
Context {A : Type} (key : A -> string).
Implicit Types (l : list A) (x y : string).





End DistinctKeys.

Lemma filter_all {A} (f : A -> bool) (l : list A) :
  (forall x, In x l -> f x = true) -> List.filter f l = l.
Proof.
  induction l as [|a l IH]; simpl; [reflexivity|]. intros Hall.
  rewrite (Hall a) by now left. f_equal. apply IH. intros x Hx.
  apply Hall. now right.
Qed.

(** With both slots filled, the picker lists the favorites whose id is
    neither of the two. *)
Lemma candidates_two p st a b :
  FloorPlanComparisonModal.isOpen p = true ->
  FloorPlanComparisonModal.leftFloorPlan st = Some a ->
  FloorPlanComparisonModal.rightFloorPlan st = Some b ->
  FloorPlanResponse.id a <> "" -> FloorPlanResponse.id b <> "" ->
  Forall (fun fp => FloorPlanResponse.id fp <> "")
         (FloorPlanComparisonModal.favoritedFloorPlans p) ->
  FloorPlanComparisonModal.candidateFloorPlans p st
  = List.filter
      (fun fp =>
         negb (String.eqb (FloorPlanResponse.id fp) (FloorPlanResponse.id a))
         && negb (String.eqb (FloorPlanResponse.id fp) (FloorPlanResponse.id b)))
      (FloorPlanComparisonModal.favoritedFloorPlans p).
Proof.
  intros Hopen Hl Hr Ha Hb Hids.
  unfold FloorPlanComparisonModal.candidateFloorPlans,
    FloorPlanComparisonModal.excludedIds.
  rewrite Hopen, Hl, Hr. cbn [negb omap list_omap].
  apply String.eqb_neq in Ha, Hb. rewrite Ha, Hb.
  apply filter_ext_in. intros fp Hfp.
  rewrite Forall_forall in Hids. apply list_elem_of_In, Hids in Hfp.
  apply String.eqb_neq in Hfp. rewrite Hfp.
  cbn. now rewrite orb_false_r, negb_orb.
Qed.

(** X1. When the initialising effect runs on an open modal with at least
    two favorites, the left slot takes the first favorite and the right
    slot the second, whatever the slots held; the picker side and the zoom
    are kept, and the rendering shows two plans and no placeholder.  On a
    closed modal, or with fewer than two favorites, the effect changes
    nothing. *)
Theorem initialize_takes_first_two :
  forall (p : FloorPlanComparisonModal.props)
         (st : FloorPlanComparisonModal.state),
    (forall a b rest,
        FloorPlanComparisonModal.isOpen p = true ->
        FloorPlanComparisonModal.favoritedFloorPlans p = a :: b :: rest ->
        let st' := FloorPlanComparisonModal.initialize p st in
        FloorPlanComparisonModal.floorPlansToCompare st' = [a; b] /\
        FloorPlanComparisonModal.leftFloorPlan st' = Some a /\
        FloorPlanComparisonModal.rightFloorPlan st' = Some b /\
        FloorPlanComparisonModal.pickerSide st'
        = FloorPlanComparisonModal.pickerSide st /\
        FloorPlanComparisonModal.isExpanded st'
        = FloorPlanComparisonModal.isExpanded st /\
        modal_count View.is_details p st' = 2%nat /\
        modal_count placeholder p st' = 0%nat) /\
    (FloorPlanComparisonModal.isOpen p = false \/
     (length (FloorPlanComparisonModal.favoritedFloorPlans p) < 2)%nat ->
     FloorPlanComparisonModal.initialize p st = st).
Proof.
  intros p st. split.
  - intros a b rest Hopen Hfavs st'.
    assert (Hst' : st'
                   = {| FloorPlanComparisonModal.leftFloorPlan := Some a;
                        FloorPlanComparisonModal.rightFloorPlan := Some b;
                        FloorPlanComparisonModal.pickerSide :=
                          FloorPlanComparisonModal.pickerSide st;
                        FloorPlanComparisonModal.isExpanded :=
                          FloorPlanComparisonModal.isExpanded st |}).
    { subst st'. unfold FloorPlanComparisonModal.initialize.
      now rewrite Hopen, Hfavs. }
    destruct (modal_counts p st') as (Hdetails & Hplace & _).
    rewrite Hdetails, Hplace, modal_guard_open
      by (rewrite ?Hfavs; simpl; auto; lia).
    rewrite Hst'. repeat split.
  - intros Hguard. unfold FloorPlanComparisonModal.initialize.
    destruct Hguard as [-> | Hfew]; [reflexivity|].
    apply Nat.leb_gt in Hfew. rewrite Hfew. now rewrite andb_false_r.
Qed.

Lemma initialize_takes_first_two_sample :
  FloorPlanComparisonModal.floorPlansToCompare
    (FloorPlanComparisonModal.initialize open_modal
       FloorPlanComparisonModal.initial_state)
  = [plan_a1; plan_a2] /\
  FloorPlanComparisonModal.initialize closed_modal comparing = comparing.
Proof.
  destruct (initialize_takes_first_two open_modal
              FloorPlanComparisonModal.initial_state) as [Hopen _].
  destruct (initialize_takes_first_two closed_modal comparing) as [_ Hclosed].
  split.
  - apply (Hopen plan_a1 plan_a2 [plan_s1]); reflexivity.
  - apply Hclosed. left. reflexivity.
Defined.

(** X2. Right after the initialising effect, when the favorites have
    non-empty, pairwise different ids, the picker lists exactly the
    favorites from the third on, in their order. *)
Theorem initialize_leaves_the_rest :
  forall (p : FloorPlanComparisonModal.props)
         (st : FloorPlanComparisonModal.state) a b rest,
    FloorPlanComparisonModal.isOpen p = true ->
    FloorPlanComparisonModal.favoritedFloorPlans p = a :: b :: rest ->
    List.NoDup (List.map FloorPlanResponse.id
                  (FloorPlanComparisonModal.favoritedFloorPlans p)) ->
    Forall (fun fp => FloorPlanResponse.id fp <> "")
           (FloorPlanComparisonModal.favoritedFloorPlans p) ->
    FloorPlanComparisonModal.candidateFloorPlans p
      (FloorPlanComparisonModal.initialize p st)
    = rest.
Proof.
  intros p st a b rest Hopen Hfavs Hnodup Hids.
  assert (Hinit : FloorPlanComparisonModal.leftFloorPlan
                    (FloorPlanComparisonModal.initialize p st) = Some a /\
                  FloorPlanComparisonModal.rightFloorPlan
                    (FloorPlanComparisonModal.initialize p st) = Some b).
  { unfold FloorPlanComparisonModal.initialize. rewrite Hopen, Hfavs.
    split; reflexivity. }
  destruct Hinit as [Hl Hr].
  pose proof Hids as Hids'. rewrite Hfavs in Hids'.
  apply Forall_cons in Hids' as [Ha Hids']. apply Forall_cons in Hids' as [Hb _].
  rewrite (candidates_two p _ a b Hopen Hl Hr Ha Hb Hids), Hfavs.
  rewrite Hfavs in Hnodup. cbn [List.map] in Hnodup.
  inversion Hnodup as [|? ? Hafresh Hnodup']; subst.
  inversion Hnodup' as [|? ? Hbfresh _]; subst.
  cbn [List.filter]. rewrite !String.eqb_refl. cbn [negb andb].
  destruct (String.eqb_spec (FloorPlanResponse.id b) (FloorPlanResponse.id a))
    as [Heq|_]; [exfalso; apply Hafresh; left; congruence|].
  cbn [negb andb]. apply filter_all. intros fp Hfp.
  apply andb_true_iff. split; apply negb_true_iff, String.eqb_neq; intros Heq.
  - apply Hafresh. right. rewrite <- Heq. now apply in_map.
  - apply Hbfresh. rewrite <- Heq. now apply in_map.
Qed.

Lemma initialize_leaves_the_rest_sample :
  FloorPlanComparisonModal.candidateFloorPlans open_modal
    (FloorPlanComparisonModal.initialize open_modal
       FloorPlanComparisonModal.initial_state)
  = [plan_s1].
Proof.
  apply (initialize_leaves_the_rest open_modal
           FloorPlanComparisonModal.initial_state plan_a1 plan_a2 [plan_s1]).
  - reflexivity.
  - reflexivity.
  - repeat constructor; cbn; intuition discriminate.
  - repeat constructor; discriminate.
Defined.

(** X3. While the modal is open the picker loses no favorite: a favorite
    with a non-empty id is a candidate unless a selected plan has the same
    id, and never both. *)
Theorem picker_loses_no_favorite :
  forall (p : FloorPlanComparisonModal.props)
         (st : FloorPlanComparisonModal.state) (fp : FloorPlanResponse.t),
    FloorPlanComparisonModal.isOpen p = true ->
    In fp (FloorPlanComparisonModal.favoritedFloorPlans p) ->
    FloorPlanResponse.id fp <> "" ->
    (In fp (FloorPlanComparisonModal.candidateFloorPlans p st) \/
     exists s chosen,
       slot s st = Some chosen /\
       FloorPlanResponse.id chosen = FloorPlanResponse.id fp) /\
    ~ (In fp (FloorPlanComparisonModal.candidateFloorPlans p st) /\
       exists s chosen,
         slot s st = Some chosen /\
         FloorPlanResponse.id chosen = FloorPlanResponse.id fp).
Proof.
  intros p st fp Hopen Hfav Hid. split.
  - destruct (FloorPlanComparisonModal.has
                (FloorPlanComparisonModal.excludedIds st)
                (FloorPlanResponse.id fp)) eqn:Hhas.
    + right. apply has_In, excludedIds_In in Hhas. tauto.
    + left. apply candidate_spec. repeat split; try assumption.
      rewrite <- has_In. congruence.
  - intros (Hcand & s & chosen & Hslot & Heq).
    apply candidate_spec in Hcand. destruct Hcand as (_ & _ & _ & Hout).
    apply Hout, excludedIds_In. split; [assumption | eauto].
Qed.

Lemma picker_loses_no_favorite_sample :
  In plan_s1 (FloorPlanComparisonModal.candidateFloorPlans open_modal comparing)
  \/ exists s chosen,
      slot s comparing = Some chosen /\
      FloorPlanResponse.id chosen = FloorPlanResponse.id plan_s1.
Proof.
  apply (picker_loses_no_favorite open_modal comparing plan_s1).
  - reflexivity.
  - cbn. tauto.
  - discriminate.
Defined.

Lemma slot_replaced s fp st :
  slot s (FloorPlanComparisonModal.handleReplaceFloorPlan s fp st) = Some fp /\
  slot (other s) (FloorPlanComparisonModal.handleReplaceFloorPlan s fp st)
  = slot (other s) st.
Proof. destruct s; split; reflexivity. Qed.

Lemma slot_cases s s' : s' = s \/ s' = other s.
Proof. destruct s, s'; auto. Qed.

(** X4. Picking a candidate swaps it with the plan it replaces: the picked
    plan leaves the picker, every other candidate with a different id
    stays, and the replaced plan comes back when it is a favorite whose
    non-empty id is that of neither the picked plan nor the other slot. *)
Theorem pick_swaps_candidate :
  forall (p : FloorPlanComparisonModal.props)
         (st : FloorPlanComparisonModal.state)
         (s : FloorPlanComparisonModal.side) (fp : FloorPlanResponse.t),
    In fp (FloorPlanComparisonModal.candidateFloorPlans p st) ->
    let st' := FloorPlanComparisonModal.handleReplaceFloorPlan s fp st in
    ~ In fp (FloorPlanComparisonModal.candidateFloorPlans p st') /\
    (forall fp',
        In fp' (FloorPlanComparisonModal.candidateFloorPlans p st) ->
        FloorPlanResponse.id fp' <> FloorPlanResponse.id fp ->
        In fp' (FloorPlanComparisonModal.candidateFloorPlans p st')) /\
    (forall replaced,
        slot s st = Some replaced ->
        In replaced (FloorPlanComparisonModal.favoritedFloorPlans p) ->
        FloorPlanResponse.id replaced <> "" ->
        FloorPlanResponse.id replaced <> FloorPlanResponse.id fp ->
        (forall kept, slot (other s) st = Some kept ->
                      FloorPlanResponse.id kept <> FloorPlanResponse.id replaced) ->
        In replaced (FloorPlanComparisonModal.candidateFloorPlans p st')).
Proof.
  intros p st s fp Hcand st'.
  destruct (slot_replaced s fp st) as [Hnew Hkept]. fold st' in Hnew, Hkept.
  pose proof Hcand as Hspec. apply candidate_spec in Hspec.
  destruct Hspec as (Hopen & Hfav & Hid & Hout).
  assert (Hexcluded : forall x,
             In x (FloorPlanComparisonModal.excludedIds st') ->
             x = FloorPlanResponse.id fp \/
             exists kept, slot (other s) st = Some kept /\
                          FloorPlanResponse.id kept = x).
  { intros x Hx. apply excludedIds_In in Hx.
    destruct Hx as (_ & s' & chosen & Hslot & <-).
    destruct (slot_cases s s') as [-> | ->].
    - left. congruence.
    - right. exists chosen. split; [congruence | reflexivity]. }
  split; [|split].
  - intros Hstill. apply candidate_spec in Hstill.
    destruct Hstill as (_ & _ & _ & Hout'). apply Hout'.
    apply excludedIds_In. split; [assumption|]. exists s, fp. now split.
  - intros fp' Hcand' Hne. apply candidate_spec in Hcand'.
    destruct Hcand' as (_ & Hfav' & Hid' & Hout').
    apply candidate_spec. repeat split; try assumption.
    intros Hx. apply Hexcluded in Hx. destruct Hx as [Heq | (kept & Hk & Heq)].
    + contradiction.
    + apply Hout'. apply excludedIds_In. split; [assumption|].
      exists (other s), kept. now split.
  - intros replaced Hslot Hfav' Hid' Hne Hother.
    apply candidate_spec. repeat split; try assumption.
    intros Hx. apply Hexcluded in Hx. destruct Hx as [Heq | (kept & Hk & Heq)].
    + contradiction.
    + now apply (Hother kept).
Qed.

Lemma pick_swaps_candidate_sample :
  ~ In plan_s1
      (FloorPlanComparisonModal.candidateFloorPlans open_modal
         (FloorPlanComparisonModal.handleReplaceFloorPlan
            FloorPlanComparisonModal.side1 plan_s1 comparing)).
Proof.
  apply (pick_swaps_candidate open_modal comparing
           FloorPlanComparisonModal.side1 plan_s1).
  cbn. tauto.
Defined.

(** X5. After any pick the picker offers, the two slots never hold plans
    with the same id. *)
Theorem pick_keeps_ids_apart :
  forall (p : FloorPlanComparisonModal.props)
         (st : FloorPlanComparisonModal.state)
         (s : FloorPlanComparisonModal.side) (fp : FloorPlanResponse.t),
    In (FloorPlanComparisonModal.ReplaceFloorPlan s fp)
       (FloorPlanComparisonModal.offered p st) ->
    let st' :=
      FloorPlanComparisonModal.handle
        (FloorPlanComparisonModal.ReplaceFloorPlan s fp) st in
    forall l r,
      FloorPlanComparisonModal.leftFloorPlan st' = Some l ->
      FloorPlanComparisonModal.rightFloorPlan st' = Some r ->
      FloorPlanResponse.id l <> FloorPlanResponse.id r.
Proof.
  intros p st s fp Hoffered st' l r Hl Hr Heq.
  apply offered_replace in Hoffered. destruct Hoffered as (_ & _ & Hcand).
  apply candidate_spec in Hcand. destruct Hcand as (_ & _ & Hid & Hout).
  apply Hout. apply excludedIds_In. split; [assumption|].
  subst st'. cbn [FloorPlanComparisonModal.handle] in Hl, Hr.
  destruct s; cbn in Hl, Hr.
  - injection Hl as <-. exists FloorPlanComparisonModal.side1, r.
    split; [assumption | congruence].
  - injection Hr as <-. exists FloorPlanComparisonModal.side0, l.
    split; [assumption | congruence].
Qed.

Lemma pick_keeps_ids_apart_sample :
  FloorPlanResponse.id plan_a1 <> FloorPlanResponse.id plan_s1.
Proof.
  apply (pick_keeps_ids_apart open_modal comparing
           FloorPlanComparisonModal.side1 plan_s1).
  - vm_compute. tauto.
  - reflexivity.
  - reflexivity.
Defined.

(** ** A whole session *)




(** X7. Closing resets the picker and the zoom and keeps the selections:
    after the reset effect of a closed modal the slots are unchanged, and
    the next rendering, whatever the props then are, shows no picker and
    offers no replacement. *)
Theorem closing_resets_picker :
  forall (closed next : FloorPlanComparisonModal.props)
         (st : FloorPlanComparisonModal.state),
    FloorPlanComparisonModal.isOpen closed = false ->
    let st' := FloorPlanComparisonModal.reset closed st in
    FloorPlanComparisonModal.floorPlansToCompare st'
    = FloorPlanComparisonModal.floorPlansToCompare st /\
    FloorPlanComparisonModal.pickerSide st' = None /\
    FloorPlanComparisonModal.isExpanded st' = false /\
    modal_count picker_backdrop next st' = 0%nat /\
    (forall s fp,
        ~ In (FloorPlanComparisonModal.ReplaceFloorPlan s fp)
             (FloorPlanComparisonModal.offered next st')).
Proof.
  intros closed next st Hclosed st'.
  assert (Hpicker : FloorPlanComparisonModal.pickerSide st' = None).
  { subst st'. unfold FloorPlanComparisonModal.reset. now rewrite Hclosed. }
  split; [|split; [|split; [|split]]].
  - subst st'. unfold FloorPlanComparisonModal.reset. now rewrite Hclosed.
  - exact Hpicker.
  - subst st'. unfold FloorPlanComparisonModal.reset. now rewrite Hclosed.
  - destruct (modal_counts next st') as (_ & _ & ->). rewrite Hpicker.
    now destruct (negb _ || _).
  - intros s fp Hoffered. apply offered_replace in Hoffered.
    destruct Hoffered as (_ & Hside & _). congruence.
Qed.

Lemma closing_resets_picker_sample :
  FloorPlanComparisonModal.pickerSide
    (FloorPlanComparisonModal.reset closed_modal comparing) = None /\
  modal_count picker_backdrop open_modal
    (FloorPlanComparisonModal.reset closed_modal comparing) = 0%nat.
Proof.
  destruct (closing_resets_picker closed_modal open_modal comparing eq_refl)
    as (_ & Hside & _ & Hcount & _).
  split; assumption.
Defined.

(** ** Project names *)

Lemma find_app {A} (f : A -> bool) (l k : list A) :
  List.find f (l ++ k)
  = match List.find f l with
    | Some x => Some x
    | None => List.find f k
    end.
Proof.
  induction l as [|a l IH]; simpl; [reflexivity|]. now destruct (f a).
Qed.

Lemma projectNameMap_lookup (projects : list Project.t)
    (m : gmap string string) (pid : string) :
  pid <> "" ->
  fold_left
    (fun (m : gmap string string) (project : Project.t) =>
       match Project.projectId project with
       | Some pid =>
           if String.eqb pid "" then m else <[pid := Project.name project]> m
       | None => m
       end)
    projects m !! pid
  = match last_project pid projects with
    | Some project => Some (Project.name project)
    | None => m !! pid
    end.
Proof.
  intros Hpid. unfold last_project. revert m.
  induction projects as [|project projects IH]; intros m; [reflexivity|].
  cbn [fold_left rev]. rewrite IH, find_app.
  destruct (find _ (rev projects)) as [found|]; [reflexivity|].
  cbn [find]. destruct (Project.projectId project) as [pid'|].
  - destruct (String.eqb_spec pid' "") as [->|Hne].
    + rewrite bool_decide_eq_false_2; [reflexivity | congruence].
    + destruct (decide (pid' = pid)) as [->|Hother].
      * rewrite bool_decide_eq_true_2 by reflexivity. apply lookup_insert_eq.
      * rewrite bool_decide_eq_false_2 by congruence.
        now apply lookup_insert_ne.
  - now rewrite bool_decide_eq_false_2.
Qed.

(** X8. [getProjectName] gives the name of the last project of the
    configuration that carries the id, when that name is not empty; it
    gives null for a missing or empty id, for an id no project carries, and
    for an empty name.  It never gives an empty name.  Both copies (the
    one of [FloorPlans] and the one of [FilterandNav]) do so. *)
Theorem getProjectName_lookup :
  forall (c : ProjectConfig.t),
    (forall pid,
        pid <> "" ->
        FloorPlans.getProjectName c (Some pid)
        = match last_project pid (ProjectConfig.projects c) with
          | Some project =>
              if decide (Project.name project = "") then None
              else Some (Project.name project)
          | None => None
          end) /\
    FloorPlans.getProjectName c None = None /\
    FloorPlans.getProjectName c (Some "") = None /\
    (forall projectId, FloorPlans.getProjectName c projectId <> Some "") /\
    (forall projectId,
        FilterandNav.getProjectName c projectId
        = FloorPlans.getProjectName c projectId).
Proof.
  intros c.
  assert (Hlookup : forall pid,
             pid <> "" ->
             FloorPlans.getProjectName c (Some pid)
             = match last_project pid (ProjectConfig.projects c) with
               | Some project =>
                   if decide (Project.name project = "") then None
                   else Some (Project.name project)
               | None => None
               end).
  { intros pid Hpid. unfold FloorPlans.getProjectName, FloorPlans.projectNameMap.
    pose proof Hpid as Hne. apply String.eqb_neq in Hne. rewrite Hne.
    rewrite projectNameMap_lookup by assumption.
    destruct (last_project pid (ProjectConfig.projects c)) as [project|];
      [|now rewrite lookup_empty].
    destruct (decide (Project.name project = "")) as [->|Hname];
      [reflexivity|].
    apply String.eqb_neq in Hname. now rewrite Hname. }
  split; [exact Hlookup|]. split; [reflexivity|]. split; [reflexivity|].
  split; [|reflexivity].
  intros [pid|]; [|discriminate].
  destruct (decide (pid = "")) as [->|Hpid]; [discriminate|].
  rewrite Hlookup by assumption.
  destruct (last_project pid (ProjectConfig.projects c)) as [project|];
    [|discriminate].
  destruct (decide (Project.name project = "")); congruence.
Qed.

(** A later project with the same id wins. *)
Example getProjectName_last_wins :
  FloorPlans.getProjectName
    {| ProjectConfig.slug := "lightwell";
       ProjectConfig.projects :=
         [ {| Project.projectId := Some "p1"; Project.name := "First" |};
           {| Project.projectId := Some "p1"; Project.name := "Second" |} ] |}
    (Some "p1")
  = Some "Second".
Proof. reflexivity. Qed.

(** ** The detail modal and the grid of [FloorPlans] *)



Lemma card_plans_elem tag className onClick vs :
  card_plans (View.VElem tag className onClick vs)
  = concat (List.map card_plans vs).
Proof.
  simpl. induction vs as [|v vs IH]; simpl; [reflexivity|]. now rewrite IH.
Qed.

Lemma card_plans_cards c fav (l : list FloorPlanResponse.t) :
  concat (List.map card_plans (List.map (FloorPlans.card c fav) l)) = l.
Proof.
  induction l as [|fp l IH]; cbn [List.map concat]; [reflexivity|].
  now rewrite IH.
Qed.

(** X10. Once the list is loaded and not empty, the grid of [FloorPlans]
    shows one card per filtered plan, in the order of the filtered list;
    their number is the result count of the filter drawer, and the message
    that nothing matches is shown exactly when there is no card. *)
Theorem grid_shows_filtered_plans :
  forall (p : FloorPlans.props) (q : UseFloorPlans.t) (fav : UseFavorites.t)
         (st : FloorPlans.state) (first : FloorPlanResponse.t)
         (more : list FloorPlanResponse.t),
    UseFloorPlans.isLoading q = false ->
    UseFloorPlans.isError q = false ->
    UseFloorPlans.data q = Some (first :: more) ->
    let rendered := FloorPlans.render p q fav st in
    let filtered :=
      FloorPlans.filteredFloorPlans (FloorPlans.config p) (FloorPlans.filters p)
        (UseFloorPlans.data q) in
    concat (List.map card_plans rendered) = filtered /\
    length (concat (List.map card_plans rendered))
    = FilterandNav.filteredCount (FloorPlans.config p) (FloorPlans.filters p)
        (UseFloorPlans.data q) /\
    View.count_all no_results rendered
    = (if (length filtered =? 0)%nat then 1%nat else 0%nat).
Proof.
  intros p q fav st first more Hload Herr Hdata rendered filtered.
  assert (Hcards : concat (List.map card_plans rendered) = filtered).
  { subst rendered filtered. unfold FloorPlans.render.
    rewrite Hload, Herr, Hdata. cbn [length Nat.eqb app].
    cbn [List.map concat].
    match goal with
    | |- (_ ++ ?rest)%list = _ =>
        assert (Hrest : rest = [])
          by (destruct (FloorPlans.canCompare _ _); reflexivity);
        rewrite Hrest
    end.
    rewrite card_plans_elem. cbn [List.map concat].
    rewrite card_plans_elem, !app_nil_r.
    destruct (FloorPlans.filteredFloorPlans _ _ _) as [|fp l] eqn:Hl;
      [reflexivity|].
    cbn [length Nat.eqb]. apply card_plans_cards. }
  split; [exact Hcards|]. split.
  - rewrite Hcards. subst filtered. rewrite Hdata.
    unfold FilterandNav.filteredCount, FloorPlans.filteredFloorPlans.
    reflexivity.
  - subst rendered filtered. unfold FloorPlans.render, no_results.
    rewrite Hload, Herr, Hdata. cbn [length Nat.eqb].
    destruct (Nat.eqb _ 0); destruct (FloorPlans.canCompare _ _); walk_tree;
      rewrite ?cards_count_zero by reflexivity; reflexivity.
Qed.

Lemma grid_shows_filtered_plans_sample :
  List.map FloorPlanResponse.id
    (concat
       (List.map card_plans
          (FloorPlans.render (App.floorPlans_props sample_config size_filter)
             loaded sample_favorites FloorPlans.initial_state)))
  = ["a2"; "s2"].
Proof.
  rewrite (proj1 (grid_shows_filtered_plans
                    (App.floorPlans_props sample_config size_filter)
                    loaded sample_favorites FloorPlans.initial_state
                    plan_a1 [plan_a2; plan_s1; plan_tbd]
                    eq_refl eq_refl eq_refl)).
  reflexivity.
Defined.

(** ** Filters together *)

Lemma filter_twice {A} (f g : A -> bool) (l : list A) :
  List.filter f (List.filter g l) = List.filter (fun x => g x && f x) l.
Proof.
  induction l as [|a l IH]; simpl; [reflexivity|].
  destruct (g a); simpl; [destruct (f a)|]; now rewrite IH.
Qed.

(** The callback is the conjunction of its four guards, each taken alone. *)
Lemma keeps_split c f fp :
  FloorPlans.keeps c f fp
  = FloorPlans.keeps c (only_projectName f) fp
    && FloorPlans.keeps c (only_bedrooms f) fp
    && FloorPlans.keeps c (only_bathrooms f) fp
    && FloorPlans.keeps c (only_sizeRange f) fp.
Proof.
  unfold FloorPlans.keeps, only_projectName, only_bedrooms, only_bathrooms,
    only_sizeRange. cbn.
  destruct (negb (String.eqb (FloorPlanFilters.projectName f) "") && _);
    [reflexivity|].
  destruct (negb (String.eqb (FloorPlanFilters.bedrooms f) "") && _);
    [reflexivity|].
  destruct (negb (String.eqb (FloorPlanFilters.bathrooms f) "") && _);
    [reflexivity|].
  destruct (FloorPlanFilters.sizeRange f); [|reflexivity].
  now destruct (JS.lt _ _ || JS.gt _ _).
Qed.

(** X11. Filtering composes: filtering an already filtered list by a
    second setting gives the same list whichever setting comes first, a
    setting applied twice filters once, and the list filtered by a setting
    is the fetched list filtered by its project, then its bedrooms, then
    its bathrooms, then its size range, each taken alone. *)
Theorem filters_compose :
  forall (c : ProjectConfig.t) (f g : FloorPlanFilters.t)
         (data : option (list FloorPlanResponse.t)),
    FloorPlans.filteredFloorPlans c f
      (Some (FloorPlans.filteredFloorPlans c g data))
    = FloorPlans.filteredFloorPlans c g
        (Some (FloorPlans.filteredFloorPlans c f data)) /\
    FloorPlans.filteredFloorPlans c f
      (Some (FloorPlans.filteredFloorPlans c f data))
    = FloorPlans.filteredFloorPlans c f data /\
    FloorPlans.filteredFloorPlans c f data
    = FloorPlans.filteredFloorPlans c (only_sizeRange f)
        (Some (FloorPlans.filteredFloorPlans c (only_bathrooms f)
           (Some (FloorPlans.filteredFloorPlans c (only_bedrooms f)
              (Some (FloorPlans.filteredFloorPlans c (only_projectName f)
                 data)))))).
Proof.
  intros c f g [fetched|]; [|repeat split].
  cbn [FloorPlans.filteredFloorPlans]. rewrite !filter_twice.
  split; [|split]; apply filter_ext; intros fp.
  - apply andb_comm.
  - now destruct (FloorPlans.keeps c f fp).
  - rewrite !andb_assoc. apply keeps_split.
Qed.

Lemma activeFilterCount_zero f :
  FilterandNav.activeFilterCount f = 0%nat <-> f = FloorPlanFilters.initial.
Proof.
  unfold FilterandNav.activeFilterCount, FloorPlanFilters.initial.
  destruct f as [name beds baths size]. cbn. split.
  - intros Hcount.
    destruct (String.eqb_spec name ""), (String.eqb_spec beds ""),
      (String.eqb_spec baths ""), size; cbn in Hcount; try discriminate.
    now subst.
  - now intros [= -> -> -> ->].
Qed.

(** X12. The badge of the filter button counts the filters that are set:
    it is at most four, it is zero exactly for the cleared filters, and
    with a zero badge every fetched plan is listed and counted. *)
Theorem no_active_filter_shows_everything :
  forall (c : ProjectConfig.t) (f : FloorPlanFilters.t)
         (data : option (list FloorPlanResponse.t)),
    (FilterandNav.activeFilterCount f <= 4)%nat /\
    (FilterandNav.activeFilterCount f = 0%nat <-> f = FilterandNav.clearFilters) /\
    (FilterandNav.activeFilterCount f = 0%nat ->
     FloorPlans.filteredFloorPlans c f data = fetched_list data /\
     FilterandNav.filteredCount c f data = length (fetched_list data)).
Proof.
  intros c f data. split; [|split].
  - unfold FilterandNav.activeFilterCount.
    exact (sublist_length _ _ (filter_sublist _ _)).
  - apply activeFilterCount_zero.
  - intros Hzero. apply activeFilterCount_zero in Hzero. subst f.
    destruct data as [fetched|]; [|split; reflexivity].
    cbn [FloorPlans.filteredFloorPlans FilterandNav.filteredCount fetched_list].
    assert (Hall : List.filter (FloorPlans.keeps c FloorPlanFilters.initial)
                     fetched = fetched)
      by (apply filter_all; reflexivity).
    split; [exact Hall|]. f_equal. exact Hall.
Qed.

(** ** Titles and meta lines of the picker *)






Lemma truthy_spec (a : option string) :
  JS.truthy a = true <-> exists s, a = Some s /\ s <> "".
Proof.
  unfold JS.truthy. destruct a as [s|].
  - rewrite negb_true_iff, String.eqb_neq. split; [eauto|].
    now intros (s' & [= <-] & Hs).
  - split; [discriminate | intros (s & H & _); discriminate].
Qed.


(** A plan with nothing but blanks for a size has no meta line; plan a2
    shows all three parts. *)
Example meta_samples :
  FloorPlanComparisonModal.formatFloorPlanMeta
    {| FloorPlanResponse.id := "x"; FloorPlanResponse.projectId := None;
       FloorPlanResponse.name := None; FloorPlanResponse.bedRooms := None;
       FloorPlanResponse.bathRooms := Some "";
       FloorPlanResponse.totalSize := Some "   ";
       FloorPlanResponse.interiorSize := Some "900";
       FloorPlanResponse.exteriorSize := None |}
  = "" /\
  FloorPlanComparisonModal.formatFloorPlanMeta plan_a2
  = "3 Beds + Den | 2 Baths | 1240 sqft".
Proof. split; reflexivity. Qed.

(** ** Choosing an image *)

Lemma or_else_null (a : option string) :
  JS.or_else a None <> Some "" /\
  (JS.or_else a None <> None <-> JS.truthy a = true) /\
  (forall u, JS.or_else a None = Some u -> a = Some u).
Proof.
  unfold JS.or_else. destruct (JS.truthy a) eqn:Ha.
  - apply truthy_spec in Ha. destruct Ha as (s & -> & Hs).
    repeat split; intuition congruence.
  - repeat split; intuition congruence.
Qed.

(** X14. The image helpers of the comparison modal never give an empty
    link.  The main image of a plan is the first truthy one of: the link of
    its first photo, of its first key plan, and of its first rendering (the
    first image of that rendering when it has images, its own link
    otherwise); so a plan that shows a key plan always shows a main image.
    A first rendering whose first image has no link gives no image, even
    when the rendering has a link of its own. *)
Theorem image_choice :
  forall (floorPlan : option FloorPlanImages.t),
    (FloorPlanImages.getFloorPlanImage floorPlan <> Some "" /\
     FloorPlanImages.getKeyPlanImage floorPlan <> Some "" /\
     FloorPlanImages.getRenderingsImage floorPlan <> Some "") /\
    (forall fp,
        floorPlan = Some fp ->
        FloorPlanImages.getFloorPlanImage floorPlan
        = if JS.truthy (FloorPlanImages.first_link
                          (FloorPlanImages.floorPlanPhoto fp))
          then FloorPlanImages.first_link (FloorPlanImages.floorPlanPhoto fp)
          else if JS.truthy (FloorPlanImages.first_link
                               (FloorPlanImages.keyPlan fp))
               then FloorPlanImages.first_link (FloorPlanImages.keyPlan fp)
               else FloorPlanImages.getRenderingsImage floorPlan) /\
    (FloorPlanImages.getKeyPlanImage floorPlan <> None ->
     FloorPlanImages.getFloorPlanImage floorPlan <> None) /\
    (forall fp firstRendering others firstImage moreImages,
        floorPlan = Some fp ->
        FloorPlanImages.renderings fp = Some (firstRendering :: others) ->
        FloorPlanImages.images firstRendering
        = Some (firstImage :: moreImages) ->
        JS.truthy (FloorPlanImages.link firstImage) = false ->
        FloorPlanImages.getRenderingsImage floorPlan = None).
Proof.
  intros floorPlan.
  assert (Hrenderings :
            FloorPlanImages.getRenderingsImage floorPlan <> Some "").
  { destruct floorPlan as [fp|]; [|discriminate]. cbn.
    destruct (FloorPlanImages.renderings fp) as [[|first others]|];
      try discriminate.
    destruct (FloorPlanImages.images first) as [[|firstImage more]|];
      apply or_else_null. }
  assert (Hmain : forall fp,
             floorPlan = Some fp ->
             FloorPlanImages.getFloorPlanImage floorPlan
             = if JS.truthy (FloorPlanImages.first_link
                               (FloorPlanImages.floorPlanPhoto fp))
               then FloorPlanImages.first_link
                      (FloorPlanImages.floorPlanPhoto fp)
               else if JS.truthy (FloorPlanImages.first_link
                                    (FloorPlanImages.keyPlan fp))
                    then FloorPlanImages.first_link (FloorPlanImages.keyPlan fp)
                    else FloorPlanImages.getRenderingsImage floorPlan).
  { intros fp ->. unfold FloorPlanImages.getFloorPlanImage.
    set (photo := FloorPlanImages.first_link _).
    set (key := FloorPlanImages.first_link _).
    set (rendered := FloorPlanImages.getRenderingsImage _) in *.
    unfold JS.or_else at 3. destruct (JS.truthy photo) eqn:Hphoto.
    - unfold JS.or_else. now rewrite Hphoto, Hphoto.
    - unfold JS.or_else at 2. destruct (JS.truthy key) eqn:Hkey.
      + unfold JS.or_else. now rewrite Hkey.
      + unfold JS.or_else. destruct (JS.truthy rendered) eqn:Hr;
          [reflexivity|].
        destruct rendered as [u|]; [|reflexivity].
        cbn in Hr. apply negb_false_iff, String.eqb_eq in Hr. subst u.
        now destruct Hrenderings. }
  split; [split; [|split]|split; [|split]].
  - destruct floorPlan as [fp|]; [|discriminate]. apply or_else_null.
  - destruct floorPlan as [fp|]; [|discriminate]. apply or_else_null.
  - exact Hrenderings.
  - exact Hmain.
  - destruct floorPlan as [fp|]; [|intros H; now destruct H].
    intros Hkey. rewrite (Hmain fp eq_refl).
    apply or_else_null in Hkey.
    destruct (JS.truthy (FloorPlanImages.first_link
                           (FloorPlanImages.floorPlanPhoto fp))) eqn:Hphoto.
    + apply truthy_spec in Hphoto. destruct Hphoto as (u & -> & _).
      discriminate.
    + rewrite Hkey. apply truthy_spec in Hkey.
      destruct Hkey as (u & -> & _). discriminate.
  - intros fp first others firstImage more -> Hr Hi Hlink. cbn.
    rewrite Hr, Hi. unfold JS.or_else. now rewrite Hlink.
Qed.

(** The first image of the first rendering has no link: no image, although
    the rendering links to one. *)
Example rendering_link_not_used :
  FloorPlanImages.getFloorPlanImage
    (Some {| FloorPlanImages.floorPlanPhoto := Some [];
             FloorPlanImages.keyPlan := None;
             FloorPlanImages.renderings :=
               Some [ {| FloorPlanImages.images :=
                           Some [ {| FloorPlanImages.link := None |} ];
                         FloorPlanImages.rendering_link :=
                           Some "https://cdn/r1.jpg" |} ] |})
  = None.
Proof. reflexivity. Qed.

(** ** Sets in insertion order and sorting *)

Lemma add_In (x y : string) (set : list string) :
  In y (FilterandNav.add x set) <-> y = x \/ In y set.
Proof.
  unfold FilterandNav.add. destruct (existsb _ set) eqn:Hin.
  - apply existsb_exists in Hin. destruct Hin as (z & Hz & Heq).
    apply String.eqb_eq in Heq. subst z. intuition congruence.
  - rewrite in_app_iff. cbn. intuition congruence.
Qed.

Lemma add_NoDup (x : string) (set : list string) :
  List.NoDup set -> List.NoDup (FilterandNav.add x set).
Proof.
  intros Hset. unfold FilterandNav.add. destruct (existsb _ set) eqn:Hin;
    [assumption|].
  apply (Permutation_NoDup (Permutation_cons_append set x)).
  constructor; [|assumption]. intros Hx.
  assert (existsb (String.eqb x) set = true); [|congruence].
  apply existsb_exists. exists x. split; [assumption | apply String.eqb_refl].
Qed.

Section SetOf.
Context (offers : FloorPlanResponse.t -> option string).

(** The set built by adding, plan after plan, what each plan offers. *)
Let collect (set : list string) (l : list FloorPlanResponse.t) : list string :=
  fold_left
    (fun set fp => match offers fp with
                   | Some x => FilterandNav.add x set
                   | None => set
                   end)
    l set.

Lemma collect_In l set y :
  In y (collect set l) <->
  In y set \/ exists fp, In fp l /\ offers fp = Some y.
Proof.
  unfold collect. revert set.
  induction l as [|fp l IH]; intros set; cbn [fold_left].
  - split; [auto | intros [H | (fp & [] & _)]; exact H].
  - rewrite IH. destruct (offers fp) as [x|] eqn:Hfp.
    + rewrite add_In. split.
      * intros [[-> | H] | (fp' & Hin & Hy)]; eauto.
        -- right. exists fp. split; [now left | assumption].
        -- right. exists fp'. split; [now right | assumption].
      * intros [H | (fp' & [<- | Hin] & Hy)]; eauto.
        left. left. congruence.
    + split.
      * intros [H | (fp' & Hin & Hy)]; eauto.
        right. exists fp'. split; [now right | assumption].
      * intros [H | (fp' & [<- | Hin] & Hy)]; eauto. congruence.
Qed.

Lemma collect_NoDup l set :
  List.NoDup set -> List.NoDup (collect set l).
Proof.
  unfold collect. revert set.
  induction l as [|fp l IH]; intros set Hset; cbn [fold_left];
    [assumption|].
  apply IH. destruct (offers fp); [now apply add_NoDup | assumption].
Qed.
End SetOf.

Lemma sort_insert_Permutation {A} (cmp : A -> A -> JS.number) x (l : list A) :
  Permutation (JS.sort_insert cmp x l) (x :: l).
Proof.
  induction l as [|y l IH]; cbn [JS.sort_insert]; [reflexivity|].
  destruct (JS.gt _ _); [reflexivity|].
  rewrite IH. apply perm_swap.
Qed.

Lemma sort_by_Permutation {A} (cmp : A -> A -> JS.number) (l : list A) :
  Permutation (JS.sort_by cmp l) l.
Proof.
  unfold JS.sort_by.
  assert (Hacc : forall sorted,
             Permutation
               (fold_left (fun sorted x => JS.sort_insert cmp x sorted) l sorted)
               (sorted ++ l)).
  { induction l as [|x l IH]; intros sorted; cbn [fold_left].
    - now rewrite app_nil_r.
    - rewrite IH, sort_insert_Permutation. cbn [app].
      apply Permutation_middle. }
  apply Hacc.
Qed.

(** The sets the loop of [filterOptions] builds. *)
Lemma scan_sets c l a :
  FilterandNav.seen_projects (fold_left (FilterandNav.scan_step c) l a)
  = fold_left
      (fun set fp => match offers_project c fp with
                     | Some x => FilterandNav.add x set
                     | None => set
                     end)
      l (FilterandNav.seen_projects a) /\
  FilterandNav.seen_bedrooms (fold_left (FilterandNav.scan_step c) l a)
  = fold_left
      (fun set fp => match offers_text FloorPlanResponse.bedRooms fp with
                     | Some x => FilterandNav.add x set
                     | None => set
                     end)
      l (FilterandNav.seen_bedrooms a) /\
  FilterandNav.seen_bathrooms (fold_left (FilterandNav.scan_step c) l a)
  = fold_left
      (fun set fp => match offers_text FloorPlanResponse.bathRooms fp with
                     | Some x => FilterandNav.add x set
                     | None => set
                     end)
      l (FilterandNav.seen_bathrooms a).
Proof.
  revert a. induction l as [|fp l IH]; intros a; cbn [fold_left];
    [repeat split|].
  destruct (IH (FilterandNav.scan_step c a fp)) as (-> & -> & ->).
  unfold offers_project, offers_text. cbn.
  repeat split; f_equal.
  - destruct (FilterandNav.getProjectName c _) as [n|]; [|reflexivity].
    now destruct (String.eqb n "").
  - destruct (FloorPlanResponse.bedRooms fp) as [b|]; [|reflexivity].
    now destruct (String.eqb b "").
  - destruct (FloorPlanResponse.bathRooms fp) as [b|]; [|reflexivity].
    now destruct (String.eqb b "").
Qed.

Lemma getProjectName_not_empty c projectId :
  FilterandNav.getProjectName c projectId <> Some "".
Proof.
  unfold FilterandNav.getProjectName. destruct projectId as [pid|];
    [|discriminate].
  destruct (String.eqb pid ""); [discriminate|].
  destruct (FilterandNav.projectNameMap c !! pid) as [n|]; [|discriminate].
  destruct (String.eqb_spec n ""); congruence.
Qed.

Lemma offers_project_spec c fp n :
  offers_project c fp = Some n <->
  FilterandNav.getProjectName c (FloorPlanResponse.projectId fp) = Some n.
Proof.
  unfold offers_project.
  pose proof (getProjectName_not_empty c (FloorPlanResponse.projectId fp)) as Hne.
  destruct (FilterandNav.getProjectName c _) as [m|]; [|tauto].
  destruct (String.eqb_spec m ""); [congruence | tauto].
Qed.

Lemma offers_text_spec field fp b :
  offers_text field fp = Some b <-> b <> "" /\ field fp = Some b.
Proof.
  unfold offers_text. destruct (field fp) as [t|].
  - destruct (String.eqb_spec t ""); intuition congruence.
  - intuition congruence.
Qed.

(** Members of the three option lists. *)
Lemma filterOptions_members_aux :
  forall (c : ProjectConfig.t) (data : option (list FloorPlanResponse.t)),
    let o := FilterandNav.filterOptions c data in
    (forall n,
        In n (FilterandNav.projects o) <->
        exists fp, In fp (fetched_list data) /\
                   FilterandNav.getProjectName c (FloorPlanResponse.projectId fp)
                   = Some n) /\
    (forall b,
        In b (FilterandNav.bedrooms o) <->
        exists fp, In fp (fetched_list data) /\ b <> "" /\
                   FloorPlanResponse.bedRooms fp = Some b) /\
    (forall b,
        In b (FilterandNav.bathrooms o) <->
        exists fp, In fp (fetched_list data) /\ b <> "" /\
                   FloorPlanResponse.bathRooms fp = Some b).
Proof.
  intros c [fetched|]; cbn zeta.
  2:{ cbn. repeat split; try contradiction; intros (fp & [] & _). }
  cbn [FilterandNav.filterOptions FilterandNav.projects FilterandNav.bedrooms
         FilterandNav.bathrooms fetched_list].
  destruct (scan_sets c fetched FilterandNav.scan_start) as (-> & -> & ->).
  cbn [FilterandNav.scan_start FilterandNav.seen_projects
         FilterandNav.seen_bedrooms FilterandNav.seen_bathrooms].
  repeat split.
  - intros Hin. eapply Permutation_in in Hin; [|apply sort_by_Permutation].
    apply collect_In in Hin. destruct Hin as [[] | (fp & Hfp & Hn)].
    exists fp. split; [assumption | now apply offers_project_spec].
  - intros (fp & Hfp & Hn).
    eapply Permutation_in; [symmetry; apply sort_by_Permutation|].
    apply collect_In. right. exists fp.
    split; [assumption | now apply offers_project_spec].
  - intros Hin. eapply Permutation_in in Hin; [|apply sort_by_Permutation].
    apply collect_In in Hin. destruct Hin as [[] | (fp & Hfp & Hb)].
    exists fp. split; [assumption | now apply offers_text_spec in Hb].
  - intros (fp & Hfp & Hb).
    eapply Permutation_in; [symmetry; apply sort_by_Permutation|].
    apply collect_In. right. exists fp.
    split; [assumption | now apply offers_text_spec].
  - intros Hin. eapply Permutation_in in Hin; [|apply sort_by_Permutation].
    apply collect_In in Hin. destruct Hin as [[] | (fp & Hfp & Hb)].
    exists fp. split; [assumption | now apply offers_text_spec in Hb].
  - intros (fp & Hfp & Hb).
    eapply Permutation_in; [symmetry; apply sort_by_Permutation|].
    apply collect_In. right. exists fp.
    split; [assumption | now apply offers_text_spec].
Qed.


(** X15. The options of the filter drawer are what the fetched plans hold:
    a project is offered exactly when some fetched plan resolves to it, a
    bedroom (bathroom) count exactly when it is the non-empty count of
    some fetched plan; no option is offered twice. *)
Theorem filterOptions_members :
  forall (c : ProjectConfig.t) (data : option (list FloorPlanResponse.t)),
    let o := FilterandNav.filterOptions c data in
    (forall n,
        In n (FilterandNav.projects o) <->
        exists fp, In fp (fetched_list data) /\
                   FilterandNav.getProjectName c (FloorPlanResponse.projectId fp)
                   = Some n) /\
    (forall b,
        In b (FilterandNav.bedrooms o) <->
        exists fp, In fp (fetched_list data) /\ b <> "" /\
                   FloorPlanResponse.bedRooms fp = Some b) /\
    (forall b,
        In b (FilterandNav.bathrooms o) <->
        exists fp, In fp (fetched_list data) /\ b <> "" /\
                   FloorPlanResponse.bathRooms fp = Some b) /\
    List.NoDup (FilterandNav.projects o) /\
    List.NoDup (FilterandNav.bedrooms o) /\
    List.NoDup (FilterandNav.bathrooms o).
Proof.
  intros c data o.
  destruct (filterOptions_members_aux c data) as (Hprojects & Hbeds & Hbaths).
  do 3 (split; [assumption|]). subst o.
  destruct data as [fetched|]; [|cbn; repeat split; constructor].
  cbn [FilterandNav.filterOptions FilterandNav.projects FilterandNav.bedrooms
         FilterandNav.bathrooms].
  destruct (scan_sets c fetched FilterandNav.scan_start) as (-> & -> & ->).
  repeat split;
    (eapply Permutation_NoDup; [symmetry; apply sort_by_Permutation|]);
    apply collect_NoDup; constructor.
Qed.

Lemma filteredCount_positive c f data fp :
  In fp (fetched_list data) -> FilterandNav.counts c f fp = true ->
  (1 <= FilterandNav.filteredCount c f data)%nat.
Proof.
  intros Hin Hkeep. destruct data as [fetched|]; [|destruct Hin].
  cbn [FilterandNav.filteredCount fetched_list] in *.
  assert (Hfp : In fp (List.filter (FilterandNav.counts c f) fetched))
    by (apply filter_In; now split).
  destruct (List.filter _ fetched); [destruct Hfp | simpl; lia].
Qed.

(** X16. No option of the drawer leads to an empty list: with one offered
    project, bedroom count or bathroom count as the only filter, the
    result count is at least one. *)
Theorem every_option_finds_a_plan :
  forall (c : ProjectConfig.t) (data : option (list FloorPlanResponse.t)),
    let o := FilterandNav.filterOptions c data in
    (forall n,
        In n (FilterandNav.projects o) ->
        (1 <= FilterandNav.filteredCount c
                (FloorPlanFilters.set_projectName n FloorPlanFilters.initial)
                data)%nat) /\
    (forall b,
        In b (FilterandNav.bedrooms o) ->
        (1 <= FilterandNav.filteredCount c
                (FloorPlanFilters.set_bedrooms b FloorPlanFilters.initial)
                data)%nat) /\
    (forall b,
        In b (FilterandNav.bathrooms o) ->
        (1 <= FilterandNav.filteredCount c
                (FloorPlanFilters.set_bathrooms b FloorPlanFilters.initial)
                data)%nat).
Proof.
  intros c data o.
  destruct (filterOptions_members_aux c data) as (Hprojects & Hbeds & Hbaths).
  fold o in Hprojects, Hbeds, Hbaths.
  repeat split.
  - intros n Hn. apply Hprojects in Hn. destruct Hn as (fp & Hfp & Hname).
    apply (filteredCount_positive c _ data fp Hfp).
    rewrite counts_keeps. apply keeps_spec. cbn.
    repeat split; try contradiction; try discriminate. now intros _.
  - intros b Hb. apply Hbeds in Hb. destruct Hb as (fp & Hfp & _ & Hbed).
    apply (filteredCount_positive c _ data fp Hfp).
    rewrite counts_keeps. apply keeps_spec. cbn.
    repeat split; try contradiction; try discriminate. now intros _.
  - intros b Hb. apply Hbaths in Hb. destruct Hb as (fp & Hfp & _ & Hbath).
    apply (filteredCount_positive c _ data fp Hfp).
    rewrite counts_keeps. apply keeps_spec. cbn.
    repeat split; try contradiction; try discriminate. now intros _.
Qed.

(** ** The order of the options *)

Section SortedBy.
Context {A : Type} (cmp : A -> A -> JS.number).
Context (P : A -> Prop) (le : A -> A -> Prop).
Hypothesis le_cmp :
  forall a b, P a -> P b -> JS.gt (cmp a b) (JS.of_Z 0) = false -> le a b.
Hypothesis gt_cmp :
  forall a b, P a -> P b -> JS.gt (cmp a b) (JS.of_Z 0) = true -> le b a.
Hypothesis le_trans :
  forall a b c, P a -> P b -> P c -> le a b -> le b c -> le a c.

Lemma sort_insert_sorted x l :
  P x -> Forall P l -> StronglySorted le l ->
  StronglySorted le (JS.sort_insert cmp x l).
Proof.
  intros Hx Hl Hsorted. induction l as [|y l IH]; cbn [JS.sort_insert].
  - repeat constructor.
  - apply Forall_cons in Hl as [Hy Hl].
    apply StronglySorted_inv in Hsorted as [Hsorted Hyl].
    destruct (JS.gt (cmp y x) (JS.of_Z 0)) eqn:Hcmp.
    + pose proof (gt_cmp y x Hy Hx Hcmp) as Hxy.
      constructor; [now constructor|]. constructor; [assumption|].
      rewrite Forall_forall in Hyl, Hl. apply Forall_forall. intros z Hz.
      apply (le_trans x y z); auto.
    + constructor; [now apply IH|].
      rewrite Forall_forall in Hyl. apply Forall_forall. intros z Hz.
      apply list_elem_of_In in Hz.
      apply (Permutation_in _ (sort_insert_Permutation cmp x l)) in Hz.
      destruct Hz as [<- | Hz]; [now apply le_cmp|].
      apply Hyl. now apply list_elem_of_In.
Qed.

Lemma sort_by_sorted l :
  Forall P l -> StronglySorted le (JS.sort_by cmp l).
Proof.
  unfold JS.sort_by. intros Hl.
  assert (Hacc : forall sorted,
             Forall P sorted -> StronglySorted le sorted ->
             StronglySorted le
               (fold_left (fun sorted x => JS.sort_insert cmp x sorted)
                          l sorted)).
  { induction l as [|x l IH]; intros sorted Hp Hsorted; cbn [fold_left];
      [assumption|].
    apply Forall_cons in Hl as [Hx Hl]. apply IH; [assumption| |].
    - rewrite Forall_forall. intros z Hz. apply list_elem_of_In in Hz.
      apply (Permutation_in _ (sort_insert_Permutation cmp x sorted)) in Hz.
      destruct Hz as [<- | Hz]; [assumption|].
      rewrite Forall_forall in Hp. now apply Hp, list_elem_of_In.
    - now apply sort_insert_sorted. }
  apply Hacc; constructor.
Qed.
End SortedBy.

Lemma gt_sub_order (qa qb : Q) :
  JS.gt (JS.sub (JS.Fin qa) (JS.Fin qb)) (JS.of_Z 0) = false <-> (qa <= qb)%Q.
Proof.
  unfold JS.gt, JS.lt, JS.sub, JS.of_Z.
  rewrite negb_false_iff, Qle_bool_iff.
  destruct qa as [a b], qb as [c d]. unfold Qle. cbn. lia.
Qed.

Lemma order_by_key (key : string -> JS.number) (l : list string) :
  Forall (fun a => exists q, key a = JS.Fin q) l ->
  StronglySorted (keys_in_order key)
    (JS.sort_by (fun x y => JS.sub (key x) (key y)) l).
Proof.
  apply sort_by_sorted.
  - intros a b (qa & Ha) (qb & Hb) Hcmp. rewrite Ha, Hb in Hcmp.
    exists qa, qb. repeat split; try assumption. now apply gt_sub_order.
  - intros a b (qa & Ha) (qb & Hb) Hcmp. rewrite Ha, Hb in Hcmp.
    exists qb, qa. repeat split; try assumption.
    apply Qlt_le_weak, Qnot_le_lt. intros Hle.
    apply gt_sub_order in Hle. congruence.
  - intros a b c _ _ _ (qa & qb & Ha & Hb & Hab) (qb' & qc & Hb' & Hc & Hbc).
    exists qa, qc. repeat split; try assumption.
    rewrite Hb in Hb'. injection Hb' as <-. now apply (Qle_trans _ qb).
Qed.

Lemma order_by_code_units (l : list string) :
  StronglySorted (fun a b => String.leb a b = true)
    (JS.sort_by JS.default_compare l).
Proof.
  apply (sort_by_sorted JS.default_compare (fun _ => True)).
  - intros a b _ _. unfold JS.default_compare, String.leb.
    destruct (String.compare a b); vm_compute; congruence.
  - intros a b _ _. unfold JS.default_compare, String.leb.
    rewrite (String.compare_antisym a b).
    destruct (String.compare b a); vm_compute; congruence.
  - intros a b c _ _ _ Hab Hbc. apply Is_true_true.
    apply (PreOrder_Transitive (R:=String.le) a b c); now apply Is_true_true.
  - now apply Forall_forall.
Qed.

(** X17. The project options are in ascending order of their code units.
    When every offered bedroom count reads as a number ([parseInt] without
    a radix), the bedroom options are in ascending order of those numbers,
    and likewise the bathroom options by [parseFloat]. *)
Theorem filterOptions_sorted :
  forall (c : ProjectConfig.t) (data : option (list FloorPlanResponse.t)),
    let o := FilterandNav.filterOptions c data in
    StronglySorted (fun a b => String.leb a b = true) (FilterandNav.projects o) /\
    (Forall (fun b => exists q, JS.parseInt_auto b = JS.Fin q)
            (FilterandNav.bedrooms o) ->
     StronglySorted (keys_in_order JS.parseInt_auto) (FilterandNav.bedrooms o)) /\
    (Forall (fun b => exists q, JS.parseFloat b = JS.Fin q)
            (FilterandNav.bathrooms o) ->
     StronglySorted (keys_in_order JS.parseFloat) (FilterandNav.bathrooms o)).
Proof.
  intros c [fetched|]; cbn zeta; [|cbn; repeat split; constructor].
  cbn [FilterandNav.filterOptions FilterandNav.projects FilterandNav.bedrooms
         FilterandNav.bathrooms].
  split; [apply order_by_code_units|].
  split; intros Hall; apply order_by_key;
    exact (Permutation_Forall (sort_by_Permutation _ _) Hall).
Qed.

(** Counts with the same whole number keep the order in which the plans
    brought them. *)
Example bedroom_options_order :
  JS.sort_by (fun x y => JS.sub (JS.parseInt_auto x) (JS.parseInt_auto y))
    ["3.5"; "10"; "2"; "3"; "1"; "2.5"]
  = ["1"; "2"; "2.5"; "3.5"; "3"; "10"].
Proof. reflexivity. Qed.

(** ** The size range of the options *)

Lemma lt_of_Z (a b : Z) : JS.lt (JS.of_Z a) (JS.of_Z b) = (a <? b).
Proof.
  unfold JS.lt, JS.of_Z.
  destruct (Z.ltb_spec a b) as [Hlt|Hge].
  - apply negb_true_iff, not_true_iff_false. rewrite Qle_bool_iff, <- Zle_Qle.
    lia.
  - apply negb_false_iff. rewrite Qle_bool_iff, <- Zle_Qle. lia.
Qed.







(** The sample plans have the sizes 980, 1240 and 1620 and one that is no
    number. *)
Example sizeRange_sample :
  FilterandNav.sizeRange (FilterandNav.filterOptions sample_config sample_data)
  = {| FloorPlanFilters.min := JS.of_Z 980;
       FloorPlanFilters.max := JS.of_Z 1620 |}.
Proof. reflexivity. Qed.

(** ** The size select *)

Lemma keeps_size_only c fp (lo hi : Z) (size : JS.number) :
  JS.parseInt (size_text fp) = size ->
  FloorPlans.keeps c
    (FloorPlanFilters.set_sizeRange
       (Some {| FloorPlanFilters.min := JS.of_Z lo;
                FloorPlanFilters.max := JS.of_Z hi |})
       FloorPlanFilters.initial)
    fp
  = negb (JS.lt size (JS.of_Z lo) || JS.gt size (JS.of_Z hi)).
Proof.
  intros <-. unfold FloorPlans.keeps. cbn. fold (size_text fp).
  now destruct (orb _ _).
Qed.

(** X19. The four options of the size select have inclusive bounds that
    meet: a plan whose size reads as an integer from 0 to 99999 is kept by
    exactly one option, except at 1000, 1500 and 2000, where two options
    keep it; a negative or larger size is kept by none, and a size that is
    no number by all four.  Each option, once chosen, is the value the
    select shows again. *)
Theorem size_options_meet :
  forall (c : ProjectConfig.t) (f : FloorPlanFilters.t)
         (fp : FloorPlanResponse.t),
    (forall z,
        JS.parseInt (size_text fp) = JS.of_Z z ->
        length (size_options_keeping c fp)
        = if decide (z = 1000 \/ z = 1500 \/ z = 2000) then 2%nat
          else if decide (0 <= z <= 99999) then 1%nat else 0%nat) /\
    (JS.parseInt (size_text fp) = JS.NaN ->
     size_options_keeping c fp = FilterandNav.sizeOptionValues) /\
    Forall
      (fun value =>
         FilterandNav.sizeSelectValue
           (FloorPlanFilters.set_sizeRange (FilterandNav.selectSize value) f)
         = value)
      ("" :: FilterandNav.sizeOptionValues).
Proof.
  intros c f fp.
  assert (Hkeeping : forall size,
             JS.parseInt (size_text fp) = size ->
             size_options_keeping c fp
             = List.filter
                 (fun value =>
                    match FilterandNav.selectSize value with
                    | Some r =>
                        negb (JS.lt size (FloorPlanFilters.min r)
                              || JS.gt size (FloorPlanFilters.max r))
                    | None => true
                    end)
                 FilterandNav.sizeOptionValues).
  { intros size Hsize. unfold size_options_keeping. apply filter_ext_in.
    intros value Hvalue.
    assert (Hbounds : exists lo hi,
               FilterandNav.selectSize value
               = Some {| FloorPlanFilters.min := JS.of_Z lo;
                         FloorPlanFilters.max := JS.of_Z hi |}).
    { cbn in Hvalue. destruct Hvalue as [<- | [<- | [<- | [<- | []]]]];
        eexists _, _; reflexivity. }
    destruct Hbounds as (lo & hi & ->). now apply keeps_size_only. }
  split; [|split].
  - intros z Hz. rewrite (Hkeeping _ Hz).
    unfold FilterandNav.sizeOptionValues. cbn [List.filter].
    change (FilterandNav.selectSize "0-1000")
      with (Some {| FloorPlanFilters.min := JS.of_Z 0;
                    FloorPlanFilters.max := JS.of_Z 1000 |}).
    change (FilterandNav.selectSize "1000-1500")
      with (Some {| FloorPlanFilters.min := JS.of_Z 1000;
                    FloorPlanFilters.max := JS.of_Z 1500 |}).
    change (FilterandNav.selectSize "1500-2000")
      with (Some {| FloorPlanFilters.min := JS.of_Z 1500;
                    FloorPlanFilters.max := JS.of_Z 2000 |}).
    change (FilterandNav.selectSize "2000-99999")
      with (Some {| FloorPlanFilters.min := JS.of_Z 2000;
                    FloorPlanFilters.max := JS.of_Z 99999 |}).
    cbn [FloorPlanFilters.min FloorPlanFilters.max]. unfold JS.gt.
    rewrite !lt_of_Z.
    destruct (Z.ltb_spec z 0), (Z.ltb_spec 1000 z), (Z.ltb_spec z 1000),
      (Z.ltb_spec 1500 z), (Z.ltb_spec z 1500), (Z.ltb_spec 2000 z),
      (Z.ltb_spec z 2000), (Z.ltb_spec 99999 z);
      try lia; cbn [orb negb length];
      repeat case_decide; try reflexivity; lia.
  - intros Hnan. rewrite (Hkeeping _ Hnan). reflexivity.
  - repeat constructor.
Qed.

(** ** The drawer and the tab row *)

Lemma handlers_of_elem {E} tag className (onClick : option E) vs :
  handlers_of (View.VElem tag className onClick vs)
  = (match onClick with Some ev => [ev] | None => [] end
     ++ concat (List.map handlers_of vs))%list.
Proof.
  simpl. f_equal. induction vs as [|v vs IH]; simpl; [reflexivity|].
  now rewrite IH.
Qed.

Lemma handlers_of_text {E} s : handlers_of (E:=E) (View.VText s) = [].
Proof. reflexivity. Qed.

Ltac walk_events :=
  repeat (progress
            (rewrite ?handlers_of_elem, ?handlers_of_text;
             cbn [List.map concat app])).

Lemma option_handlers change value label :
  handlers_of (FilterandNav.option_of change value label) = [change value].
Proof. reflexivity. Qed.

Lemma options_handlers change (choices : list (string * string)) :
  concat
    (List.map handlers_of
       (List.map
          (fun choice =>
             FilterandNav.option_of change (fst choice) (snd choice))
          choices))
  = List.map (fun choice => change (fst choice)) choices.
Proof.
  induction choices as [|choice choices IH]; cbn [List.map concat];
    [reflexivity|].
  now rewrite IH, option_handlers.
Qed.

Lemma section_handlers label active chip_label change choices :
  handlers_of
    (FilterandNav.section label active chip_label change choices)
  = ((if active then [change ""] else [])
     ++ change "" :: List.map (fun choice => change (fst choice)) choices)%list.
Proof.
  unfold FilterandNav.section, FilterandNav.chip.
  pose proof (options_handlers change choices) as Hoptions.
  destruct active; walk_events; rewrite option_handlers, Hoptions;
    cbn [app]; now rewrite ?app_nil_r.
Qed.

(** The handlers a rendering of [FilterandNav] offers. *)
Lemma drawer_handlers toLocaleString p isFilterOpen data :
  concat (List.map handlers_of
            (FilterandNav.drawer toLocaleString p isFilterOpen data))
  = ((if isFilterOpen then [FilterandNav.CloseFilter] else [])
     ++ FilterandNav.ClearFilters
     :: ((if negb (String.eqb (FloorPlanFilters.projectName
                                 (FilterandNav.filters p)) "")
          then [FilterandNav.ChangeProjectName ""] else [])
         ++ FilterandNav.ChangeProjectName ""
         :: List.map FilterandNav.ChangeProjectName
              (FilterandNav.projects
                 (FilterandNav.filterOptions (FilterandNav.config p) data)))
     ++ ((if negb (String.eqb (FloorPlanFilters.bedrooms
                                 (FilterandNav.filters p)) "")
          then [FilterandNav.ChangeBedrooms ""] else [])
         ++ FilterandNav.ChangeBedrooms ""
         :: List.map FilterandNav.ChangeBedrooms
              (FilterandNav.bedrooms
                 (FilterandNav.filterOptions (FilterandNav.config p) data)))
     ++ ((if negb (String.eqb (FloorPlanFilters.bathrooms
                                 (FilterandNav.filters p)) "")
          then [FilterandNav.ChangeBathrooms ""] else [])
         ++ FilterandNav.ChangeBathrooms ""
         :: List.map FilterandNav.ChangeBathrooms
              (FilterandNav.bathrooms
                 (FilterandNav.filterOptions (FilterandNav.config p) data)))
     ++ ((if match FloorPlanFilters.sizeRange (FilterandNav.filters p) with
             | Some _ => true
             | None => false
             end
          then [FilterandNav.ChangeSize ""] else [])
         ++ FilterandNav.ChangeSize ""
         :: List.map FilterandNav.ChangeSize FilterandNav.sizeOptionValues))%list.
Proof.
  unfold FilterandNav.drawer. cbv zeta.
  rewrite List.map_app, concat_app. f_equal.
  - destruct isFilterOpen; reflexivity.
  - cbn [List.map concat]. rewrite handlers_of_elem.
    cbn [List.map concat app].
    rewrite (handlers_of_elem "div" "fp-filter-drawer-header").
    rewrite (handlers_of_elem "div" "fp-filter-drawer-content").
    cbn [List.map concat app]. rewrite !section_handlers.
    rewrite !List.map_map. cbn [fst].
    walk_events. rewrite !app_nil_r, <- !app_assoc. reflexivity.
Qed.

Lemma nav_handlers p showMap :
  concat (List.map handlers_of (FilterandNav.nav p showMap))
  = if String.eqb (ProjectConfig.slug (FilterandNav.config p)) "lightwell"
    then ((if String.eqb (FilterandNav.activeTab p) "floor-plans"
           then [FilterandNav.OpenFilter] else [])
          ++ [FilterandNav.TabClick "projects";
              FilterandNav.TabClick "map";
              FilterandNav.TabClick "floor-plans"])%list
    else [].
Proof.
  unfold FilterandNav.nav, FilterandNav.tab_button.
  destruct (String.eqb (ProjectConfig.slug _) "lightwell"); [|reflexivity].
  destruct (String.eqb (FilterandNav.activeTab p) "floor-plans");
    [destruct (Nat.ltb _ _)|]; walk_events; reflexivity.
Qed.

Lemma in_choice {E} (change : string -> E) (active : bool)
    (values : list string) (ev : E) :
  In ev ((if active then [change ""] else [])
         ++ change "" :: List.map change values) ->
  exists value, ev = change value /\ (value = "" \/ In value values).
Proof.
  rewrite in_app_iff. intros [Hchip | [<- | Hoption]].
  - destruct active; [|destruct Hchip].
    destruct Hchip as [<- | []]. exists "". auto.
  - exists "". auto.
  - apply in_map_iff in Hoption. destruct Hoption as (value & <- & Hvalue).
    exists value. auto.
Qed.

(** Every handler that the mounted [FilterandNav] offers. *)
Lemma offered_cases toLocaleString config st data ev :
  In ev (concat (List.map handlers_of
                   (App.filterandNav toLocaleString config st data))) ->
  let o := FilterandNav.filterOptions config data in
  ev = FilterandNav.CloseFilter \/
  ev = FilterandNav.ClearFilters \/
  (exists value, ev = FilterandNav.ChangeProjectName value /\
                 (value = "" \/ In value (FilterandNav.projects o))) \/
  (exists value, ev = FilterandNav.ChangeBedrooms value /\
                 (value = "" \/ In value (FilterandNav.bedrooms o))) \/
  (exists value, ev = FilterandNav.ChangeBathrooms value /\
                 (value = "" \/ In value (FilterandNav.bathrooms o))) \/
  (exists value, ev = FilterandNav.ChangeSize value /\
                 (value = "" \/ In value FilterandNav.sizeOptionValues)) \/
  (ProjectConfig.slug config = "lightwell" /\
   ((ev = FilterandNav.OpenFilter /\ App.activeTab st = "floor-plans") \/
    exists tab, ev = FilterandNav.TabClick tab /\
                In tab ["projects"; "map"; "floor-plans"])).
Proof.
  unfold App.filterandNav, FilterandNav.render.
  rewrite List.map_app, concat_app, drawer_handlers, nav_handlers.
  cbn [App.filterandNav_props FilterandNav.config FilterandNav.filters
         FilterandNav.activeTab].
  intros Hin. cbv zeta.
  apply in_app_iff in Hin. destruct Hin as [Hdrawer | Hnav].
  - apply in_app_iff in Hdrawer. destruct Hdrawer as [Hclose | Hrest].
    { left. destruct (App.isFilterOpen st); [|destruct Hclose].
      now destruct Hclose as [<- | []]. }
    destruct Hrest as [<- | Hrest]; [auto|].
    apply in_app_iff in Hrest. destruct Hrest as [Hproject | Hrest].
    { right; right; left. now apply in_choice in Hproject. }
    apply in_app_iff in Hrest. destruct Hrest as [Hbeds | Hrest].
    { right; right; right; left. now apply in_choice in Hbeds. }
    apply in_app_iff in Hrest. destruct Hrest as [Hbaths | Hsize].
    { right; right; right; right; left. now apply in_choice in Hbaths. }
    right; right; right; right; right; left. now apply in_choice in Hsize.
  - do 6 right.
    destruct (String.eqb_spec (ProjectConfig.slug config) "lightwell")
      as [Hslug|]; [|destruct Hnav].
    split; [assumption|]. apply in_app_iff in Hnav.
    destruct Hnav as [Hopen | Htab].
    + left. destruct (String.eqb_spec (App.activeTab st) "floor-plans");
        [|destruct Hopen].
      destruct Hopen as [<- | []]. now split.
    + right. cbn [In] in Htab.
      destruct Htab as [<- | [<- | [<- | []]]]; eexists; split;
        try reflexivity; cbn; auto.
Qed.

(** X20. Through a session of [App] (fixed configuration and fetched
    list), the map flag is set exactly on the map tab, the tab is one of the
    three, the drawer fetches exactly when the floor plans are the main
    view, and every filter value is empty or one of the offered options.
    For a hub whose slug is not ["lightwell"] the tab never changes and
    the drawer is never opened, so the floor plans are never shown. *)
Theorem app_session :
  forall (toLocaleString : JS.number -> string) (config : ProjectConfig.t)
         (show_map : option bool) (data : option (list FloorPlanResponse.t))
         (st : App.state),
    app_reachable toLocaleString config show_map data st ->
    (App.showMap st = true <-> App.activeTab st = "map") /\
    In (App.activeTab st) ["projects"; "map"; "floor-plans"] /\
    (UseFloorPlansCall.enabled
       (FilterandNav.useFloorPlans_call
          (App.filterandNav_props config (App.activeTab st) (App.filters st)))
     = true <->
     App.main_view config st
     = App.MainFloorPlans (App.floorPlans_props config (App.filters st))) /\
    from_options (App.filters st) (FilterandNav.filterOptions config data) /\
    (ProjectConfig.slug config <> "lightwell" ->
     App.activeTab st = App.activeTab (App.initial_state show_map) /\
     App.isFilterOpen st = false /\
     App.main_view config st
     <> App.MainFloorPlans (App.floorPlans_props config (App.filters st))).
Proof.
  intros toLocaleString config show_map data st Hreach.
  assert (Hfetch : forall st',
             UseFloorPlansCall.enabled
               (FilterandNav.useFloorPlans_call
                  (App.filterandNav_props config (App.activeTab st')
                     (App.filters st')))
             = true <->
             App.main_view config st'
             = App.MainFloorPlans
                 (App.floorPlans_props config (App.filters st'))).
  { intros st'. unfold App.main_view. cbn.
    destruct (String.eqb (App.activeTab st') "floor-plans");
      [tauto|].
    split; [discriminate|]. now destruct (App.showMap st'). }
  assert (Hinv : (App.showMap st = true <-> App.activeTab st = "map") /\
                 In (App.activeTab st) ["projects"; "map"; "floor-plans"] /\
                 from_options (App.filters st)
                   (FilterandNav.filterOptions config data) /\
                 (ProjectConfig.slug config <> "lightwell" ->
                  App.activeTab st = App.activeTab (App.initial_state show_map) /\
                  App.isFilterOpen st = false)).
  { induction Hreach as [|st ev Hreach IH Hoffered].
    - unfold App.initial_state, from_options. cbn.
      destruct show_map as [[|]|]; cbn; intuition (auto; discriminate).
    - destruct IH as (Hmap & Htab & Hoptions & Hother).
      destruct Hoptions as (Hp & Hb & Hba & Hs).
      apply offered_cases in Hoffered. cbv zeta in Hoffered.
      destruct Hoffered
        as [-> | [-> | [(v & -> & Hv) | [(v & -> & Hv) | [(v & -> & Hv)
           | [(v & -> & Hv) | (Hslug & [[-> Hon] | (tab & -> & Hin)])]]]]]];
        unfold from_options; cbn;
        try (split; [assumption|]; split; [assumption|]; split;
             [|assumption || (intros Hne; now destruct (Hother Hne))]);
        try tauto.
      + split; [exact Hp|]. split; [exact Hb|]. split; [exact Hba|].
        destruct Hv as [-> | Hv]; [now left|]. right.
        exists v. split; [exact Hv | reflexivity].
      + split.
        { destruct (String.eqb_spec tab "map"); intuition congruence. }
        split; [cbn [In] in Hin; tauto|]. split; [tauto|].
        intros Hne. contradiction. }
  destruct Hinv as (Hmap & Htab & Hoptions & Hother).
  split; [assumption|]. split; [assumption|]. split; [apply Hfetch|].
  split; [assumption|].
  intros Hne. destruct (Hother Hne) as [Hsame Hclosed].
  split; [assumption|]. split; [assumption|].
  intros Hmain. apply Hfetch in Hmain. cbn in Hmain.
  apply String.eqb_eq in Hmain. rewrite Hmain in Hsame.
  unfold App.initial_state in Hsame. cbn in Hsame.
  destruct show_map as [[|]|]; discriminate.
Qed.

Lemma app_session_sample :
  app_reachable JS.toString sample_config None sample_data browsing /\
  App.main_view sample_config browsing
  = App.MainFloorPlans
      (App.floorPlans_props sample_config (App.filters browsing)).
Proof.
  assert (Hreach : app_reachable JS.toString sample_config None sample_data
                     browsing).
  { apply app_handle; [apply app_handle; [apply app_initial|]|];
      vm_compute; tauto. }
  split; [exact Hreach|].
  apply (app_session JS.toString sample_config None sample_data browsing Hreach).
  reflexivity.
Defined.

(** ** What the drawer and the tab row show *)

Lemma option_count c (change : string -> FilterandNav.event) value label :
  c <> "" ->
  View.count (View.has_class c) (FilterandNav.option_of change value label)
  = 0%nat.
Proof.
  intros Hc. unfold FilterandNav.option_of. rewrite count_elem.
  cbn [View.has_class]. destruct (String.eqb_spec c ""); [contradiction|].
  walk_tree. reflexivity.
Qed.

Lemma options_count c (change : string -> FilterandNav.event)
    (choices : list (string * string)) :
  c <> "" ->
  foldr (fun v n => (View.count (View.has_class c) v + n)%nat) 0%nat
    (List.map (fun choice => FilterandNav.option_of change (fst choice) (snd choice))
       choices) = 0%nat.
Proof.
  intros Hc.
  apply (count_all_map_zero (View.has_class c)
           (fun choice => FilterandNav.option_of change (fst choice) (snd choice))).
  intros choice. now apply option_count.
Qed.


Lemma section_selects label active chip_label change choices :
  View.count (View.has_class "fp-filter-select")
    (FilterandNav.section label active chip_label change choices)
  = 1%nat.
Proof.
  unfold FilterandNav.section, FilterandNav.chip.
  destruct active; cbn [app]; walk_tree;
    rewrite option_count, options_count by discriminate; reflexivity.
Qed.










